(** * ATS-BT serial command engine and A2DP/AVRCP workflow

    A shallow embedding of [ats_bt_control.py] (class [ATSBT]) and of
    [ats_bt_a2dp_connect.py] (class [A2DPConnection]).

    Python [str] values are [string]s whose characters are code points
    below 256, [bytes] values are [list byte], [int] values are [Z].
    A method is a function from the object to a result and the updated
    object; a result is [Return v] or [Raise e].

    The serial port is a record with its input buffer and the bytes
    written so far.  The wall clock is not modelled: every polling loop
    of the source runs once per element of a finite list of [poll]s,
    the list being the iterations that fit before the deadline of the
    loop; a [poll] says which bytes reached the port since the previous
    iteration and whether a read attempted in it fails.  Opening the
    port, writing and [in_waiting] do not fail; [time.sleep] leaves no
    trace, nor does [print], except in [print_devices], whose result is
    the list of the texts it prints. *)

From Stdlib Require Import Bool Arith ZArith Lia List.
From Stdlib Require Import Ascii String DecimalString.
From Stdlib.Strings Require Import Byte.
Import ListNotations.

Local Open Scope string_scope.
Local Open Scope list_scope.
Local Open Scope nat_scope.

(** ** Python string primitives *)

Module PyStr.

Definition code (c : ascii) : nat := nat_of_ascii c.

(** [str.isspace] on one character, for code points below 256.
    This is the set used by [str.strip()], [str.split()] and by the
    [\s] class of [re] on [str] patterns. *)
Definition isspace (c : ascii) : bool :=
  let n := code c in
  ((9 <=? n) && (n <=? 13)) || ((28 <=? n) && (n <=? 32))
  || (n =? 133) || (n =? 160).

(** [\d] of [re] on [str] patterns, for code points below 256. *)
Definition isdigit (c : ascii) : bool :=
  let n := code c in (48 <=? n) && (n <=? 57).

Definition LF : ascii := ascii_of_nat 10.
Definition CR : ascii := ascii_of_nat 13.

Definition nonempty (s : string) : bool :=
  match s with EmptyString => false | String _ _ => true end.

(** [s.startswith(pre)] *)
Fixpoint startswith (s pre : string) : bool :=
  match pre, s with
  | EmptyString, _ => true
  | String _ _, EmptyString => false
  | String a pre', String b s' => Ascii.eqb a b && startswith s' pre'
  end.

(** [sub in s] *)
Fixpoint contains (sub s : string) : bool :=
  startswith s sub ||
  match s with
  | EmptyString => false
  | String _ s' => contains sub s'
  end.

(** [s.endswith(suffix)] *)
Fixpoint endswith (s suffix : string) : bool :=
  String.eqb s suffix ||
  match s with
  | EmptyString => false
  | String _ s' => endswith s' suffix
  end.

Fixpoint lstrip (s : string) : string :=
  match s with
  | EmptyString => EmptyString
  | String c s' => if isspace c then lstrip s' else s
  end.

Fixpoint rstrip (s : string) : string :=
  match s with
  | EmptyString => EmptyString
  | String c s' =>
      match rstrip s' with
      | EmptyString => if isspace c then EmptyString else String c EmptyString
      | r => String c r
      end
  end.

(** [s.strip()] *)
Definition strip (s : string) : string := lstrip (rstrip s).

(** [sep.join(parts)] *)
Definition join (sep : string) (parts : list string) : string :=
  String.concat sep parts.

(** [s.split(c)] for a one-character separator. *)
Fixpoint split_on (c : ascii) (s : string) : list string :=
  match s with
  | EmptyString => [EmptyString]
  | String a s' =>
      if Ascii.eqb a c then EmptyString :: split_on c s'
      else match split_on c s' with
           | [] => [String a EmptyString]
           | h :: t => String a h :: t
           end
  end.

(** [s.split()]: maximal runs of non-whitespace characters.
    [cur] is the token under construction, kept reversed. *)
Fixpoint split_ws_aux (cur : list ascii) (s : string) : list string :=
  let flush rest :=
    match cur with
    | [] => rest
    | _ => string_of_list_ascii (rev cur) :: rest
    end in
  match s with
  | EmptyString => flush []
  | String c s' =>
      if isspace c then flush (split_ws_aux [] s')
      else split_ws_aux (c :: cur) s'
  end.

Definition split_ws (s : string) : list string := split_ws_aux [] s.

(** [s[n:]] *)
Fixpoint drop (n : nat) (s : string) : string :=
  match n, s with
  | O, _ => s
  | S _, EmptyString => EmptyString
  | S n', String _ s' => drop n' s'
  end.

(** [s[:n]] *)
Fixpoint take (n : nat) (s : string) : string :=
  match n, s with
  | O, _ => EmptyString
  | S _, EmptyString => EmptyString
  | S n', String c s' => String c (take n' s')
  end.

(** [s.replace(old, new)]: non-overlapping occurrences, leftmost
    first.  [fuel] bounds the number of scanning steps; the length of
    the string is always enough. *)
Fixpoint replace_fuel (fuel : nat) (old new s : string) : string :=
  match fuel with
  | O => s
  | S fuel' =>
      if startswith s old
      then (new ++ replace_fuel fuel' old new (drop (length old) s))%string
      else match s with
           | EmptyString => EmptyString
           | String c s' => String c (replace_fuel fuel' old new s')
           end
  end.

Definition replace (old new s : string) : string :=
  replace_fuel (length s) old new s.

(** [all(c in alphabet for c in s)] *)
Fixpoint all_in (alphabet : string) (s : string) : bool :=
  match s with
  | EmptyString => true
  | String c s' => contains (String c EmptyString) alphabet && all_in alphabet s'
  end.

Fixpoint forall_chars (p : ascii -> bool) (s : string) : bool :=
  match s with
  | EmptyString => true
  | String c s' => p c && forall_chars p s'
  end.

(** [str(n)] for an [int], as the f-strings of the source format the
    scan duration, a clamped level, a position in the device table
    and a signal strength [int] has converted.  That [str] refuses an
    [int] of more than 4300 digits is not modelled. *)
Definition str_of_int (n : Z) : string := NilZero.string_of_int (Z.to_int n).

Definition digit_value (c : ascii) : Z := (Z.of_nat (code c) - 48)%Z.

Fixpoint decimal_value (acc : Z) (digits : string) : Z :=
  match digits with
  | EmptyString => acc
  | String c s' => decimal_value (10 * acc + digit_value c)%Z s'
  end.

(** The longest run of digits [int] converts: the default of
    [sys.int_info.default_max_str_digits]. *)
Definition max_str_digits : nat := 4300.

(** [int(s)] on the texts the source passes to it: an optional minus
    sign followed by one or more decimal digits.  [int] refuses more
    than [max_str_digits] digits, leading zeros counted and the sign
    not.  [None] stands for [ValueError]. *)
Definition int_of_str (s : string) : option Z :=
  match s with
  | EmptyString => None
  | String c ds =>
      if Ascii.eqb c "-" then
        if nonempty ds && forall_chars isdigit ds
           && (length ds <=? max_str_digits)
        then Some (- decimal_value 0 ds)%Z else None
      else
        if forall_chars isdigit s && (length s <=? max_str_digits)
        then Some (decimal_value 0 s) else None
  end.

(** [s.encode('ascii')]: [None] stands for [UnicodeEncodeError]. *)
Fixpoint encode_ascii (s : string) : option (list byte) :=
  match s with
  | EmptyString => Some []
  | String c s' =>
      if code c <? 128
      then option_map (cons (byte_of_ascii c)) (encode_ascii s')
      else None
  end.

(** [b.decode('ascii', errors='ignore')]: bytes above 127 are dropped. *)
Fixpoint decode_ascii_ignore (b : list byte) : string :=
  match b with
  | [] => EmptyString
  | x :: b' =>
      if Byte.to_nat x <? 128
      then String (ascii_of_byte x) (decode_ascii_ignore b')
      else decode_ascii_ignore b'
  end.

(** [str.lower()] on one character, for code points below 256. *)
Definition lower_char (c : ascii) : ascii :=
  let n := code c in
  if ((65 <=? n) && (n <=? 90))
     || ((192 <=? n) && (n <=? 222) && negb (n =? 215))
  then ascii_of_nat (n + 32) else c.

Fixpoint lower (s : string) : string :=
  match s with
  | EmptyString => EmptyString
  | String c s' => String (lower_char c) (lower s')
  end.

(** [str.upper()] on one ASCII character.  It is applied to decoded
    responses only, which hold no other character. *)
Definition upper_char (c : ascii) : ascii :=
  let n := code c in
  if (97 <=? n) && (n <=? 122) then ascii_of_nat (n - 32) else c.

Fixpoint upper (s : string) : string :=
  match s with
  | EmptyString => EmptyString
  | String c s' => String (upper_char c) (upper s')
  end.

(** [c * n] for a one-character text [c]. *)
Fixpoint times (c : ascii) (n : nat) : string :=
  match n with
  | O => EmptyString
  | S n' => String c (times c n')
  end.

(** The format specification [:<width] on a text: padded with spaces
    on the right, never cut. *)
Definition ljust (width : nat) (s : string) : string :=
  (s ++ times " " (width - length s))%string.

(** [s[:-2]] *)
Definition chop2 (s : string) : string := take (length s - 2) s.

End PyStr.

(** ** Exceptions *)

Inductive exn : Type :=
| RuntimeError          (* raised by [send_command] when not connected *)
| UnicodeEncodeError    (* [str.encode('ascii')] on a non-ASCII text *)
| AttributeError        (* [self.bt.serial] is [None] *)
| PortNotOpenError      (* pySerial: operation on a closed port *)
| SerialException       (* pySerial: a read that fails *)
| ValueError            (* [int] on a text it does not convert *)
| TypeError             (* [int(None)]: a group that took no part in the match *)
| EOFError.             (* [input] with nothing left to read *)

Inductive outcome (A : Type) : Type :=
| Return (a : A)
| Raise (e : exn).

Arguments Return {A} a.
Arguments Raise {A} e.

(** ** The serial transport *)

Module Serial.

Record port : Type := mkPort {
  is_open : bool;
  in_buffer : list byte;     (* received, not yet read *)
  written : list byte        (* everything written so far *)
}.

Definition in_waiting (p : port) : nat := List.length (in_buffer p).

Definition reset_input_buffer (p : port) : port :=
  mkPort (is_open p) [] (written p).

Definition write (data : list byte) (p : port) : port :=
  mkPort (is_open p) (in_buffer p) (written p ++ data).

Definition is_LF (b : byte) : bool := Byte.eqb b x0a.

(** The bytes [readline] returns and those it leaves: the line ends
    with the first LF, or is the whole buffer when there is none
    (the read timed out on a partial line). *)
Fixpoint split_line (buf : list byte) : list byte * list byte :=
  match buf with
  | [] => ([], [])
  | b :: rest =>
      if is_LF b then ([b], rest)
      else let (line, rest') := split_line rest in (b :: line, rest')
  end.

Definition readline (p : port) : list byte * port :=
  let (line, rest) := split_line (in_buffer p) in
  (line, mkPort (is_open p) rest (written p)).

(** One iteration of a polling loop, as the device sees it: the bytes
    that reached the port since the previous iteration, and whether a
    [readline] attempted in this iteration raises. *)
Record poll : Type := mkPoll {
  incoming : list byte;
  read_fails : bool
}.

Definition deliver (q : poll) (p : port) : port :=
  mkPort (is_open p) (in_buffer p ++ incoming q) (written p).

End Serial.

(** ** [class ATSBT] *)

Module ATSBT.
Import PyStr Serial.

Record t : Type := mkATSBT {
  serial : option port;
  cached_mac : option string
}.

Definition with_serial (bt : t) (p : port) : t :=
  mkATSBT (Some p) (cached_mac bt).

Definition is_connected (bt : t) : bool :=
  match serial bt with
  | Some p => is_open p
  | None => false
  end.

Definition terminal_markers : list string := ["OK"; "ERROR"; "PENDING"; "ACK"].

(** [any(term in line for term in ['OK', 'ERROR', 'PENDING', 'ACK'])] *)
Definition is_terminal (line : string) : bool :=
  existsb (fun term => contains term line) terminal_markers.

(** [self.serial.readline().decode('ascii', errors='ignore').strip()] *)
Definition read_stripped_line (p : port) : string * port :=
  let (raw, p') := readline p in (strip (decode_ascii_ignore raw), p').

(** The [while time.time() - start_time < response_timeout] loop of
    [send_command]; [polls] are its iterations. *)
Fixpoint read_response (polls : list poll) (p : port)
         (response_lines : list string) : list string * port :=
  match polls with
  | [] => (response_lines, p)
  | q :: polls' =>
      let p := deliver q p in
      if 0 <? in_waiting p then
        if read_fails q then (response_lines, p)       (* except: break *)
        else
          let (line, p') := read_stripped_line p in
          if nonempty line then
            let response_lines := response_lines ++ [line] in
            if is_terminal line then (response_lines, p')   (* break *)
            else read_response polls' p' response_lines
          else read_response polls' p' response_lines
      else read_response polls' p response_lines
  end.

Definition with_CR (command : string) : string :=
  if endswith command (String CR EmptyString) then command
  else (command ++ String CR EmptyString)%string.

Definition send_command (bt : t) (command : string) (polls : list poll)
  : outcome string * t :=
  if negb (is_connected bt) then (Raise RuntimeError, bt)
  else
    match serial bt with
    | None => (Raise RuntimeError, bt)
    | Some p =>
        let command := with_CR command in
        let p := reset_input_buffer p in
        match encode_ascii command with
        | None => (Raise UnicodeEncodeError, with_serial bt p)
        | Some data =>
            let p := write data p in
            let (response_lines, p) := read_response polls p [] in
            (Return (join (String LF EmptyString) response_lines),
             with_serial bt p)
        end
    end.

(** *** What the transport delivers, independently of the markers *)

(** Every line the reads of a polling loop deliver when the loop is
    never left early, up to the deadline or the first failing read. *)
Fixpoint arriving_lines (polls : list poll) (p : port) : list string :=
  match polls with
  | [] => []
  | q :: polls' =>
      let p := deliver q p in
      if 0 <? in_waiting p then
        if read_fails q then []
        else let (line, p') := read_stripped_line p in
             line :: arriving_lines polls' p'
      else arriving_lines polls' p
  end.

(** The lines up to and including the first terminal one. *)
Fixpoint upto_terminal (lines : list string) : list string :=
  match lines with
  | [] => []
  | line :: rest =>
      if is_terminal line then [line] else line :: upto_terminal rest
  end.

(** *** Device information *)

(** [disconnect]: the port is closed and forgotten. *)
Definition disconnect (bt : t) : t := mkATSBT None (cached_mac bt).

Definition set_cached_mac (bt : t) (mac : string) : t :=
  mkATSBT (serial bt) (Some mac).

(** [if value.endswith('OK'): value = value[:-2]] *)
Definition chop_ok (value : string) : string :=
  if endswith value "OK" then chop2 value else value.

(** The [for line in response.split('\n')] loop of [get_mac_address];
    [None] when the loop ends without a [return]. *)
Fixpoint mac_of_lines (lines : list string) : option string :=
  match lines with
  | [] => None
  | line :: lines' =>
      if contains "LOCAL_ADDR" line && contains "=" line then
        (* [line.split('=')] has a second piece, [line] holding the sign *)
        let value := strip (nth 1 (split_on "=" line) EmptyString) in
        Some (strip (chop_ok value))
      else if contains "LOCAL_ADDR" line then
        let parts := split_ws line in
        if 2 <=? List.length parts then
          let value := strip (last parts EmptyString) in
          Some (strip (chop_ok value))
        else mac_of_lines lines'
      else mac_of_lines lines'
  end.

Definition get_mac_address (bt : t) (polls : list poll) : outcome string * t :=
  match cached_mac bt with
  | Some mac =>
      if nonempty mac then (Return mac, bt)
      else
        match send_command bt "GET LOCAL_ADDR" polls with
        | (Raise e, b) => (Raise e, b)
        | (Return response, b) =>
            match mac_of_lines (split_on LF response) with
            | Some value => (Return value, set_cached_mac b value)
            | None => (Return response, b)
            end
        end
  | None =>
      match send_command bt "GET LOCAL_ADDR" polls with
      | (Raise e, b) => (Raise e, b)
      | (Return response, b) =>
          match mac_of_lines (split_on LF response) with
          | Some value => (Return value, set_cached_mac b value)
          | None => (Return response, b)
          end
      end
  end.

(** The loop of [get_name]. *)
Fixpoint name_of_lines (lines : list string) : option string :=
  match lines with
  | [] => None
  | line :: lines' =>
      if contains "NAME" line && contains "=" line then
        let value := strip (nth 1 (split_on "=" line) EmptyString) in
        Some (strip (chop_ok value))
      else name_of_lines lines'
  end.

Definition get_name (bt : t) (polls : list poll) : outcome string * t :=
  match send_command bt "GET NAME" polls with
  | (Raise e, b) => (Raise e, b)
  | (Return response, b) =>
      match name_of_lines (split_on LF response) with
      | Some value => (Return value, b)
      | None => (Return response, b)
      end
  end.

Definition get_version (bt : t) (polls : list poll) : outcome string * t :=
  send_command bt "VERSION" polls.

Definition get_status (bt : t) (polls : list poll) : outcome string * t :=
  match send_command bt "STATUS" polls with
  | (Raise e, b) => (Raise e, b)
  | (Return response, b) =>
      if endswith response "OK"
      then (Return (rstrip (chop2 response)), b)
      else (Return response, b)
  end.

Definition is_paired (bt : t) (polls : list poll) : outcome bool * t :=
  match get_status bt polls with
  | (Raise e, b) => (Raise e, b)
  | (Return status, b) =>
      (Return (contains "CONNECTION" (upper status)
               || contains "PAIRED" (upper status)), b)
  end.

Definition is_discoverable (bt : t) (polls : list poll) : outcome bool * t :=
  match get_status bt polls with
  | (Raise e, b) => (Raise e, b)
  | (Return status, b) =>
      (Return (contains "DISCOVERABLE" (upper status)), b)
  end.

(** [pair], the raw pairing command next to [A2DPConnection.pair_device]. *)
Definition pair (bt : t) (addr : string) (polls : list poll)
  : outcome string * t :=
  send_command bt ("PAIR " ++ addr)%string polls.

End ATSBT.

(** ** The fragment of Python's [re] the source uses

    A backtracking matcher in continuation-passing style: literals,
    greedy bounded repetition of a character class, numbered capture
    groups and concatenation.  Every quantifier of the two patterns of
    the source ([+], [*], [?], [{12}]) applies to a single character or
    class, which is what [Rep] covers. *)

Module Re.
Import PyStr.

Inductive regex : Type :=
| Lit (l : string)
| Rep (p : ascii -> bool) (lo : nat) (hi : option nat)
| Group (n : nat) (r : regex)
| Cat (r1 r2 : regex).

Definition captures : Type := list (nat * string).

(** [match.group(n)] *)
Fixpoint group (n : nat) (caps : captures) : option string :=
  match caps with
  | [] => None
  | (m, text) :: caps' => if m =? n then Some text else group n caps'
  end.

(** The longest run a greedy repetition can take at the head of [s]. *)
Fixpoint greedy_count (p : ascii -> bool) (hi : option nat) (s : string) : nat :=
  match hi, s with
  | Some O, _ => O
  | _, EmptyString => O
  | _, String c s' =>
      if p c then S (greedy_count p (option_map pred hi) s') else O
  end.

(** Try [n] repetitions, then [n - 1], ... down to [lo]. *)
Fixpoint backoff {A : Type} (n lo : nat) (s : string)
         (k : string -> option A) : option A :=
  if n <? lo then None
  else match k (drop n s) with
       | Some x => Some x
       | None => match n with
                 | O => None
                 | S n' => backoff n' lo s k
                 end
       end.

Fixpoint rmatch {A : Type} (r : regex) (s : string) (caps : captures)
         (k : string -> captures -> option A) : option A :=
  match r with
  | Lit l => if startswith s l then k (drop (length l) s) caps else None
  | Rep p lo hi =>
      backoff (greedy_count p hi s) lo s (fun s' => k s' caps)
  | Group n r' =>
      rmatch r' s caps
        (fun s' caps' => k s' ((n, take (length s - length s') s) :: caps'))
  | Cat r1 r2 =>
      rmatch r1 s caps (fun s' caps' => rmatch r2 s' caps' k)
  end.

(** [re.match]: anchored at the head of [s]. *)
Definition match_here (r : regex) (s : string) : option captures :=
  rmatch r s [] (fun _ caps => Some caps).

(** [re.search]: the leftmost position at which the pattern matches. *)
Fixpoint search (r : regex) (s : string) : option captures :=
  match match_here r s with
  | Some caps => Some caps
  | None => match s with
            | EmptyString => None
            | String _ s' => search r s'
            end
  end.

Declare Scope regex_scope.
Delimit Scope regex_scope with re.
Bind Scope regex_scope with regex.
Infix ";;" := Cat (at level 61, right associativity) : regex_scope.

Definition plus (p : ascii -> bool) : regex := Rep p 1 None.
Definition star (p : ascii -> bool) : regex := Rep p 0 None.
Definition opt (c : ascii) : regex := Rep (Ascii.eqb c) 0 (Some 1).
Definition exactly (n : nat) (p : ascii -> bool) : regex := Rep p n (Some n).

Definition DQUOTE : ascii := ascii_of_nat 34.

(** [[0-9A-Fa-f]] *)
Definition ishex (c : ascii) : bool :=
  let n := code c in
  ((48 <=? n) && (n <=? 57)) || ((65 <=? n) && (n <=? 70))
  || ((97 <=? n) && (n <=? 102)).

(** The negated class holding only the double quote. *)
Definition notquote (c : ascii) : bool := negb (Ascii.eqb c DQUOTE).

(** [[^\d]] *)
Definition notdigit (c : ascii) : bool := negb (isdigit c).

(** The pattern of [scan_for_devices], written here with Q for the
    double quote:
    [INQUIRY\s+([0-9A-Fa-f]{12})\s+Q([^Q]+)Q\s+([0-9A-Fa-f]+)\s+(-?\d+)] *)
Definition inquiry_re : regex :=
  (Lit "INQUIRY" ;; plus isspace ;; Group 1 (exactly 12 ishex) ;;
   plus isspace ;; Lit (String DQUOTE EmptyString) ;;
   Group 2 (plus notquote) ;; Lit (String DQUOTE EmptyString) ;;
   plus isspace ;; Group 3 (plus ishex) ;; plus isspace ;;
   Group 4 (opt "-" ;; plus isdigit))%re.

(** [r'OPEN_OK[^\d]*(\d+)'] *)
Definition open_ok_re : regex :=
  (Lit "OPEN_OK" ;; star notdigit ;; Group 1 (plus isdigit))%re.

End Re.

(** ** [class A2DPConnection] *)

Module A2DP.
Import PyStr Serial.

(** One entry of the list [scan_for_devices] returns: the dict with
    keys [address], [name] and [rssi] ([None] when absent). *)
Record device : Type := mkDevice {
  address : string;
  name : string;
  rssi : option Z
}.

Record t : Type := mkConn {
  bt : ATSBT.t;
  paired_address : option string;
  a2dp_link_id : option string;
  avrcp_link_id : option string
}.

Definition with_bt (c : t) (b : ATSBT.t) : t :=
  mkConn b (paired_address c) (a2dp_link_id c) (avrcp_link_id c).

Definition with_port (c : t) (p : port) : t :=
  with_bt c (ATSBT.with_serial (bt c) p).

(** Truthiness of an optional [str]: [None] and the empty string are
    falsy. *)
Definition truthy (o : option string) : bool :=
  match o with
  | Some s => nonempty s
  | None => false
  end.

(** [a or b] on optional strings. *)
Definition or_else (a b : option string) : option string :=
  if truthy a then a else b.

(** The port behind [self.bt.serial], as the raw accesses of
    [scan_for_devices] and [_open_profile] find it. *)
Definition raw_port (c : t) : outcome port :=
  match ATSBT.serial (bt c) with
  | None => Raise AttributeError
  | Some p => if is_open p then Return p else Raise PortNotOpenError
  end.

(** *** [scan_for_devices] *)

(** The collecting loop of [scan_for_devices]; a failing read is not
    caught there. *)
Fixpoint scan_collect (polls : list poll) (p : port) (lines : list string)
  : outcome (list string) * port :=
  match polls with
  | [] => (Return lines, p)
  | q :: polls' =>
      let p := deliver q p in
      if 0 <? in_waiting p then
        if read_fails q then (Raise SerialException, p)
        else
          let (line, p') := ATSBT.read_stripped_line p in
          if nonempty line then scan_collect polls' p' (lines ++ [line])
          else scan_collect polls' p' lines
      else scan_collect polls' p lines
  end.

Definition normalize (line : string) : string :=
  if contains "PENDINGINQUIRY" line
  then replace "PENDINGINQUIRY" "INQUIRY" line
  else line.

Definition is_candidate (line : string) : bool :=
  contains "INQUIRY " line && negb (contains "INQU_OK" line)
  && negb (contains "INQUIRY_" line).

(** [len(addr) == 12 and all(c in '0123456789ABCDEFabcdef' for c in addr)] *)
Definition is_address (addr : string) : bool :=
  (length addr =? 12) && all_in "0123456789ABCDEFabcdef" addr.

(** The [for i, part in enumerate(parts)] loop of the unquoted
    format; [rest] is [parts[i:]]. *)
Fixpoint fallback_loop (parts : list string) (i : nat) (rest : list string)
  : list device :=
  match rest with
  | [] => []
  | part :: rest' =>
      if String.eqb part "INQUIRY" && (i + 1 <? List.length parts) then
        let addr := nth (i + 1) parts EmptyString in
        if is_address addr
        then [mkDevice addr "Unknown" None]
        else []                                        (* break *)
      else fallback_loop parts (S i) rest'
  end.

Definition fallback_parse (line : string) : list device :=
  let parts := split_ws line in fallback_loop parts 0 parts.

(** The devices one iteration of [for line in lines] appends. *)
Definition parse_line (line : string) : outcome (list device) :=
  let line := normalize line in
  if is_candidate line then
    match Re.search Re.inquiry_re line with
    | Some m =>
        match Re.group 1 m, Re.group 2 m, Re.group 4 m with
        | Some g1, Some g2, Some g4 =>
            match int_of_str g4 with
            | Some n => Return [mkDevice g1 g2 (Some n)]
            | None => Raise ValueError
            end
        | _, _, _ => Raise TypeError   (* not reached: every group takes part *)
        end
    | None => Return (fallback_parse line)
    end
  else Return [].

Fixpoint parse_devices (lines : list string) (devices : list device)
  : outcome (list device) :=
  match lines with
  | [] => Return devices
  | line :: lines' =>
      match parse_line line with
      | Return found => parse_devices lines' (devices ++ found)
      | Raise e => Raise e
      end
  end.

Definition scan_for_devices (c : t) (duration : Z) (polls : list poll)
  : outcome (list device) * t :=
  match raw_port c with
  | Raise e => (Raise e, c)
  | Return p =>
      let p := reset_input_buffer p in
      match encode_ascii ("INQUIRY " ++ str_of_int duration
                          ++ String CR EmptyString)%string with
      | None => (Raise UnicodeEncodeError, with_port c p)
      | Some data =>
          let p := write data p in
          match scan_collect polls p [] with
          | (Raise e, p') => (Raise e, with_port c p')
          | (Return lines, p') => (parse_devices lines [], with_port c p')
          end
      end
  end.

(** *** [pair_device] *)

Definition set_paired (c : t) (addr : string) : t :=
  mkConn (bt c) (Some addr) (a2dp_link_id c) (avrcp_link_id c).

Definition pair_device (c : t) (addr : string) (polls : list poll)
  : outcome bool * t :=
  match ATSBT.send_command (bt c) ("PAIR " ++ addr)%string polls with
  | (Raise e, b) => (Raise e, with_bt c b)
  | (Return response, b) =>
      let c := with_bt c b in
      if contains "OK" response || contains "PAIR_OK" response
      then (Return true, set_paired c addr)
      else if contains "ERROR" response
      then (Return false, c)
      else (Return true, set_paired c addr)
  end.

(** *** [_open_profile] *)

Definition open_result : Type := (bool * option string)%type.

(** The collecting loop of [_open_profile]: it stops at a line with
    [OPEN_OK] or [ERROR]; a failing read is not caught. *)
Fixpoint open_collect (polls : list poll) (p : port) (lines : list string)
  : outcome (list string) * port :=
  match polls with
  | [] => (Return lines, p)
  | q :: polls' =>
      let p := deliver q p in
      if 0 <? in_waiting p then
        if read_fails q then (Raise SerialException, p)
        else
          let (line, p') := ATSBT.read_stripped_line p in
          if nonempty line then
            let lines := lines ++ [line] in
            if contains "OPEN_OK" line || contains "ERROR" line
            then (Return lines, p')                               (* break *)
            else open_collect polls' p' lines
          else open_collect polls' p' lines
      else open_collect polls' p lines
  end.

(** [match.group(1) if match else default_link_id], for
    [match = re.search(r'OPEN_OK[^\d]*(\d+)', text)]. *)
Definition link_id_of (text default_link_id : string) : string :=
  match Re.search Re.open_ok_re text with
  | Some m =>
      match Re.group 1 m with
      | Some g => g
      | None => default_link_id          (* not reached: group 1 takes part *)
      end
  | None => default_link_id
  end.

(** The [while self.bt.serial.in_waiting > 0] loop that follows the
    two-second sleep.  Every read takes at least one byte, so
    [in_waiting p] units of [fuel] are never used up; [None] is the
    model running out of fuel. *)
Fixpoint drain (fuel : nat) (fails : bool) (p : port)
         (default_link_id : string) : option (outcome open_result * port) :=
  if 0 <? in_waiting p then
    match fuel with
    | O => None
    | S fuel' =>
        if fails then Some (Raise SerialException, p)
        else
          let (line, p') := ATSBT.read_stripped_line p in
          if contains "OPEN_OK" line
          then Some (Return (true, Some (link_id_of line default_link_id)), p')
          else drain fuel' fails p' default_link_id
    end
  else Some (Return (true, Some default_link_id), p).

(** [polls] are the iterations of the collecting loop; [grace] holds
    what reaches the port during [time.sleep(2.0)] and whether the
    reads of the draining loop fail. *)
Definition _open_profile (c : t) (addr profile default_link_id : string)
           (polls : list poll) (grace : poll) : outcome open_result * t :=
  match raw_port c with
  | Raise e => (Raise e, c)
  | Return p =>
      let p := reset_input_buffer p in
      match encode_ascii ("OPEN " ++ addr ++ " " ++ profile
                          ++ String CR EmptyString)%string with
      | None => (Raise UnicodeEncodeError, with_port c p)
      | Some data =>
          let p := write data p in
          match open_collect polls p [] with
          | (Raise e, p') => (Raise e, with_port c p')
          | (Return lines, p') =>
              let response := join (String LF EmptyString) lines in
              if contains "OPEN_OK" response then
                (Return (true, Some (link_id_of response default_link_id)),
                 with_port c p')
              else if contains "ERROR" response then
                (Return (false, None), with_port c p')
              else if contains "PENDING" response then
                let p' := deliver grace p' in
                match drain (in_waiting p') (read_fails grace) p'
                            default_link_id with
                | Some (r, p'') => (r, with_port c p'')
                | None => (Raise RuntimeError, with_port c p')  (* not reached *)
                end
              else (Return (false, None), with_port c p')
          end
      end
  end.

Definition set_a2dp (c : t) (link : option string) : t :=
  mkConn (bt c) (paired_address c) link (avrcp_link_id c).

Definition set_avrcp (c : t) (link : option string) : t :=
  mkConn (bt c) (paired_address c) (a2dp_link_id c) link.

Definition open_a2dp (c : t) (addr : option string)
           (polls : list poll) (grace : poll) : outcome bool * t :=
  match or_else addr (paired_address c) with
  | Some a =>
      if nonempty a then
        match _open_profile c a "A2DP" "10" polls grace with
        | (Raise e, c') => (Raise e, c')
        | (Return (true, link_id), c') => (Return true, set_a2dp c' link_id)
        | (Return (false, _), c') => (Return false, c')
        end
      else (Return false, c)
  | None => (Return false, c)
  end.

Definition open_avrcp (c : t) (addr : option string)
           (polls : list poll) (grace : poll) : outcome bool * t :=
  match or_else addr (paired_address c) with
  | Some a =>
      if nonempty a then
        match _open_profile c a "AVRCP" "11" polls grace with
        | (Raise e, c') => (Raise e, c')
        | (Return (true, link_id), c') => (Return true, set_avrcp c' link_id)
        | (Return (false, _), c') => (Return false, c')
        end
      else (Return false, c)
  | None => (Return false, c)
  end.

(** *** Media control and teardown *)

(** [max(0, min(127, level))] *)
Definition clamp_volume (level : Z) : Z := Z.max 0 (Z.min 127 level).

Definition set_volume (c : t) (level : Z) (polls : list poll)
  : outcome string * t :=
  let level := clamp_volume level in
  let link_id :=
    match or_else (avrcp_link_id c) (Some "11") with
    | Some l => l
    | None => "11"
    end in
  let (r, b) :=
    ATSBT.send_command (bt c)
      ("VOLUME " ++ link_id ++ " " ++ str_of_int level)%string polls in
  (r, with_bt c b).

(** [polls_a2dp] and [polls_avrcp] drive the response loops of the
    two [CLOSE] commands. *)
Definition disconnect (c : t) (polls_a2dp polls_avrcp : list poll)
  : outcome unit * t :=
  let step1 :=
    match a2dp_link_id c with
    | Some l =>
        if nonempty l then
          match ATSBT.send_command (bt c) ("CLOSE " ++ l)%string polls_a2dp with
          | (Raise e, b) => (Raise e, with_bt c b)
          | (Return _, b) => (Return tt, set_a2dp (with_bt c b) None)
          end
        else (Return tt, c)
    | None => (Return tt, c)
    end in
  match step1 with
  | (Raise e, c1) => (Raise e, c1)
  | (Return _, c1) =>
      match avrcp_link_id c1 with
      | Some l =>
          if nonempty l then
            match ATSBT.send_command (bt c1) ("CLOSE " ++ l)%string polls_avrcp with
            | (Raise e, b) => (Raise e, with_bt c1 b)
            | (Return _, b) => (Return tt, set_avrcp (with_bt c1 b) None)
            end
          else (Return tt, c1)
      | None => (Return tt, c1)
      end
  end.

(** *** The rest of the class and of the script *)

(** [__init__] *)
Definition init (b : ATSBT.t) : t := mkConn b None None None.

(** The common body of [music_play], [music_pause] and [music_stop]. *)
Definition music (c : t) (action : string) (polls : list poll)
  : outcome string * t :=
  let (r, b) :=
    if truthy (avrcp_link_id c) then
      match avrcp_link_id c with
      | Some l =>
          ATSBT.send_command (bt c) ("MUSIC " ++ l ++ " " ++ action)%string polls
      | None => ATSBT.send_command (bt c) ("AVRCP " ++ action)%string polls
      end
    else ATSBT.send_command (bt c) ("AVRCP " ++ action)%string polls in
  (r, with_bt c b).

Definition music_play (c : t) (polls : list poll) : outcome string * t :=
  music c "PLAY" polls.

Definition music_pause (c : t) (polls : list poll) : outcome string * t :=
  music c "PAUSE" polls.

Definition music_stop (c : t) (polls : list poll) : outcome string * t :=
  music c "STOP" polls.

(** [f"{dev['rssi']}dB" if dev['rssi'] else "N/A"]: zero is falsy. *)
Definition rssi_str (d : device) : string :=
  match rssi d with
  | Some n => if Z.eqb n 0 then "N/A" else (str_of_int n ++ "dB")%string
  | None => "N/A"
  end.

(** One row of the table of [print_devices]. *)
Definition device_row (i : nat) (d : device) : string :=
  (ljust 4 (str_of_int (Z.of_nat i)) ++ " " ++ ljust 14 (address d) ++ " "
   ++ ljust 6 (rssi_str d) ++ " " ++ name d)%string.

(** [for i, dev in enumerate(devices, 1)] *)
Fixpoint device_rows (i : nat) (devices : list device) : list string :=
  match devices with
  | [] => []
  | d :: devices' => device_row i d :: device_rows (S i) devices'
  end.

(** [print_devices]: the texts of its [print] calls, in order. *)
Definition print_devices (devices : list device) : list string :=
  match devices with
  | [] => ["No devices found."]
  | _ =>
      [(String LF EmptyString ++ "Discovered Devices:")%string;
       times "-" 60;
       (ljust 4 "#" ++ " " ++ ljust 14 "Address" ++ " " ++ ljust 6 "RSSI"
        ++ " " ++ "Name")%string;
       times "-" 60]
      ++ device_rows 1 devices
      ++ [times "-" 60]
  end.

(** What one [input("media> ")] of [media_control_menu] gives: a line
    typed by the user, with the polls of the command it may send, or a
    [KeyboardInterrupt]. *)
Inductive menu_input : Type :=
| Typed (text : string) (polls : list poll)
| Interrupt.

(** One pass through the body of [while True] in
    [media_control_menu]: [None] is [break], otherwise the loop goes on
    with the connection and the volume given, or an exception leaves
    the function. *)
Definition menu_step (c : t) (volume : Z) (i : menu_input)
  : option (outcome Z * t) :=
  match i with
  | Interrupt => None
  | Typed text polls =>
      let cmd := lower (strip text) in
      if String.eqb cmd "q" then None
      else if String.eqb cmd "p" then
        match music_play c polls with
        | (Raise e, c') => Some (Raise e, c')
        | (Return _, c') => Some (Return volume, c')
        end
      else if String.eqb cmd "s" then
        match music_pause c polls with
        | (Raise e, c') => Some (Raise e, c')
        | (Return _, c') => Some (Return volume, c')
        end
      else if String.eqb cmd "v+" then
        let volume := Z.min 127 (volume + 10) in
        match set_volume c volume polls with
        | (Raise e, c') => Some (Raise e, c')
        | (Return _, c') => Some (Return volume, c')
        end
      else if String.eqb cmd "v-" then
        let volume := Z.max 0 (volume - 10) in
        match set_volume c volume polls with
        | (Raise e, c') => Some (Raise e, c')
        | (Return _, c') => Some (Return volume, c')
        end
      else Some (Return volume, c)
  end.

(** The loop of [media_control_menu] from a given volume; the result
    is the volume when the loop is left.  When the inputs run out
    [input] raises [EOFError]. *)
Fixpoint menu_loop (c : t) (volume : Z) (inputs : list menu_input)
  : outcome Z * t :=
  match inputs with
  | [] => (Raise EOFError, c)
  | i :: inputs' =>
      match menu_step c volume i with
      | None => (Return volume, c)
      | Some (Raise e, c') => (Raise e, c')
      | Some (Return volume', c') => menu_loop c' volume' inputs'
      end
  end.

(** [media_control_menu]: the volume starts at mid-level. *)
Definition media_control_menu (c : t) (inputs : list menu_input)
  : outcome Z * t :=
  menu_loop c 64 inputs.

End A2DP.

(** ** Notions used to state the properties *)

Module Spec.
Import PyStr Serial.

(** Texts [str.encode('ascii')] accepts. *)
Definition is_ascii (s : string) : bool :=
  forall_chars (fun c => code c <? 128) s.

(** The bytes of an ASCII text. *)
Definition to_bytes (s : string) : list byte :=
  List.map byte_of_ascii (list_ascii_of_string s).

Definition no_LF (s : string) : bool :=
  forall_chars (fun c => negb (Ascii.eqb c LF)) s.

(** No line of [lines] holds a terminal marker. *)
Definition marker_free (lines : list string) : Prop :=
  Forall (fun line => ATSBT.is_terminal line = false) lines.

(** The lines the draining loop of [_open_profile] reads when it is
    not left early. *)
Fixpoint drained_lines (fuel : nat) (p : port) : list string :=
  if 0 <? in_waiting p then
    match fuel with
    | O => []
    | S fuel' =>
        let (line, p') := ATSBT.read_stripped_line p in
        line :: drained_lines fuel' p'
    end
  else [].

(** The token that follows the first token equal to [marker]. *)
Fixpoint token_after (marker : string) (tokens : list string) : option string :=
  match tokens with
  | [] => None
  | tok :: rest =>
      if String.eqb tok marker then hd_error rest
      else token_after marker rest
  end.

(** Exactly twelve hexadecimal characters. *)
Definition is_hex12 (tok : string) : Prop :=
  length tok = 12 /\ forall_chars Re.ishex tok = true.

Definition SP : string := String " " EmptyString.
Definition QS : string := String Re.DQUOTE EmptyString.

Definition quoted (text : string) : string := (QS ++ text ++ QS)%string.

(** The sign of a signal strength as it is written. *)
Definition sign_text (negative : bool) : string :=
  if negative then "-" else EmptyString.

(** A scan-result line of the structured shape: the marker, the
    address, the quoted name, the class-of-device code, the signal
    strength written as an optional minus sign and digits, and the
    unit, separated by single spaces. *)
Definition inquiry_line (addr name cod : string) (negative : bool)
           (digits unit : string) : string :=
  ("INQUIRY " ++ addr ++ " " ++ quoted name ++ " " ++ cod ++ " "
   ++ sign_text negative ++ digits ++ " " ++ unit)%string.

Definition signed_value (negative : bool) (digits : string) : Z :=
  if negative then (- decimal_value 0 digits)%Z else decimal_value 0 digits.

(** The bytes [send_command] writes for one [CLOSE] of a tracked link. *)
Definition close_bytes (link : option string) : list byte :=
  match link with
  | Some l => if nonempty l
              then to_bytes (ATSBT.with_CR ("CLOSE " ++ l)%string)
              else []
  | None => []
  end.

(** The port of a connection, for reading back what was written. *)
Definition port_of (c : A2DP.t) : port :=
  match ATSBT.serial (A2DP.bt c) with
  | Some p => p
  | None => mkPort false [] []
  end.

(** The link id [set_volume] addresses. *)
Definition volume_link (c : A2DP.t) : string :=
  match A2DP.avrcp_link_id c with
  | Some l => if nonempty l then l else "11"
  | None => "11"
  end.

(** The command [_open_profile] sends. *)
Definition open_command (addr profile : string) : string :=
  ("OPEN " ++ addr ++ " " ++ profile ++ String CR EmptyString)%string.

(** A profile-open call whose collected response holds a pending marker
    but neither a success nor an error marker, and whose grace drain,
    read without failure, meets no line with a success marker. *)
Definition pending_unconfirmed (c : A2DP.t) (addr profile : string)
           (polls : list poll) (grace : poll) : Prop :=
  exists p data lines p1,
    A2DP.raw_port c = Return p /\
    encode_ascii (open_command addr profile) = Some data /\
    A2DP.open_collect polls (write data (reset_input_buffer p)) []
    = (Return lines, p1) /\
    contains "OPEN_OK" (join (String LF EmptyString) lines) = false /\
    contains "ERROR" (join (String LF EmptyString) lines) = false /\
    contains "PENDING" (join (String LF EmptyString) lines) = true /\
    read_fails grace = false /\
    Forall (fun l => contains "OPEN_OK" l = false)
           (drained_lines (in_waiting (deliver grace p1)) (deliver grace p1)).

(** The head of [s], if any, is outside the class [p]. *)
Definition head_not (p : ascii -> bool) (s : string) : Prop :=
  match s with
  | EmptyString => True
  | String c _ => p c = false
  end.

(** [n] repetitions respect the upper bound [hi]. *)
Definition fits (hi : option nat) (n : nat) : Prop :=
  match hi with
  | Some h => n <= h
  | None => True
  end.

(** What it means for a pattern to take a head of [s], leaving [s']
    and turning the captures [caps] into [caps']. *)
Fixpoint matches (r : Re.regex) (s : string) (caps : Re.captures)
         (s' : string) (caps' : Re.captures) : Prop :=
  match r with
  | Re.Lit l => s = (l ++ s')%string /\ caps' = caps
  | Re.Rep p lo hi =>
      exists run,
        s = (run ++ s')%string /\ forall_chars p run = true /\
        lo <= length run /\ fits hi (length run) /\ caps' = caps
  | Re.Group n r' =>
      exists inner,
        matches r' s caps s' inner /\
        caps' = (n, take (length s - length s') s) :: inner
  | Re.Cat r1 r2 =>
      exists mid caps1,
        matches r1 s caps mid caps1 /\ matches r2 mid caps1 s' caps'
  end.

(** No equals sign in [s]. *)
Definition no_eq (s : string) : bool :=
  forall_chars (fun a => negb (Ascii.eqb a "=")) s.

(** A line of the shape key=value, possibly followed by a further
    equals sign and more text. *)
Definition key_value_line (key value rest : string) : string :=
  (key ++ "=" ++ value ++ rest)%string.

(** Nothing, or something that starts with an equals sign. *)
Definition ends_value (rest : string) : Prop :=
  rest = EmptyString \/ startswith rest "=" = true.

(** No usable address is cached. *)
Definition mac_not_cached (bt : ATSBT.t) : Prop :=
  ATSBT.cached_mac bt = None \/ ATSBT.cached_mac bt = Some EmptyString.

(** What the scan promises of a device: an address of twelve
    hexadecimal characters, and either the placeholder name with no
    signal strength or a non-empty quote-free name with one. *)
Definition well_formed_device (d : A2DP.device) : Prop :=
  is_hex12 (A2DP.address d)
  /\ ((A2DP.name d = "Unknown" /\ A2DP.rssi d = None)
      \/ (nonempty (A2DP.name d) = true
          /\ forall_chars Re.notquote (A2DP.name d) = true
          /\ exists n, A2DP.rssi d = Some n)).

(** A profile-open call whose collected response holds a success
    marker: [before] is what precedes the first OPEN_OK, then come
    the characters [skipped], none a digit, the digits [digits], and
    [rest], which does not start with a digit. *)
Definition opened_with (c : A2DP.t) (addr profile : string)
           (polls : list poll) (digits : string) : Prop :=
  exists p data lines p1 before skipped rest,
    A2DP.raw_port c = Return p /\
    encode_ascii (open_command addr profile) = Some data /\
    A2DP.open_collect polls (write data (reset_input_buffer p)) []
    = (Return lines, p1) /\
    join (String LF EmptyString) lines
    = (before ++ "OPEN_OK" ++ skipped ++ digits ++ rest)%string /\
    contains "OPEN_OK" (before ++ "OPEN_O") = false /\
    forall_chars Re.notdigit skipped = true /\
    nonempty digits = true /\ forall_chars isdigit digits = true /\
    head_not isdigit rest.

(** A profile-open call whose collected response holds no success
    marker and either an error marker or no pending marker. *)
Definition open_refused (c : A2DP.t) (addr profile : string)
           (polls : list poll) : Prop :=
  exists p data lines p1,
    A2DP.raw_port c = Return p /\
    encode_ascii (open_command addr profile) = Some data /\
    A2DP.open_collect polls (write data (reset_input_buffer p)) []
    = (Return lines, p1) /\
    contains "OPEN_OK" (join (String LF EmptyString) lines) = false /\
    (contains "ERROR" (join (String LF EmptyString) lines) = true
     \/ contains "PENDING" (join (String LF EmptyString) lines) = false).

(** A tracked link id is a non-empty text of decimal digits. *)
Definition digit_link (link : option string) : Prop :=
  match link with
  | None => True
  | Some l => nonempty l = true /\ forall_chars isdigit l = true
  end.

Definition links_ok (c : A2DP.t) : Prop :=
  digit_link (A2DP.a2dp_link_id c) /\ digit_link (A2DP.avrcp_link_id c).

(** The command of a media action: addressed to the tracked AVRCP
    link if there is one. *)
Definition music_command (c : A2DP.t) (action : string) : string :=
  match A2DP.avrcp_link_id c with
  | Some l => if nonempty l then ("MUSIC " ++ l ++ " " ++ action)%string
              else ("AVRCP " ++ action)%string
  | None => ("AVRCP " ++ action)%string
  end.

(** The user asks for more volume: v+ in any letter case, with white
    space around it or not. *)
Definition asks_louder (i : A2DP.menu_input) : Prop :=
  match i with
  | A2DP.Typed text _ => lower (strip text) = "v+"
  | A2DP.Interrupt => False
  end.

(** A connection on which [set_volume] goes through. *)
Definition volume_ready (c : A2DP.t) : Prop :=
  exists p, ATSBT.serial (A2DP.bt c) = Some p /\ is_open p = true
            /\ is_ascii (volume_link c) = true.

(** *** Sample sessions and device behaviours *)

Definition open_port : port := mkPort true [] [].
Definition bt0 : ATSBT.t := ATSBT.mkATSBT (Some open_port) None.
Definition conn0 : A2DP.t := A2DP.mkConn bt0 None None None.

(** An iteration in which nothing has arrived. *)
Definition quiet : poll := mkPoll [] false.

(** An iteration in which one full line has arrived. *)
Definition recv (line : string) : poll := mkPoll (to_bytes line ++ [x0a]) false.

End Spec.

(** * Properties *)

(** ** Facts about the string primitives *)

Module PyStrFacts.
Import PyStr Spec.

Lemma startswith_app (pre s : string) :
  startswith (pre ++ s) pre = true.
Proof.
  induction pre as [|a pre IH]; simpl.
  - destruct s; reflexivity.
  - rewrite Ascii.eqb_refl. exact IH.
Qed.

Lemma startswith_split (s pre : string) :
  startswith s pre = true -> s = (pre ++ drop (length pre) s)%string.
Proof.
  revert s. induction pre as [|a pre IH]; intros s H.
  - destruct s; reflexivity.
  - destruct s as [|b s]; simpl in H; [discriminate|].
    apply andb_true_iff in H. destruct H as [Hab H].
    apply Ascii.eqb_eq in Hab. subst b. simpl. f_equal. apply IH, H.
Qed.

Lemma drop_app_length (a b : string) : drop (length a) (a ++ b) = b.
Proof. induction a; simpl; [destruct b; reflexivity | assumption]. Qed.

Lemma take_app_length (a b : string) : take (length a) (a ++ b) = a.
Proof.
  induction a; simpl; [destruct b; reflexivity | f_equal; assumption].
Qed.

Lemma str_length_app (a b : string) : length (a ++ b) = length a + length b.
Proof. induction a; simpl; [reflexivity | f_equal; assumption]. Qed.

Lemma str_app_assoc (a b c : string) : ((a ++ b) ++ c = a ++ (b ++ c))%string.
Proof. induction a; simpl; [reflexivity | f_equal; assumption]. Qed.

Lemma str_app_empty_r (a : string) : (a ++ EmptyString)%string = a.
Proof. induction a; simpl; [reflexivity | f_equal; assumption]. Qed.

Lemma forall_chars_app (p : ascii -> bool) (a b : string) :
  forall_chars p (a ++ b) = forall_chars p a && forall_chars p b.
Proof.
  induction a as [|c a IH]; simpl; [reflexivity|].
  rewrite IH. apply andb_assoc.
Qed.

Lemma forall_chars_impl (p q : ascii -> bool) (s : string) :
  (forall c, p c = true -> q c = true) ->
  forall_chars p s = true -> forall_chars q s = true.
Proof.
  intros Hpq. induction s as [|c s IH]; simpl; [reflexivity|].
  intros H. apply andb_true_iff in H. destruct H as [Hc Hs].
  rewrite (Hpq _ Hc). simpl. apply IH, Hs.
Qed.

(** *** [strip] never keeps a line feed that ends the text *)

Lemma LF_isspace : isspace LF = true.
Proof. reflexivity. Qed.

Lemma rstrip_app_space (s : string) (c : ascii) :
  isspace c = true -> rstrip (s ++ String c EmptyString) = rstrip s.
Proof.
  intros Hc. induction s as [|a s IH]; simpl.
  - rewrite Hc. reflexivity.
  - rewrite IH. reflexivity.
Qed.

Lemma forall_chars_rstrip (p : ascii -> bool) (s : string) :
  forall_chars p s = true -> forall_chars p (rstrip s) = true.
Proof.
  induction s as [|a s IH]; simpl; [reflexivity|].
  intros H. apply andb_true_iff in H. destruct H as [Ha Hs].
  specialize (IH Hs).
  destruct (rstrip s) as [|b r].
  - destruct (isspace a); simpl; [reflexivity | rewrite Ha; reflexivity].
  - simpl in *. rewrite Ha. exact IH.
Qed.

Lemma forall_chars_lstrip (p : ascii -> bool) (s : string) :
  forall_chars p s = true -> forall_chars p (lstrip s) = true.
Proof.
  induction s as [|a s IH]; simpl; [reflexivity|].
  intros H. destruct (isspace a); [|exact H].
  apply andb_true_iff in H. apply IH, H.
Qed.

Lemma forall_chars_strip (p : ascii -> bool) (s : string) :
  forall_chars p s = true -> forall_chars p (strip s) = true.
Proof.
  intros H. unfold strip. apply forall_chars_lstrip, forall_chars_rstrip, H.
Qed.

Lemma strip_app_LF (s : string) :
  strip (s ++ String LF EmptyString) = strip s.
Proof. unfold strip. rewrite rstrip_app_space by apply LF_isspace. reflexivity. Qed.

(** *** [split] undoes [join] *)

Lemma split_on_no_sep (c : ascii) (s : string) :
  forall_chars (fun a => negb (Ascii.eqb a c)) s = true ->
  split_on c s = [s].
Proof.
  induction s as [|a s IH]; simpl; [reflexivity|].
  intros H. apply andb_true_iff in H. destruct H as [Ha Hs].
  apply negb_true_iff in Ha. rewrite Ha, (IH Hs). reflexivity.
Qed.

Lemma split_on_app_sep (c : ascii) (s rest : string) :
  forall_chars (fun a => negb (Ascii.eqb a c)) s = true ->
  split_on c (s ++ String c rest) = s :: split_on c rest.
Proof.
  induction s as [|a s IH]; simpl.
  - intros _. rewrite Ascii.eqb_refl. reflexivity.
  - intros H. apply andb_true_iff in H. destruct H as [Ha Hs].
    apply negb_true_iff in Ha. rewrite Ha, (IH Hs). reflexivity.
Qed.

Lemma split_on_join (c : ascii) (lines : list string) :
  lines <> [] ->
  Forall (fun l => forall_chars (fun a => negb (Ascii.eqb a c)) l = true) lines ->
  split_on c (join (String c EmptyString) lines) = lines.
Proof.
  induction lines as [|l lines IH]; intros Hne Hall; [congruence|].
  inversion Hall as [|? ? Hl Hrest]; subst.
  destruct lines as [|l' lines].
  - simpl. apply split_on_no_sep, Hl.
  - change (join (String c EmptyString) (l :: l' :: lines))
      with (l ++ String c (join (String c EmptyString) (l' :: lines)))%string.
    rewrite split_on_app_sep by exact Hl.
    f_equal. apply IH; [discriminate | exact Hrest].
Qed.

End PyStrFacts.

(** ** The command engine: [ATSBT.send_command] *)

Module ATSBTFacts.
Import PyStr Serial ATSBT Spec PyStrFacts.

(** *** Lines read from the port hold no line feed *)

Lemma decode_LF_byte (b : byte) :
  is_LF b = false -> Ascii.eqb (ascii_of_byte b) LF = false.
Proof.
  intros Hb. apply Ascii.eqb_neq. intros Heq.
  assert (Hx : b = x0a).
  { rewrite <- (byte_of_ascii_of_byte b), Heq. reflexivity. }
  subst b. discriminate Hb.
Qed.

Lemma decoded_line_shape (buf : list byte) :
  let d := decode_ascii_ignore (fst (split_line buf)) in
  (exists d0, d = (d0 ++ String LF EmptyString)%string /\ no_LF d0 = true)
  \/ no_LF d = true.
Proof.
  induction buf as [|b rest IH]; simpl.
  - right. reflexivity.
  - destruct (is_LF b) eqn:Hb.
    + left. exists EmptyString. apply Byte.byte_dec_bl in Hb. subst b.
      split; reflexivity.
    + destruct (split_line rest) as [line rest'] eqn:Hsplit. simpl in *.
      destruct (Byte.to_nat b <? 128); [|exact IH].
      destruct IH as [[d0 [Hd Hd0]]|Hd].
      * left. exists (String (ascii_of_byte b) d0). split.
        -- simpl. f_equal. exact Hd.
        -- unfold no_LF in *. simpl. rewrite (decode_LF_byte _ Hb). exact Hd0.
      * right. unfold no_LF in *. simpl.
        rewrite (decode_LF_byte _ Hb). exact Hd.
Qed.

Lemma read_stripped_line_no_LF (p : port) :
  no_LF (fst (read_stripped_line p)) = true.
Proof.
  unfold read_stripped_line, readline.
  pose proof (decoded_line_shape (in_buffer p)) as H.
  destruct (split_line (in_buffer p)) as [raw rest]. simpl in *.
  destruct H as [[d0 [Hd Hd0]]|Hd].
  - rewrite Hd, strip_app_LF. apply forall_chars_strip, Hd0.
  - apply forall_chars_strip, Hd.
Qed.

Lemma arriving_lines_no_LF (polls : list poll) (p : port) :
  Forall (fun l => no_LF l = true) (arriving_lines polls p).
Proof.
  revert p. induction polls as [|q polls IH]; intros p; simpl; [constructor|].
  destruct (0 <? in_waiting (deliver q p)); [|apply IH].
  destruct (read_fails q); [constructor|].
  pose proof (read_stripped_line_no_LF (deliver q p)) as Hline.
  destruct (read_stripped_line (deliver q p)) as [line p'].
  constructor; [exact Hline | apply IH].
Qed.

(** *** The loop against the lines that arrive *)

Lemma read_response_spec (polls : list poll) (p : port) (acc : list string) :
  fst (read_response polls p acc)
  = acc ++ upto_terminal (filter nonempty (arriving_lines polls p)).
Proof.
  revert p acc. induction polls as [|q polls IH]; intros p acc; simpl.
  - symmetry. apply app_nil_r.
  - destruct (0 <? in_waiting (deliver q p)); [|apply IH].
    destruct (read_fails q); [simpl; symmetry; apply app_nil_r|].
    destruct (read_stripped_line (deliver q p)) as [line p'].
    simpl. destruct (nonempty line); [|apply IH].
    simpl. destruct (is_terminal line).
    + reflexivity.
    + rewrite IH, <- app_assoc. reflexivity.
Qed.

Lemma upto_terminal_marker_free (lines : list string) :
  marker_free lines -> upto_terminal lines = lines.
Proof.
  induction 1 as [|l lines Hl _ IH]; simpl; [reflexivity|].
  rewrite Hl, IH. reflexivity.
Qed.

Lemma upto_terminal_first (pre : list string) (m : string) (post : list string) :
  marker_free pre -> is_terminal m = true ->
  upto_terminal (pre ++ m :: post) = pre ++ [m].
Proof.
  intros Hpre Hm. induction Hpre as [|l pre Hl _ IH]; simpl.
  - rewrite Hm. reflexivity.
  - rewrite Hl, IH. reflexivity.
Qed.

Lemma upto_terminal_inner (lines pre : list string) (line : string)
      (post : list string) :
  upto_terminal lines = pre ++ line :: post -> post <> [] ->
  is_terminal line = false.
Proof.
  revert pre. induction lines as [|l lines IH]; intros pre Heq Hpost; simpl in Heq.
  - destruct pre; discriminate.
  - destruct (is_terminal l) eqn:Hl.
    + destruct pre as [|x pre]; simpl in Heq.
      * injection Heq as _ Hp. congruence.
      * injection Heq as _ Hp. destruct pre; discriminate.
    + destruct pre as [|x pre]; simpl in Heq.
      * injection Heq as Hx _. subst. exact Hl.
      * injection Heq as _ Hp. eapply IH; eauto.
Qed.

Lemma upto_terminal_incl (lines : list string) :
  incl (upto_terminal lines) lines.
Proof.
  induction lines as [|l lines IH]; simpl; [apply incl_refl|].
  destruct (is_terminal l).
  - intros x [Hx|[]]. left. exact Hx.
  - apply incl_cons; [left; reflexivity | apply incl_tl, IH].
Qed.

(** *** Running [send_command] *)

Lemma send_command_run (bt : t) (p : port) (command : string)
      (data : list byte) (polls : list poll) :
  serial bt = Some p -> is_open p = true ->
  encode_ascii (with_CR command) = Some data ->
  fst (send_command bt command polls)
  = Return (join (String LF EmptyString)
              (upto_terminal (filter nonempty
                 (arriving_lines polls (write data (reset_input_buffer p)))))).
Proof.
  intros Hs Ho He. unfold send_command, is_connected.
  rewrite Hs, Ho, He. simpl.
  pose proof (read_response_spec polls (write data (reset_input_buffer p)) [])
    as Hspec.
  destruct (read_response polls (write data (reset_input_buffer p)) [])
    as [lines p'].
  simpl in *. rewrite Hspec. reflexivity.
Qed.

Lemma send_command_returns (bt bt' : t) (command resp : string)
      (polls : list poll) :
  send_command bt command polls = (Return resp, bt') ->
  exists p data,
    serial bt = Some p /\ is_open p = true /\
    encode_ascii (with_CR command) = Some data.
Proof.
  unfold send_command, is_connected.
  destruct (serial bt) as [p|]; simpl; [|discriminate].
  destruct (is_open p) eqn:Ho; simpl; [|discriminate].
  destruct (encode_ascii (with_CR command)) as [data|]; [|discriminate].
  intros _. exists p, data. auto.
Qed.

(** C1 (as amended): with an open transport and a command text that
    encodes as ASCII, [send_command] returns the newline-join of the
    non-empty lines that arrive, in arrival order.  When one of them
    holds a terminal marker the join stops at the first such line,
    that line included; when none does before the deadline, the join
    holds every line collected, and no distinct timeout error is
    signalled. *)
Theorem C1_send_command_joins_lines_up_to_first_marker
        (bt : t) (p : port) (command : string) (data : list byte)
        (polls : list poll) :
  serial bt = Some p -> is_open p = true ->
  encode_ascii (with_CR command) = Some data ->
  let lines :=
    filter nonempty (arriving_lines polls (write data (reset_input_buffer p))) in
  (forall pre m post,
      lines = pre ++ m :: post -> marker_free pre -> is_terminal m = true ->
      fst (send_command bt command polls)
      = Return (join (String LF EmptyString) (pre ++ [m])))
  /\ (marker_free lines ->
      fst (send_command bt command polls)
      = Return (join (String LF EmptyString) lines)).
Proof.
  intros Hs Ho He lines.
  pose proof (send_command_run bt p command data polls Hs Ho He) as Hrun.
  fold lines in Hrun. split.
  - intros pre m post Hl Hpre Hm. rewrite Hrun, Hl.
    rewrite upto_terminal_first by assumption. reflexivity.
  - intros Hfree. rewrite Hrun, upto_terminal_marker_free by assumption.
    reflexivity.
Qed.

(** The mock transport of the specification: GARBAGE, then STATUS OK. *)
Lemma C1_witness_garbage_then_status_ok :
  fst (send_command bt0 "STATUS" [quiet; recv "GARBAGE"; recv "STATUS OK"; recv "LATE"])
  = Return (join (String LF EmptyString) ["GARBAGE"; "STATUS OK"]).
Proof.
  refine (proj1 (C1_send_command_joins_lines_up_to_first_marker
                   bt0 open_port "STATUS" (to_bytes (with_CR "STATUS"))
                   [quiet; recv "GARBAGE"; recv "STATUS OK"; recv "LATE"]
                   eq_refl eq_refl eq_refl)
                ["GARBAGE"] "STATUS OK" ["LATE"] eq_refl _ eq_refl).
  repeat constructor.
Defined.

(** C1 (as stated) fails: a command text with a character outside
    ASCII makes [send_command] raise on an open transport. *)
Lemma C1_counterexample_non_ascii_command :
  is_connected bt0 = true /\
  fst (send_command bt0 (String (ascii_of_nat 233) EmptyString) [recv "OK"])
  = Raise UnicodeEncodeError.
Proof. split; reflexivity. Qed.

(** C10: in a response [send_command] returns, every line but the
    last is free of terminal markers. *)
Theorem C10_only_last_response_line_is_terminal
        (bt bt' : t) (command resp : string) (polls : list poll)
        (earlier : list string) (line : string) (later : list string) :
  send_command bt command polls = (Return resp, bt') ->
  split_on LF resp = earlier ++ line :: later ->
  later <> [] ->
  is_terminal line = false.
Proof.
  intros Hsend Hsplit Hlater.
  destruct (send_command_returns _ _ _ _ _ Hsend) as [p [data [Hs [Ho He]]]].
  pose proof (send_command_run bt p command data polls Hs Ho He) as Hrun.
  rewrite Hsend in Hrun. simpl in Hrun. injection Hrun as Hresp.
  set (arrived := arriving_lines polls (write data (reset_input_buffer p))) in *.
  set (kept := upto_terminal (filter nonempty arrived)) in *.
  destruct kept as [|k kept'] eqn:Hkept.
  - subst resp. simpl in Hsplit.
    destruct earlier as [|? [|? ?]]; simpl in Hsplit; try discriminate.
    injection Hsplit as _ Hl. congruence.
  - assert (Hall : Forall (fun l => no_LF l = true) (k :: kept')).
    { rewrite <- Hkept. apply Forall_forall. intros x Hx.
      apply upto_terminal_incl, filter_In in Hx. destruct Hx as [Hx _].
      pose proof (arriving_lines_no_LF polls (write data (reset_input_buffer p)))
        as Hno.
      rewrite Forall_forall in Hno. apply Hno, Hx. }
    subst resp. rewrite split_on_join in Hsplit; [|discriminate|exact Hall].
    rewrite <- Hkept in Hsplit.
    eapply upto_terminal_inner; eauto.
Qed.

Lemma C10_witness_two_lines :
  is_terminal "GARBAGE" = false.
Proof.
  refine (C10_only_last_response_line_is_terminal
            bt0 _ "STATUS" _ [recv "GARBAGE"; recv "STATUS OK"]
            [] "GARBAGE" ["STATUS OK"] eq_refl eq_refl _).
  discriminate.
Defined.

End ATSBTFacts.

(** ** Pairing, profile opening, media control and teardown *)

Module A2DPFacts.
Import PyStr Serial Spec PyStrFacts ATSBTFacts.
Import ATSBT A2DP.

(** *** Encoding ASCII texts *)

Lemma is_ascii_app (a b : string) :
  is_ascii (a ++ b) = is_ascii a && is_ascii b.
Proof. apply forall_chars_app. Qed.

Lemma encode_ascii_ok (s : string) :
  is_ascii s = true -> encode_ascii s = Some (to_bytes s).
Proof.
  induction s as [|c s IH]; simpl; [reflexivity|].
  intros H. apply andb_true_iff in H. destruct H as [Hc Hs].
  rewrite Hc, (IH Hs). reflexivity.
Qed.

Lemma is_ascii_with_CR (s : string) :
  is_ascii s = true -> is_ascii (with_CR s) = true.
Proof.
  intros H. unfold with_CR.
  destruct (endswith s (String CR EmptyString)); [exact H|].
  rewrite is_ascii_app, H. reflexivity.
Qed.

Lemma is_ascii_string_of_uint (d : Decimal.uint) :
  is_ascii (NilEmpty.string_of_uint d) = true.
Proof. induction d; simpl; auto. Qed.

Lemma is_ascii_string_of_uint0 (d : Decimal.uint) :
  is_ascii (NilZero.string_of_uint d) = true.
Proof.
  destruct d; try reflexivity;
    apply (is_ascii_string_of_uint (_ d)).
Qed.

Lemma is_ascii_str_of_int (n : Z) : is_ascii (str_of_int n) = true.
Proof.
  unfold str_of_int, NilZero.string_of_int.
  destruct (Z.to_int n) as [d|d].
  - apply is_ascii_string_of_uint0.
  - change (is_ascii (String "-" (NilZero.string_of_uint d)) = true).
    unfold is_ascii. simpl. apply is_ascii_string_of_uint0.
Qed.

(** *** What a polling loop leaves of the port *)

Lemma read_stripped_line_port (p : port) :
  is_open (snd (read_stripped_line p)) = is_open p /\
  written (snd (read_stripped_line p)) = written p.
Proof.
  unfold read_stripped_line, readline.
  destruct (split_line (in_buffer p)); simpl. auto.
Qed.

Lemma read_response_port (polls : list poll) (p : port) (acc : list string) :
  is_open (snd (read_response polls p acc)) = is_open p /\
  written (snd (read_response polls p acc)) = written p.
Proof.
  revert p acc. induction polls as [|q polls IH]; intros p acc; simpl; [auto|].
  destruct (0 <? in_waiting (deliver q p)); [|apply (IH (deliver q p))].
  destruct (read_fails q); [simpl; auto|].
  pose proof (read_stripped_line_port (deliver q p)) as Hp.
  destruct (read_stripped_line (deliver q p)) as [line p']. simpl in Hp.
  destruct Hp as [Ho Hw].
  destruct (nonempty line); [destruct (is_terminal line)|];
    simpl; rewrite <- ?Ho, <- ?Hw; auto.
Qed.

Lemma send_command_ok (b : ATSBT.t) (p : port) (command : string)
      (polls : list poll) :
  serial b = Some p -> is_open p = true -> is_ascii command = true ->
  exists resp p',
    send_command b command polls = (Return resp, with_serial b p') /\
    is_open p' = true /\
    written p' = written p ++ to_bytes (with_CR command).
Proof.
  intros Hs Ho Ha. unfold send_command, is_connected. rewrite Hs, Ho. simpl.
  rewrite (encode_ascii_ok _ (is_ascii_with_CR _ Ha)).
  pose proof (read_response_port polls
                (write (to_bytes (with_CR command)) (reset_input_buffer p)) [])
    as [Hopen Hwritten].
  destruct (read_response polls _ []) as [lines p'] eqn:Hrun.
  simpl in *. exists (join (String LF EmptyString) lines), p'.
  rewrite Hopen, Hwritten. auto.
Qed.

(** *** [pair_device] *)

(** C2 (as amended): a response with a success marker pairs and records
    the address; a response with an error marker and no success marker
    fails; any other response pairs optimistically and records the
    address. *)
Theorem C2_pair_device_by_response
        (c : A2DP.t) (addr : string) (polls : list poll)
        (response : string) (b : ATSBT.t) :
  send_command (bt c) ("PAIR " ++ addr) polls = (Return response, b) ->
  (contains "OK" response = true \/ contains "PAIR_OK" response = true ->
   fst (pair_device c addr polls) = Return true /\
   paired_address (snd (pair_device c addr polls)) = Some addr)
  /\ (contains "OK" response = false -> contains "PAIR_OK" response = false ->
      contains "ERROR" response = true ->
      fst (pair_device c addr polls) = Return false /\
      paired_address (snd (pair_device c addr polls)) = paired_address c)
  /\ (contains "OK" response = false -> contains "PAIR_OK" response = false ->
      contains "ERROR" response = false ->
      fst (pair_device c addr polls) = Return true /\
      paired_address (snd (pair_device c addr polls)) = Some addr).
Proof.
  intros Hsend. unfold pair_device. rewrite Hsend.
  split; [|split].
  - intros [Hok|Hok]; rewrite Hok, ?orb_true_r; split; reflexivity.
  - intros Hok Hpair Herr. rewrite Hok, Hpair, Herr. split; reflexivity.
  - intros Hok Hpair Herr. rewrite Hok, Hpair, Herr. split; reflexivity.
Qed.

Lemma C2_witness_pair_ok :
  fst (pair_device conn0 "F84E1776FDB1" [recv "PAIR_OK"]) = Return true /\
  paired_address (snd (pair_device conn0 "F84E1776FDB1" [recv "PAIR_OK"]))
  = Some "F84E1776FDB1".
Proof.
  refine (proj1 (C2_pair_device_by_response
                   conn0 "F84E1776FDB1" [recv "PAIR_OK"] "PAIR_OK" _ eq_refl)
                (or_introl eq_refl)).
Defined.

(** C2 (as stated) fails: a response that holds an error marker and
    also the letters OK is taken for a success. *)
Lemma C2_counterexample_error_with_ok :
  exists response b,
    send_command (bt conn0) "PAIR F84E1776FDB1" [recv "ERROR LOOKUP"]
    = (Return response, b) /\
    contains "ERROR" response = true /\
    fst (pair_device conn0 "F84E1776FDB1" [recv "ERROR LOOKUP"]) = Return true.
Proof. eexists. eexists. repeat split. Qed.

(** C9: when the pairing command collects no line at all, the response
    is empty and [pair_device] still returns true and records the
    address. *)
Theorem C9_pair_device_empty_response
        (c : A2DP.t) (p : port) (addr : string) (data : list byte)
        (polls : list poll) :
  serial (bt c) = Some p -> is_open p = true ->
  encode_ascii (with_CR ("PAIR " ++ addr)) = Some data ->
  filter nonempty (arriving_lines polls (write data (reset_input_buffer p))) = [] ->
  fst (send_command (bt c) ("PAIR " ++ addr) polls) = Return EmptyString /\
  fst (pair_device c addr polls) = Return true /\
  paired_address (snd (pair_device c addr polls)) = Some addr.
Proof.
  intros Hs Ho He Hnone.
  pose proof (send_command_run (bt c) p _ data polls Hs Ho He) as Hrun.
  rewrite Hnone in Hrun.
  unfold pair_device.
  destruct (send_command (bt c) ("PAIR " ++ addr) polls) as [r b].
  simpl in Hrun. subst r. simpl. auto.
Qed.

Lemma C9_witness_silent_device :
  fst (send_command (bt conn0) "PAIR F84E1776FDB1" [quiet; quiet; quiet])
  = Return EmptyString /\
  fst (pair_device conn0 "F84E1776FDB1" [quiet; quiet; quiet]) = Return true /\
  paired_address (snd (pair_device conn0 "F84E1776FDB1" [quiet; quiet; quiet]))
  = Some "F84E1776FDB1".
Proof.
  exact (C9_pair_device_empty_response
           conn0 open_port "F84E1776FDB1"
           (to_bytes (with_CR "PAIR F84E1776FDB1")) [quiet; quiet; quiet]
           eq_refl eq_refl eq_refl eq_refl).
Defined.

(** A success line carries the link id; without digits the default of
    the profile is used; an error line fails. *)
Example open_a2dp_reads_link_id :
  a2dp_link_id (snd (open_a2dp conn0 (Some "F84E1776FDB1")
                       [recv "PENDING"; recv "OPEN_OK 12 A2DP"] quiet))
  = Some "12".
Proof. reflexivity. Qed.

Example open_avrcp_success_without_digits :
  avrcp_link_id (snd (open_avrcp conn0 (Some "F84E1776FDB1")
                        [recv "OPEN_OK AVRCP"] quiet))
  = Some "11".
Proof. reflexivity. Qed.

Example open_a2dp_error :
  fst (open_a2dp conn0 (Some "F84E1776FDB1") [recv "OPEN ERROR"] quiet)
  = Return false.
Proof. reflexivity. Qed.

(** A success line that arrives during the grace sleep is used. *)
Example open_a2dp_late_success :
  a2dp_link_id (snd (open_a2dp conn0 (Some "F84E1776FDB1")
                       [recv "PENDING"]
                       (Serial.mkPoll (to_bytes "OPEN_OK 7" ++ [x0a]) false)))
  = Some "7".
Proof. reflexivity. Qed.

(** *** [set_volume] *)

Lemma volume_link_or_else (c : A2DP.t) :
  match or_else (avrcp_link_id c) (Some "11") with
  | Some l => l
  | None => "11"
  end = volume_link c.
Proof.
  unfold or_else, truthy, volume_link.
  destruct (avrcp_link_id c) as [l|]; [|reflexivity].
  destruct (nonempty l); reflexivity.
Qed.

(** C8: [set_volume] writes a [VOLUME] command whose level is the
    requested one clamped to the range from 0 to 127: levels above 127
    go out as 127, negative levels as 0, levels in range unchanged. *)
Theorem C8_set_volume_transmits_clamped_level
        (c : A2DP.t) (p : port) (level : Z) (polls : list poll) :
  serial (bt c) = Some p -> is_open p = true ->
  is_ascii (volume_link c) = true ->
  let v := clamp_volume level in
  (0 <= v <= 127)%Z
  /\ (127 < level -> v = 127)%Z
  /\ (level < 0 -> v = 0)%Z
  /\ (0 <= level <= 127 -> v = level)%Z
  /\ written (port_of (snd (set_volume c level polls)))
     = written p
       ++ to_bytes (with_CR ("VOLUME " ++ volume_link c ++ " " ++ str_of_int v)).
Proof.
  intros Hs Ho Ha v.
  repeat split; try (unfold v, clamp_volume; lia).
  unfold set_volume. rewrite volume_link_or_else. fold v.
  assert (Hcmd : is_ascii ("VOLUME " ++ volume_link c ++ " " ++ str_of_int v) = true).
  { rewrite is_ascii_app, is_ascii_app, is_ascii_app, Ha, is_ascii_str_of_int.
    reflexivity. }
  destruct (send_command_ok (bt c) p _ polls Hs Ho Hcmd)
    as [resp [p' [Hsend [_ Hw]]]].
  rewrite Hsend. simpl. exact Hw.
Qed.

Lemma C8_witness_level_200 :
  written (port_of (snd (set_volume conn0 200 [recv "OK"])))
  = to_bytes (String.append "VOLUME 11 127" (String CR EmptyString)).
Proof.
  exact (proj2 (proj2 (proj2 (proj2
           (C8_set_volume_transmits_clamped_level
              conn0 open_port 200 [recv "OK"] eq_refl eq_refl eq_refl))))).
Defined.

(** *** [disconnect] *)

(** Reduces the record updates of a connection, leaving texts alone. *)
Ltac reduce_conn :=
  cbv beta iota zeta delta
      [port_of set_avrcp set_a2dp set_paired with_bt with_port with_serial
       bt serial a2dp_link_id avrcp_link_id paired_address cached_mac
       fst snd].

Lemma is_ascii_close (l : string) :
  is_ascii l = true -> is_ascii ("CLOSE " ++ l) = true.
Proof. intros H. rewrite is_ascii_app, H. reflexivity. Qed.

(** C4 (as amended): on an open transport, and for link ids that
    encode as ASCII, [disconnect] sends one [CLOSE] for every tracked
    link, whatever the device answers to either of them, and leaves
    every tracked link id cleared. *)
Theorem C4_disconnect_closes_and_clears_every_link
        (c : A2DP.t) (p : port) (polls_a2dp polls_avrcp : list poll) :
  serial (bt c) = Some p -> is_open p = true ->
  (forall l, a2dp_link_id c = Some l -> is_ascii l = true) ->
  (forall l, avrcp_link_id c = Some l -> is_ascii l = true) ->
  let c' := snd (disconnect c polls_a2dp polls_avrcp) in
  fst (disconnect c polls_a2dp polls_avrcp) = Return tt
  /\ (truthy (a2dp_link_id c) = true -> a2dp_link_id c' = None)
  /\ (truthy (avrcp_link_id c) = true -> avrcp_link_id c' = None)
  /\ written (port_of c')
     = written p ++ close_bytes (a2dp_link_id c) ++ close_bytes (avrcp_link_id c).
Proof.
  intros Hs Ho Ha Hv.
  destruct c as [b paired a2dp avrcp].
  unfold disconnect, close_bytes, truthy.
  cbn [a2dp_link_id avrcp_link_id bt] in *.
  assert (Hb : b = with_serial b p).
  { destruct b as [s m]. simpl in Hs. subst s. reflexivity. }
  assert (Hclose : forall b0 p0 l polls,
             serial b0 = Some p0 -> is_open p0 = true -> is_ascii l = true ->
             exists resp p1,
               send_command b0 ("CLOSE " ++ l) polls
               = (Return resp, with_serial b0 p1) /\
               is_open p1 = true /\
               written p1 = written p0 ++ to_bytes (with_CR ("CLOSE " ++ l))).
  { intros b0 p0 l polls H1 H2 H3.
    exact (send_command_ok b0 p0 _ polls H1 H2 (is_ascii_close l H3)). }
  destruct a2dp as [la|]; [destruct (nonempty la) eqn:Hla|].
  - destruct (Hclose b p la polls_a2dp Hs Ho (Ha la eq_refl))
      as [r1 [p1 [Hsend1 [Ho1 Hw1]]]].
    rewrite Hsend1.
    cbn [with_bt set_a2dp a2dp_link_id avrcp_link_id bt paired_address].
    destruct avrcp as [lv|]; [destruct (nonempty lv) eqn:Hlv|].
    + destruct (Hclose (with_serial b p1) p1 lv polls_avrcp eq_refl Ho1
                  (Hv lv eq_refl))
        as [r2 [p2 [Hsend2 [Ho2 Hw2]]]].
      rewrite Hsend2. reduce_conn. rewrite Hw2, Hw1, <- app_assoc. auto.
    + reduce_conn. rewrite Hw1, app_nil_r. repeat split; auto; discriminate.
    + reduce_conn. rewrite Hw1, app_nil_r. repeat split; auto; discriminate.
  - cbn [with_bt set_a2dp a2dp_link_id avrcp_link_id bt paired_address].
    destruct avrcp as [lv|]; [destruct (nonempty lv) eqn:Hlv|].
    + destruct (Hclose b p lv polls_avrcp Hs Ho (Hv lv eq_refl))
        as [r2 [p2 [Hsend2 [Ho2 Hw2]]]].
      rewrite Hsend2. reduce_conn. rewrite Hw2. repeat split; auto; discriminate.
    + unfold port_of. cbn [snd fst bt]. rewrite Hs, app_nil_r.
      repeat split; auto; discriminate.
    + unfold port_of. cbn [snd fst bt]. rewrite Hs, app_nil_r.
      repeat split; auto; discriminate.
  - cbn [with_bt set_a2dp a2dp_link_id avrcp_link_id bt paired_address].
    destruct avrcp as [lv|]; [destruct (nonempty lv) eqn:Hlv|].
    + destruct (Hclose b p lv polls_avrcp Hs Ho (Hv lv eq_refl))
        as [r2 [p2 [Hsend2 [Ho2 Hw2]]]].
      rewrite Hsend2. reduce_conn. rewrite Hw2. repeat split; auto; discriminate.
    + unfold port_of. cbn [snd fst bt]. rewrite Hs, app_nil_r.
      repeat split; auto; discriminate.
    + unfold port_of. cbn [snd fst bt]. rewrite Hs, app_nil_r.
      repeat split; auto; discriminate.
Qed.

(** Both closes answered with an error: both links are still closed and
    cleared. *)
Lemma C4_witness_both_closes_fail :
  let c := mkConn bt0 (Some "F84E1776FDB1") (Some "10") (Some "11") in
  let c' := snd (disconnect c [recv "ERROR"] [recv "ERROR"]) in
  fst (disconnect c [recv "ERROR"] [recv "ERROR"]) = Return tt
  /\ (true = true -> a2dp_link_id c' = None)
  /\ (true = true -> avrcp_link_id c' = None)
  /\ written (port_of c')
     = to_bytes (String.append "CLOSE 10" (String CR EmptyString))
       ++ to_bytes (String.append "CLOSE 11" (String CR EmptyString)).
Proof.
  intros c.
  refine (C4_disconnect_closes_and_clears_every_link
            c open_port [recv "ERROR"] [recv "ERROR"] eq_refl eq_refl _ _);
    intros l [= <-]; reflexivity.
Defined.

(** C4 (as stated) fails: on a session that was disconnected the
    first [CLOSE] is refused with [RuntimeError], which [disconnect]
    does not catch: the second [CLOSE] is never attempted and both
    link ids stay tracked. *)
Lemma C4_counterexample_session_not_connected :
  disconnect (mkConn (ATSBT.disconnect bt0) (Some "F84E1776FDB1")
                     (Some "10") (Some "11"))
             [recv "OK"] [recv "OK"]
  = (Raise RuntimeError,
     mkConn (ATSBT.disconnect bt0) (Some "F84E1776FDB1")
            (Some "10") (Some "11")).
Proof. reflexivity. Qed.

(** *** [_open_profile] *)

Lemma split_line_le (buf : list byte) :
  List.length (snd (split_line buf)) <= List.length buf.
Proof.
  induction buf as [|b rest IH]; simpl; [lia|].
  destruct (is_LF b); simpl; [lia|].
  destruct (split_line rest) as [line rest']. simpl in *. lia.
Qed.

Lemma read_stripped_line_consumes (p : port) :
  0 < in_waiting p ->
  in_waiting (snd (read_stripped_line p)) < in_waiting p.
Proof.
  unfold read_stripped_line, readline, in_waiting.
  destruct (in_buffer p) as [|b rest]; simpl; [lia|]. intros _.
  destruct (is_LF b); simpl; [lia|].
  pose proof (split_line_le rest) as Hle.
  destruct (split_line rest) as [line rest']. simpl in *. lia.
Qed.

(** The fuel [_open_profile] gives the draining loop is enough. *)
Lemma drain_enough_fuel (fuel : nat) (fails : bool) (p : port) (d : string) :
  in_waiting p <= fuel -> drain fuel fails p d <> None.
Proof.
  revert p. induction fuel as [|fuel IH]; intros p Hle; simpl.
  - replace (0 <? in_waiting p) with false; [discriminate|].
    symmetry. apply Nat.ltb_ge. lia.
  - destruct (0 <? in_waiting p) eqn:Hw; [|discriminate].
    destruct fails; [discriminate|].
    apply Nat.ltb_lt in Hw.
    pose proof (read_stripped_line_consumes p Hw) as Hlt.
    destruct (read_stripped_line p) as [line p']. simpl in Hlt.
    destruct (contains "OPEN_OK" line); [discriminate|].
    apply IH. lia.
Qed.

Lemma drain_without_success (fuel : nat) (p : port) (d : string) :
  in_waiting p <= fuel ->
  Forall (fun l => contains "OPEN_OK" l = false) (drained_lines fuel p) ->
  exists p', drain fuel false p d = Some (Return (true, Some d), p').
Proof.
  revert p. induction fuel as [|fuel IH]; intros p Hle Hall; simpl in *.
  - exists p. replace (0 <? in_waiting p) with false; [reflexivity|].
    symmetry. apply Nat.ltb_ge. lia.
  - destruct (0 <? in_waiting p) eqn:Hw; [|exists p; reflexivity].
    apply Nat.ltb_lt in Hw.
    pose proof (read_stripped_line_consumes p Hw) as Hlt.
    destruct (read_stripped_line p) as [line p']. simpl in Hlt.
    inversion Hall as [|? ? Hline Hrest]; subst.
    rewrite Hline. apply IH; [lia | exact Hrest].
Qed.

Lemma open_profile_pending (c : A2DP.t) (addr profile default : string)
      (polls : list poll) (grace : poll) :
  pending_unconfirmed c addr profile polls grace ->
  exists c', _open_profile c addr profile default polls grace
             = (Return (true, Some default), c').
Proof.
  intros [p [data [lines [p1 [Hp [He [Hc [Hok [Herr [Hpend [Hg Hlate]]]]]]]]]]].
  unfold _open_profile. rewrite Hp.
  change ("OPEN " ++ addr ++ " " ++ profile ++ String CR EmptyString)%string
    with (open_command addr profile).
  rewrite He, Hc. cbv zeta. rewrite Hok, Herr, Hpend, Hg.
  destruct (drain_without_success _ _ default (le_n _) Hlate) as [p2 Hd].
  rewrite Hd. eexists. reflexivity.
Qed.

(** C3: a profile-open call whose collected response holds a pending
    marker and neither a success nor an error marker, and whose grace
    drain meets no success marker, succeeds with the default link id
    of the profile: 10 for A2DP and 11 for AVRCP. *)
Theorem C3_open_profile_pending_uses_default_link
        (c : A2DP.t) (address : option string) (addr : string)
        (polls : list poll) (grace : poll) :
  or_else address (paired_address c) = Some addr -> nonempty addr = true ->
  (forall default,
      pending_unconfirmed c addr "A2DP" polls grace ->
      fst (_open_profile c addr "A2DP" default polls grace)
      = Return (true, Some default))
  /\ (forall default,
      pending_unconfirmed c addr "AVRCP" polls grace ->
      fst (_open_profile c addr "AVRCP" default polls grace)
      = Return (true, Some default))
  /\ (pending_unconfirmed c addr "A2DP" polls grace ->
      fst (open_a2dp c address polls grace) = Return true /\
      a2dp_link_id (snd (open_a2dp c address polls grace)) = Some "10")
  /\ (pending_unconfirmed c addr "AVRCP" polls grace ->
      fst (open_avrcp c address polls grace) = Return true /\
      avrcp_link_id (snd (open_avrcp c address polls grace)) = Some "11").
Proof.
  intros Haddr Hne.
  split; [|split; [|split]].
  - intros default Hp.
    destruct (open_profile_pending c addr "A2DP" default polls grace Hp)
      as [c' Hrun].
    rewrite Hrun. reflexivity.
  - intros default Hp.
    destruct (open_profile_pending c addr "AVRCP" default polls grace Hp)
      as [c' Hrun].
    rewrite Hrun. reflexivity.
  - intros Hp. unfold open_a2dp. rewrite Haddr, Hne.
    destruct (open_profile_pending c addr "A2DP" "10" polls grace Hp)
      as [c' Hrun].
    rewrite Hrun. split; reflexivity.
  - intros Hp. unfold open_avrcp. rewrite Haddr, Hne.
    destruct (open_profile_pending c addr "AVRCP" "11" polls grace Hp)
      as [c' Hrun].
    rewrite Hrun. split; reflexivity.
Qed.

(** The response sequence of the specification: one pending line, then
    nothing within the grace window. *)
Lemma C3_witness_pending_then_silence :
  fst (open_a2dp conn0 (Some "F84E1776FDB1")
         [quiet; recv "OPEN F84E1776FDB1 PENDING"; quiet] quiet) = Return true /\
  a2dp_link_id (snd (open_a2dp conn0 (Some "F84E1776FDB1")
         [quiet; recv "OPEN F84E1776FDB1 PENDING"; quiet] quiet)) = Some "10".
Proof.
  refine (proj1 (proj2 (proj2
            (C3_open_profile_pending_uses_default_link
               conn0 (Some "F84E1776FDB1") "F84E1776FDB1"
               [quiet; recv "OPEN F84E1776FDB1 PENDING"; quiet] quiet
               eq_refl eq_refl))) _).
  exists open_port, (to_bytes (open_command "F84E1776FDB1" "A2DP")).
  eexists. eexists.
  repeat split. constructor.
Defined.

End A2DPFacts.

(** ** The regular-expression matcher *)

Module ReFacts.
Import PyStr Spec PyStrFacts Re.

Lemma ishex_not_space (c : ascii) : ishex c = true -> isspace c = false.
Proof. destruct c as [[] [] [] [] [] [] [] []]; vm_compute; congruence. Qed.

Lemma isdigit_not_space (c : ascii) : isdigit c = true -> isspace c = false.
Proof. destruct c as [[] [] [] [] [] [] [] []]; vm_compute; congruence. Qed.

Lemma isdigit_not_minus (c : ascii) : isdigit c = true -> Ascii.eqb "-" c = false.
Proof. destruct c as [[] [] [] [] [] [] [] []]; vm_compute; congruence. Qed.

Lemma isdigit_not_minus' (c : ascii) : isdigit c = true -> Ascii.eqb c "-" = false.
Proof. destruct c as [[] [] [] [] [] [] [] []]; vm_compute; congruence. Qed.

Lemma head_not_app (p q : ascii -> bool) (a b : string) :
  (forall c, q c = true -> p c = false) ->
  nonempty a = true -> forall_chars q a = true -> head_not p (a ++ b).
Proof.
  intros Hqp Hne Ha. destruct a as [|c a]; [discriminate|].
  simpl in *. apply andb_true_iff in Ha. apply Hqp, Ha.
Qed.

Lemma greedy_count_run (p : ascii -> bool) (hi : option nat) (s1 s2 : string) :
  forall_chars p s1 = true -> head_not p s2 -> fits hi (length s1) ->
  greedy_count p hi (s1 ++ s2) = length s1.
Proof.
  revert hi. induction s1 as [|c s1 IH]; intros hi Hall Hhead Hfits; simpl.
  - destruct hi as [[|h]|]; destruct s2 as [|c s2]; simpl in *;
      try reflexivity; rewrite Hhead; reflexivity.
  - simpl in Hall. apply andb_true_iff in Hall. destruct Hall as [Hc Hall].
    destruct hi as [[|h]|]; simpl in *; try lia.
    + rewrite Hc. f_equal. apply IH; simpl; auto. lia.
    + rewrite Hc. f_equal. apply IH; simpl; auto.
Qed.

Lemma backoff_first {A : Type} (n lo : nat) (s : string)
      (k : string -> option A) (x : A) :
  lo <= n -> k (drop n s) = Some x -> backoff n lo s k = Some x.
Proof.
  intros Hle Hk.
  assert (Hlt : (n <? lo) = false) by (apply Nat.ltb_ge; exact Hle).
  destruct n as [|n].
  - destruct lo; [|lia]. simpl in *. destruct s; rewrite Hk; reflexivity.
  - change (backoff (S n) lo s k)
      with (if S n <? lo then None
            else match k (drop (S n) s) with
                 | Some y => Some y
                 | None => backoff n lo s k
                 end).
    rewrite Hlt, Hk. reflexivity.
Qed.

(** A greedy repetition that meets a maximal run of its class takes
    the whole run when the rest of the pattern then matches. *)
Lemma rmatch_rep {A : Type} (p : ascii -> bool) (lo : nat) (hi : option nat)
      (s1 s2 : string) (caps : captures)
      (k : string -> captures -> option A) (x : A) :
  forall_chars p s1 = true -> head_not p s2 ->
  lo <= length s1 -> fits hi (length s1) ->
  k s2 caps = Some x ->
  rmatch (Rep p lo hi) (s1 ++ s2) caps k = Some x.
Proof.
  intros Hall Hhead Hlo Hfits Hk. simpl.
  rewrite (greedy_count_run p hi s1 s2 Hall Hhead Hfits).
  apply backoff_first; [exact Hlo|].
  rewrite drop_app_length. exact Hk.
Qed.

Lemma rmatch_lit {A : Type} (l s : string) (caps : captures)
      (k : string -> captures -> option A) (x : A) :
  k s caps = Some x -> rmatch (Lit l) (l ++ s) caps k = Some x.
Proof.
  intros Hk. simpl. rewrite startswith_app, drop_app_length. exact Hk.
Qed.

Lemma take_consumed (s1 s2 : string) :
  take (length (s1 ++ s2) - length s2) (s1 ++ s2) = s1.
Proof.
  rewrite str_length_app.
  replace (length s1 + length s2 - length s2) with (length s1) by lia.
  apply take_app_length.
Qed.

(** A group around one greedy repetition captures the run. *)
Lemma rmatch_group_rep {A : Type} (n : nat) (p : ascii -> bool) (lo : nat)
      (hi : option nat) (s1 s2 : string) (caps : captures)
      (k : string -> captures -> option A) (x : A) :
  forall_chars p s1 = true -> head_not p s2 ->
  lo <= length s1 -> fits hi (length s1) ->
  k s2 ((n, s1) :: caps) = Some x ->
  rmatch (Group n (Rep p lo hi)) (s1 ++ s2) caps k = Some x.
Proof.
  intros Hall Hhead Hlo Hfits Hk.
  change (rmatch (Group n (Rep p lo hi)) (s1 ++ s2) caps k)
    with (rmatch (Rep p lo hi) (s1 ++ s2) caps
            (fun s' caps' =>
               k s' ((n, take (length (s1 ++ s2) - length s') (s1 ++ s2)) :: caps'))).
  apply rmatch_rep; try assumption.
  rewrite take_consumed. exact Hk.
Qed.

Lemma search_here (r : regex) (s : string) (caps : captures) :
  match_here r s = Some caps -> search r s = Some caps.
Proof. intros H. destruct s; simpl; rewrite H; reflexivity. Qed.

(** *** Every match the matcher finds is a match of the pattern *)

Lemma take_drop (n : nat) (s : string) : (take n s ++ drop n s)%string = s.
Proof.
  revert s. induction n as [|n IH]; intros s; [reflexivity|].
  destruct s as [|c s]; [reflexivity|]. simpl. f_equal. apply IH.
Qed.

Lemma backoff_inv {A : Type} (n lo : nat) (s : string)
      (k : string -> option A) (x : A) :
  backoff n lo s k = Some x ->
  exists m, lo <= m <= n /\ k (drop m s) = Some x.
Proof.
  induction n as [|n IH]; intros H.
  - cbn [backoff] in H. destruct (0 <? lo) eqn:Hlo; [discriminate|].
    apply Nat.ltb_ge in Hlo.
    destruct (k (drop 0 s)) eqn:Hk; [|discriminate].
    exists 0. split; [lia | congruence].
  - cbn [backoff] in H. destruct (S n <? lo) eqn:Hlo; [discriminate|].
    apply Nat.ltb_ge in Hlo.
    destruct (k (drop (S n) s)) eqn:Hk.
    + exists (S n). split; [lia | congruence].
    + destruct n as [|n'].
      * cbn [backoff] in H. destruct (0 <? lo) eqn:Hlo0; [discriminate|].
        apply Nat.ltb_ge in Hlo0.
        destruct (k (drop 0 s)) eqn:Hk0; [|discriminate].
        exists 0. split; [lia | congruence].
      * destruct (IH H) as [m [Hm Hkm]]. exists m. split; [lia | exact Hkm].
Qed.

Lemma greedy_count_take (p : ascii -> bool) (m : nat) (hi : option nat)
      (s : string) :
  m <= greedy_count p hi s ->
  forall_chars p (take m s) = true /\ length (take m s) = m /\ fits hi m.
Proof.
  revert hi s. induction m as [|m IH]; intros hi s Hm.
  - repeat split. destruct hi; simpl; lia.
  - destruct hi as [[|h]|]; destruct s as [|c s]; simpl in Hm; try lia.
    + destruct (p c) eqn:Hc; [|lia].
      destruct (IH (Some h) s) as [Hall [Hlen Hfit]]; [simpl; lia|].
      simpl. rewrite Hc, Hall, Hlen. simpl in Hfit. repeat split. lia.
    + destruct (p c) eqn:Hc; [|lia].
      destruct (IH None s) as [Hall [Hlen Hfit]]; [simpl; lia|].
      simpl. rewrite Hc, Hall, Hlen. repeat split.
Qed.

Lemma rmatch_sound {A : Type} (r : regex) (s : string) (caps : captures)
      (k : string -> captures -> option A) (x : A) :
  rmatch r s caps k = Some x ->
  exists s' caps', matches r s caps s' caps' /\ k s' caps' = Some x.
Proof.
  revert s caps k. induction r as [l|p lo hi|n r IH|r1 IH1 r2 IH2];
    intros s caps k H; cbn [rmatch] in H.
  - destruct (startswith s l) eqn:Hst; [|discriminate].
    exists (drop (length l) s), caps. split; [|exact H].
    split; [apply startswith_split, Hst | reflexivity].
  - destruct (backoff_inv _ _ _ _ _ H) as [m [Hm Hk]].
    destruct (greedy_count_take p m hi s) as [Hall [Hlen Hfit]]; [lia|].
    exists (drop m s), caps. split; [|exact Hk].
    exists (take m s). rewrite Hlen, take_drop. repeat split; auto. lia.
  - destruct (IH _ _ _ H) as [s' [inner [Hm Hk]]].
    exists s', ((n, take (length s - length s') s) :: inner).
    split; [|exact Hk]. exists inner. auto.
  - destruct (IH1 _ _ _ H) as [mid [caps1 [Hm1 H2]]].
    destruct (IH2 _ _ _ H2) as [s' [caps' [Hm2 Hk]]].
    exists s', caps'. split; [|exact Hk]. exists mid, caps1. auto.
Qed.

Lemma search_sound (r : regex) (s : string) (m : captures) :
  search r s = Some m -> exists start rest, matches r start [] rest m.
Proof.
  induction s as [|c s IH]; cbn [search]; intros H.
  - destruct (match_here r EmptyString) as [caps|] eqn:Hm; [|discriminate].
    injection H as ->. unfold match_here in Hm.
    destruct (rmatch_sound _ _ _ _ _ Hm) as [s' [caps' [Hmatch Hk]]].
    injection Hk as ->. eauto.
  - destruct (match_here r (String c s)) as [caps|] eqn:Hm.
    + injection H as ->. unfold match_here in Hm.
      destruct (rmatch_sound _ _ _ _ _ Hm) as [s' [caps' [Hmatch Hk]]].
      injection Hk as ->. eauto.
    + apply IH, H.
Qed.

(** The match [search] finds starts inside the text. *)
Lemma search_sound_within (r : regex) (s : string) (m : captures) :
  search r s = Some m ->
  exists start rest, matches r start [] rest m /\ length start <= length s.
Proof.
  induction s as [|c s IH]; cbn [search]; intros H.
  - destruct (match_here r EmptyString) as [caps|] eqn:Hm; [|discriminate].
    injection H as ->. unfold match_here in Hm.
    destruct (rmatch_sound _ _ _ _ _ Hm) as [s' [caps' [Hmatch Hk]]].
    injection Hk as ->. eauto.
  - destruct (match_here r (String c s)) as [caps|] eqn:Hm.
    + injection H as ->. unfold match_here in Hm.
      destruct (rmatch_sound _ _ _ _ _ Hm) as [s' [caps' [Hmatch Hk]]].
      injection Hk as ->. eauto.
    + destruct (IH H) as [start [rest [Hmatch Hlen]]].
      exists start, rest. split; [exact Hmatch | simpl; lia].
Qed.

End ReFacts.

(** ** The scan parser: [scan_for_devices] *)

Module ScanFacts.
Import PyStr Spec PyStrFacts Re ReFacts A2DP.

Lemma rmatch_cat {A : Type} (r1 r2 : regex) (s : string) (caps : captures)
      (k : string -> captures -> option A) :
  rmatch (Cat r1 r2) s caps k
  = rmatch r1 s caps (fun s' caps' => rmatch r2 s' caps' k).
Proof. reflexivity. Qed.

Lemma rmatch_group {A : Type} (n : nat) (r : regex) (s : string)
      (caps : captures) (k : string -> captures -> option A) :
  rmatch (Group n r) s caps k
  = rmatch r s caps
      (fun s' caps' => k s' ((n, take (length s - length s') s) :: caps')).
Proof. reflexivity. Qed.

Lemma nonempty_length (s : string) : nonempty s = true -> 1 <= length s.
Proof. destruct s; simpl; [discriminate | lia]. Qed.

Lemma contains_startswith (sub s : string) :
  startswith s sub = true -> contains sub s = true.
Proof. intros H. destruct s; cbn [contains]; rewrite H; reflexivity. Qed.

Lemma inquiry_line_shape (addr name cod : string) (negative : bool)
      (digits unit : string) :
  inquiry_line addr name cod negative digits unit
  = ("INQUIRY" ++ SP ++ addr ++ SP ++ QS ++ name ++ QS ++ SP ++ cod ++ SP
     ++ sign_text negative ++ digits ++ SP ++ unit)%string.
Proof.
  unfold inquiry_line, quoted, SP, QS, sign_text. simpl.
  rewrite !str_app_assoc. reflexivity.
Qed.

(** The structured pattern matches a structured line at its head and
    captures the address, the name, the code and the signal strength. *)
Lemma inquiry_re_matches (addr name cod : string) (negative : bool)
      (digits unit : string) :
  length addr = 12 -> forall_chars ishex addr = true ->
  nonempty name = true -> forall_chars notquote name = true ->
  nonempty cod = true -> forall_chars ishex cod = true ->
  nonempty digits = true -> forall_chars isdigit digits = true ->
  match_here inquiry_re (inquiry_line addr name cod negative digits unit)
  = Some [(4, (sign_text negative ++ digits)%string); (3, cod); (2, name);
          (1, addr)].
Proof.
  intros Hlen Haddr Hname Hnameq Hcod Hcodh Hdig Hdigd.
  assert (Haddr_ne : nonempty addr = true).
  { destruct addr; [discriminate Hlen | reflexivity]. }
  rewrite inquiry_line_shape. unfold match_here, inquiry_re.
  rewrite rmatch_cat. apply rmatch_lit. cbv beta.
  rewrite rmatch_cat. unfold plus at 1.
  apply rmatch_rep;
    [reflexivity
    | apply (head_not_app isspace ishex); auto using ishex_not_space
    | simpl; lia | exact I | cbv beta].
  rewrite rmatch_cat. unfold exactly.
  apply rmatch_group_rep;
    [exact Haddr | reflexivity | lia | simpl; lia | cbv beta].
  rewrite rmatch_cat. unfold plus at 1.
  apply rmatch_rep; [reflexivity | reflexivity | simpl; lia | exact I | cbv beta].
  rewrite rmatch_cat. apply (rmatch_lit QS). cbv beta.
  rewrite rmatch_cat. unfold plus at 1.
  apply rmatch_group_rep;
    [exact Hnameq | reflexivity | apply nonempty_length, Hname | exact I
    | cbv beta].
  rewrite rmatch_cat. apply (rmatch_lit QS). cbv beta.
  rewrite rmatch_cat. unfold plus at 1.
  apply rmatch_rep;
    [reflexivity
    | apply (head_not_app isspace ishex); auto using ishex_not_space
    | simpl; lia | exact I | cbv beta].
  rewrite rmatch_cat. unfold plus at 1.
  apply rmatch_group_rep;
    [exact Hcodh | reflexivity | apply nonempty_length, Hcod | exact I
    | cbv beta].
  rewrite rmatch_cat. unfold plus at 1.
  apply rmatch_rep; [reflexivity | | simpl; lia | exact I | cbv beta].
  { destruct negative; [reflexivity|]. simpl.
    apply (head_not_app isspace isdigit); auto using isdigit_not_space. }
  rewrite rmatch_group, rmatch_cat. unfold opt, plus.
  apply rmatch_rep;
    [destruct negative; reflexivity
    | apply (head_not_app (Ascii.eqb "-") isdigit);
      auto using isdigit_not_minus
    | lia | destruct negative; simpl; lia | cbv beta].
  apply rmatch_rep;
    [exact Hdigd | reflexivity | apply nonempty_length, Hdig | exact I
    | cbv beta].
  rewrite <- (str_app_assoc (sign_text negative) digits), take_consumed.
  reflexivity.
Qed.

Lemma int_of_str_signed (negative : bool) (digits : string) :
  nonempty digits = true -> forall_chars isdigit digits = true ->
  int_of_str (sign_text negative ++ digits)
  = if length digits <=? max_str_digits
    then Some (signed_value negative digits) else None.
Proof.
  intros Hne Hd. destruct negative.
  - change (sign_text true ++ digits)%string with (String "-" digits).
    unfold int_of_str, signed_value. rewrite Ascii.eqb_refl, Hne, Hd.
    reflexivity.
  - change (sign_text false ++ digits)%string with digits.
    destruct digits as [|c ds]; [discriminate|].
    pose proof Hd as Hd'. cbn [forall_chars] in Hd'.
    apply andb_true_iff in Hd'. destruct Hd' as [Hc _].
    unfold int_of_str, signed_value.
    rewrite (isdigit_not_minus' c Hc), Hd. reflexivity.
Qed.

(** C5 (as amended): a line of the structured shape that holds none of
    the texts the parser filters on, and whose signal strength has no
    more digits than [int] converts, yields one device with exactly
    the address, the name and the signed signal strength of the
    line. *)
Theorem C5_structured_line_parses_exactly
        (addr name cod : string) (negative : bool) (digits unit : string) :
  length addr = 12 -> forall_chars ishex addr = true ->
  nonempty name = true -> forall_chars notquote name = true ->
  nonempty cod = true -> forall_chars ishex cod = true ->
  nonempty digits = true -> forall_chars isdigit digits = true ->
  (length digits <=? max_str_digits) = true ->
  let line := inquiry_line addr name cod negative digits unit in
  contains "PENDINGINQUIRY" line = false ->
  contains "INQU_OK" line = false ->
  contains "INQUIRY_" line = false ->
  parse_line line
  = Return [mkDevice addr name (Some (signed_value negative digits))].
Proof.
  intros Hlen Haddr Hname Hnameq Hcod Hcodh Hdig Hdigd Hmax line
         Hpend Hok Hund.
  unfold parse_line, normalize. rewrite Hpend.
  unfold is_candidate. rewrite Hok, Hund.
  assert (Hcand : contains "INQUIRY " line = true).
  { apply contains_startswith. unfold line, inquiry_line.
    apply startswith_app. }
  rewrite Hcand. cbn [andb negb]. unfold line.
  rewrite (search_here _ _ _
             (inquiry_re_matches addr name cod negative digits unit
                Hlen Haddr Hname Hnameq Hcod Hcodh Hdig Hdigd)).
  cbn [group Nat.eqb].
  rewrite (int_of_str_signed negative digits Hdig Hdigd), Hmax. reflexivity.
Qed.

(** The line of the specification: LinkBuds S at -61 dBm. *)
Lemma C5_witness_linkbuds :
  parse_line (inquiry_line "F84E1776FDB1" "LinkBuds S" "240404" true "61" "dBm")
  = Return [mkDevice "F84E1776FDB1" "LinkBuds S" (Some (-61)%Z)].
Proof.
  exact (C5_structured_line_parses_exactly
           "F84E1776FDB1" "LinkBuds S" "240404" true "61" "dBm"
           eq_refl eq_refl eq_refl eq_refl eq_refl eq_refl eq_refl eq_refl
           eq_refl eq_refl eq_refl eq_refl).
Defined.

(** C5 (as stated) fails: a line of the structured shape whose name
    holds the text of the scan acknowledgment is filtered out. *)
Lemma C5_counterexample_name_is_inqu_ok :
  parse_line (inquiry_line "F84E1776FDB1" "INQU_OK" "240404" true "61" "dBm")
  = Return [].
Proof. reflexivity. Qed.

(** *** A signal strength [int] refuses *)

(** A line of the structured shape whose signal strength has more
    digits than [int] converts makes the parser raise: the conversion
    is not guarded in [scan_for_devices]. *)
Lemma parse_line_refuses_long_rssi
      (addr name cod : string) (negative : bool) (digits unit : string) :
  length addr = 12 -> forall_chars ishex addr = true ->
  nonempty name = true -> forall_chars notquote name = true ->
  nonempty cod = true -> forall_chars ishex cod = true ->
  nonempty digits = true -> forall_chars isdigit digits = true ->
  max_str_digits < length digits ->
  let line := inquiry_line addr name cod negative digits unit in
  contains "PENDINGINQUIRY" line = false ->
  contains "INQU_OK" line = false ->
  contains "INQUIRY_" line = false ->
  parse_line line = Raise ValueError.
Proof.
  intros Hlen Haddr Hname Hnameq Hcod Hcodh Hdig Hdigd Hmax line
         Hpend Hok Hund.
  unfold parse_line, normalize. rewrite Hpend.
  unfold is_candidate. rewrite Hok, Hund.
  assert (Hcand : contains "INQUIRY " line = true).
  { apply contains_startswith. unfold line, inquiry_line.
    apply startswith_app. }
  rewrite Hcand. cbn [andb negb]. unfold line.
  rewrite (search_here _ _ _
             (inquiry_re_matches addr name cod negative digits unit
                Hlen Haddr Hname Hnameq Hcod Hcodh Hdig Hdigd)).
  cbn [group Nat.eqb].
  rewrite (int_of_str_signed negative digits Hdig Hdigd).
  apply Nat.leb_gt in Hmax. rewrite Hmax. reflexivity.
Qed.

(** A scan that reads a signal strength of 4301 digits ends with
    [ValueError]. *)
Example scan_raises_on_4301_digits :
  fst (scan_for_devices conn0 5
         [recv (inquiry_line "F84E1776FDB1" "LinkBuds S" "240404" true
                             (times "1" 4301) "dBm")])
  = Raise ValueError.
Proof. vm_compute. reflexivity. Qed.

(** *** The unquoted format *)

Lemma hex_alphabet (c : ascii) :
  contains (String c EmptyString) "0123456789ABCDEFabcdef" = ishex c.
Proof. destruct c as [[] [] [] [] [] [] [] []]; vm_compute; reflexivity. Qed.

Lemma all_in_hex (s : string) :
  all_in "0123456789ABCDEFabcdef" s = forall_chars ishex s.
Proof.
  induction s as [|c s IH]; [reflexivity|].
  cbn [all_in forall_chars]. rewrite hex_alphabet, IH. reflexivity.
Qed.

Lemma is_address_hex12 (tok : string) :
  is_address tok = true <-> is_hex12 tok.
Proof.
  unfold is_address, is_hex12. rewrite all_in_hex, andb_true_iff, Nat.eqb_eq.
  reflexivity.
Qed.

(** The indexed loop finds the token after the first marker token. *)
Lemma fallback_loop_token_after (pre rest : list string) :
  fallback_loop (pre ++ rest) (List.length pre) rest
  = match token_after "INQUIRY" rest with
    | Some a => if is_address a then [mkDevice a "Unknown" None] else []
    | None => []
    end.
Proof.
  revert pre. induction rest as [|part rest IH]; intros pre; [reflexivity|].
  cbn [fallback_loop token_after].
  destruct (String.eqb part "INQUIRY") eqn:Hpart.
  - destruct rest as [|a rest].
    + replace (List.length pre + 1 <? List.length (pre ++ [part])) with false.
      * reflexivity.
      * symmetry. apply Nat.ltb_ge. rewrite length_app. simpl. lia.
    + replace (List.length pre + 1 <? List.length (pre ++ part :: a :: rest))
        with true.
      * cbn [andb hd_error].
        replace (nth (List.length pre + 1) (pre ++ part :: a :: rest) EmptyString)
          with a; [reflexivity|].
        rewrite app_nth2 by lia.
        replace (List.length pre + 1 - List.length pre) with 1 by lia.
        reflexivity.
      * symmetry. apply Nat.ltb_lt. rewrite length_app. simpl. lia.
  - cbn [andb].
    specialize (IH (pre ++ [part])).
    rewrite <- app_assoc, length_app in IH. simpl in IH.
    replace (List.length pre + 1) with (S (List.length pre)) in IH by lia.
    exact IH.
Qed.

Lemma fallback_parse_token_after (line : string) :
  fallback_parse line
  = match token_after "INQUIRY" (split_ws line) with
    | Some a => if is_address a then [mkDevice a "Unknown" None] else []
    | None => []
    end.
Proof. exact (fallback_loop_token_after [] (split_ws line)). Qed.

(** C7: on a candidate line the structured pattern does not match, the
    parser records the token that follows the marker token, with the
    name Unknown and no signal strength, exactly when that token is
    twelve hexadecimal characters; otherwise the line gives no device. *)
Theorem C7_fallback_records_hex12_token_after_marker (line : string) :
  is_candidate (normalize line) = true ->
  search inquiry_re (normalize line) = None ->
  (forall a,
      token_after "INQUIRY" (split_ws (normalize line)) = Some a ->
      is_hex12 a ->
      parse_line line = Return [mkDevice a "Unknown" None])
  /\ (forall a,
      token_after "INQUIRY" (split_ws (normalize line)) = Some a ->
      ~ is_hex12 a ->
      parse_line line = Return [])
  /\ (token_after "INQUIRY" (split_ws (normalize line)) = None ->
      parse_line line = Return []).
Proof.
  intros Hcand Hfail.
  assert (Hparse : parse_line line = Return (fallback_parse (normalize line))).
  { unfold parse_line. rewrite Hcand, Hfail. reflexivity. }
  rewrite Hparse, fallback_parse_token_after.
  split; [|split].
  - intros a Ha Hhex. rewrite Ha.
    apply is_address_hex12 in Hhex. rewrite Hhex. reflexivity.
  - intros a Ha Hhex. rewrite Ha.
    destruct (is_address a) eqn:Haddr; [|reflexivity].
    exfalso. apply Hhex, is_address_hex12, Haddr.
  - intros Ha. rewrite Ha. reflexivity.
Qed.

(** The line of the specification with no quoted name. *)
Lemma C7_witness_unquoted_line :
  parse_line "INQUIRY AABBCCDDEEFF"
  = Return [mkDevice "AABBCCDDEEFF" "Unknown" None].
Proof.
  refine (proj1 (C7_fallback_records_hex12_token_after_marker
                   "INQUIRY AABBCCDDEEFF" eq_refl eq_refl)
                "AABBCCDDEEFF" eq_refl _).
  split; reflexivity.
Defined.

(** *** A whole scan *)

(** The acknowledgment, a structured hit, a glued hit without name, and
    the completion line: two devices, in the order observed. *)
Example scan_two_devices :
  fst (scan_for_devices conn0 5
         [recv "INQU_OK"; quiet;
          recv (inquiry_line "F84E1776FDB1" "LinkBuds S" "240404" true "61" "dBm");
          recv "PENDINGINQUIRY AABBCCDDEEFF"; quiet;
          recv "INQUIRY_COMPLETE"])
  = Return [mkDevice "F84E1776FDB1" "LinkBuds S" (Some (-61)%Z);
            mkDevice "AABBCCDDEEFF" "Unknown" None].
Proof. reflexivity. Qed.

End ScanFacts.

(** ** The glued PENDING prefix *)

Module PrefixFacts.
Import PyStr Spec PyStrFacts A2DP.

(** *** [replace] does not depend on its fuel *)

Lemma drop_length (n : nat) (s : string) : length (drop n s) = length s - n.
Proof.
  revert s. induction n as [|n IH]; intros s; simpl.
  - lia.
  - destruct s as [|c s]; simpl; [reflexivity | apply IH].
Qed.

Lemma startswith_nonempty (s old : string) :
  nonempty old = true -> startswith s old = true -> nonempty s = true.
Proof. destruct old, s; simpl; congruence. Qed.

Lemma replace_fuel_enough (old new : string) (fuel1 fuel2 : nat) (s : string) :
  nonempty old = true -> length s <= fuel1 -> length s <= fuel2 ->
  replace_fuel fuel1 old new s = replace_fuel fuel2 old new s.
Proof.
  intros Hold. revert fuel2 s.
  induction fuel1 as [|fuel1 IH]; intros fuel2 s H1 H2.
  - destruct s; [|simpl in H1; lia].
    destruct fuel2; simpl; [reflexivity|].
    destruct old; [discriminate | reflexivity].
  - destruct fuel2 as [|fuel2].
    + destruct s; [|simpl in H2; lia]. simpl.
      destruct old; [discriminate | reflexivity].
    + cbn [replace_fuel]. destruct (startswith s old) eqn:Hst.
      * f_equal.
        pose proof (startswith_nonempty s old Hold Hst) as Hs.
        assert (Hlen : length (drop (length old) s) < length s).
        { rewrite drop_length. destruct s; [discriminate|].
          destruct old; [discriminate|]. simpl. lia. }
        apply IH; lia.
      * destruct s as [|c s]; [reflexivity|]. f_equal.
        simpl in H1, H2. apply IH; lia.
Qed.

Lemma replace_match (old new s : string) :
  nonempty old = true -> startswith s old = true ->
  replace old new s = (new ++ replace old new (drop (length old) s))%string.
Proof.
  intros Hold Hst. unfold replace.
  pose proof (startswith_nonempty s old Hold Hst) as Hs.
  destruct s as [|c s]; [discriminate|].
  cbn [length replace_fuel]. rewrite Hst. f_equal.
  apply replace_fuel_enough; [exact Hold | | lia].
  rewrite drop_length. destruct old; [discriminate|]. simpl. lia.
Qed.

Lemma replace_skip (old new : string) (c : ascii) (s : string) :
  startswith (String c s) old = false ->
  replace old new (String c s) = String c (replace old new s).
Proof.
  intros Hst. unfold replace. cbn [length replace_fuel]. rewrite Hst.
  reflexivity.
Qed.

Lemma replace_absent (old new s : string) :
  contains old s = false -> replace old new s = s.
Proof.
  induction s as [|c s IH]; intros H.
  - unfold replace. reflexivity.
  - cbn [contains] in H. apply orb_false_iff in H. destruct H as [Hst Hrest].
    rewrite replace_skip by exact Hst. f_equal. apply IH, Hrest.
Qed.

Lemma normalize_replace (line : string) :
  normalize line = replace "PENDINGINQUIRY" "INQUIRY" line.
Proof.
  unfold normalize. destruct (contains "PENDINGINQUIRY" line) eqn:H.
  - reflexivity.
  - symmetry. apply replace_absent, H.
Qed.

(** *** Where a match of a word can start near the end of a text *)

Lemma startswith_app_l (p tail w : string) :
  startswith p w = true -> startswith (p ++ tail) w = true.
Proof.
  revert p. induction w as [|a w IH]; intros p H.
  - destruct (p ++ tail)%string; reflexivity.
  - destruct p as [|c p]; [discriminate|]. simpl in *.
    apply andb_true_iff in H. destruct H as [Hc H].
    rewrite Hc. apply IH, H.
Qed.

(** A word found at the head of [p ++ tail] lies within [p], or [p] is
    a proper prefix of the word and [tail] starts with what is left. *)
Lemma startswith_app_inv (p tail w : string) :
  startswith (p ++ tail) w = true ->
  startswith p w = true
  \/ (length p < length w /\ p = take (length p) w /\
      startswith tail (drop (length p) w) = true).
Proof.
  revert p. induction w as [|a w IH]; intros p H.
  - left. destruct p; reflexivity.
  - destruct p as [|c p].
    + right. simpl. split; [lia|]. split; [reflexivity|exact H].
    + simpl in H. apply andb_true_iff in H. destruct H as [Hc H].
      destruct (IH p H) as [Hin|[Hlen [Htake Hrest]]].
      * left. simpl. rewrite Hc. exact Hin.
      * right. apply Ascii.eqb_eq in Hc. subst c. simpl.
        split; [lia|]. split; [f_equal; exact Htake | exact Hrest].
Qed.

(** No proper suffix of PENDINGINQUIRY starts the word itself. *)
Lemma no_self_overlap (k : nat) (r : string) :
  1 <= k < 14 ->
  startswith ("PENDINGINQUIRY" ++ r) (drop k "PENDINGINQUIRY") = false.
Proof.
  intros Hk.
  do 14 (destruct k as [|k]; [try lia; reflexivity|]). lia.
Qed.

(** A proper suffix of PENDINGINQUIRY starts INQUIRY only when what
    comes before it is PENDING. *)
Lemma overlap_inquiry (k : nat) (r : string) :
  1 <= k < 14 ->
  startswith ("INQUIRY" ++ r) (drop k "PENDINGINQUIRY") = true ->
  k = 7.
Proof.
  intros Hk.
  do 14 (destruct k as [|k];
         [try lia; simpl; try discriminate; intros _; reflexivity|]).
  lia.
Qed.

Lemma endswith_app_r (a s suffix : string) :
  endswith s suffix = true -> endswith (a ++ s) suffix = true.
Proof.
  intros H. induction a as [|c a IH]; simpl; [exact H|].
  rewrite IH. apply orb_true_r.
Qed.

Lemma endswith_tail (c : ascii) (s suffix : string) :
  endswith (String c s) suffix = false -> endswith s suffix = false.
Proof.
  cbn [endswith]. intros H. apply orb_false_iff in H. apply H.
Qed.

Lemma word_not_at_head (p r tail : string) :
  nonempty p = true ->
  startswith p "PENDINGINQUIRY" = false ->
  endswith p "PENDING" = false ->
  tail = ("PENDINGINQUIRY" ++ r)%string \/ tail = ("INQUIRY" ++ r)%string ->
  startswith (p ++ tail) "PENDINGINQUIRY" = false.
Proof.
  intros Hne Hp Hend Htail.
  destruct (startswith (p ++ tail) "PENDINGINQUIRY") eqn:Hst; [|reflexivity].
  exfalso.
  destruct (startswith_app_inv _ _ _ Hst) as [Hin|[Hlen [Htake Hrest]]].
  - congruence.
  - assert (Hk : 1 <= length p < 14).
    { destruct p; [discriminate|]. simpl in *. lia. }
    destruct Htail as [-> | ->].
    + rewrite (no_self_overlap _ r Hk) in Hrest. discriminate.
    + pose proof (overlap_inquiry _ r Hk Hrest) as H7.
      rewrite H7 in Htake. simpl in Htake. subst p. discriminate Hend.
Qed.

(** Stripping the prefix of the occurrence at hand, or leaving the
    marker as it already is, leads to the same normalized text. *)
Lemma replace_glued (n : nat) (p r : string) :
  length p <= n -> endswith p "PENDING" = false ->
  replace "PENDINGINQUIRY" "INQUIRY" (p ++ "PENDINGINQUIRY" ++ r)
  = replace "PENDINGINQUIRY" "INQUIRY" (p ++ "INQUIRY" ++ r).
Proof.
  revert p. induction n as [|n IH]; intros p Hlen Hend.
  - destruct p; [|simpl in Hlen; lia].
    change (EmptyString ++ "PENDINGINQUIRY" ++ r)%string
      with ("PENDINGINQUIRY" ++ r)%string.
    rewrite replace_match by (reflexivity || apply startswith_app).
    rewrite drop_app_length.
    change (EmptyString ++ "INQUIRY" ++ r)%string
      with (String "I" (String "N" (String "Q" (String "U"
             (String "I" (String "R" (String "Y" r))))))).
    rewrite !replace_skip by reflexivity. reflexivity.
  - destruct p as [|c p].
    + apply (IH EmptyString); [simpl; lia | exact Hend].
    + destruct (startswith (String c p) "PENDINGINQUIRY") eqn:Hp.
      * pose proof (startswith_split _ _ Hp) as Hsplit.
        set (p' := drop (length "PENDINGINQUIRY") (String c p)) in *.
        assert (Hlen' : length p' <= n).
        { unfold p'. rewrite drop_length. simpl in *. lia. }
        assert (Hend' : endswith p' "PENDING" = false).
        { destruct (endswith p' "PENDING") eqn:He; [|reflexivity].
          rewrite Hsplit in Hend.
          rewrite (endswith_app_r "PENDINGINQUIRY" p' _ He) in Hend.
          discriminate. }
        rewrite Hsplit, !str_app_assoc.
        rewrite !(replace_match "PENDINGINQUIRY" "INQUIRY"
                    ("PENDINGINQUIRY" ++ _))
          by (reflexivity || apply startswith_app).
        rewrite !drop_app_length. f_equal. apply IH; assumption.
      * change ((String c p ++ "PENDINGINQUIRY" ++ r)%string)
          with (String c (p ++ "PENDINGINQUIRY" ++ r)).
        change ((String c p ++ "INQUIRY" ++ r)%string)
          with (String c (p ++ "INQUIRY" ++ r)).
        rewrite !replace_skip.
        -- f_equal. apply IH; [simpl in Hlen; lia|].
           apply (endswith_tail c), Hend.
        -- apply (word_not_at_head (String c p) r); auto.
        -- apply (word_not_at_head (String c p) r); auto.
Qed.

(** C6 (as amended): a line in which PENDING is glued directly before
    INQUIRY parses to the same devices as the line without that
    PENDING, provided the glued PENDING does not itself follow another
    PENDING. *)
Theorem C6_glued_pending_prefix_is_stripped (before after : string) :
  endswith before "PENDING" = false ->
  parse_line (before ++ "PENDINGINQUIRY" ++ after)
  = parse_line (before ++ "INQUIRY" ++ after).
Proof.
  intros Hend. unfold parse_line.
  rewrite !normalize_replace.
  rewrite (replace_glued (length before) before after (le_n _) Hend).
  reflexivity.
Qed.

(** The line of the specification, with the quoted name X. *)
Lemma C6_witness_glued_line :
  parse_line ("PENDINGINQUIRY" ++ " F84E1776FDB1 " ++ quoted "X" ++ " 000000 -50 dBm")
  = parse_line ("INQUIRY" ++ " F84E1776FDB1 " ++ quoted "X" ++ " 000000 -50 dBm").
Proof.
  exact (C6_glued_pending_prefix_is_stripped
           EmptyString (" F84E1776FDB1 " ++ quoted "X" ++ " 000000 -50 dBm")
           eq_refl).
Defined.

(** C6 (as stated) fails: when PENDING is glued twice only one is
    stripped, and the line gives no device, while the same line with
    one or with both PENDING removed gives the device. *)
Lemma C6_counterexample_double_pending :
  contains "PENDINGINQUIRY" "PENDINGPENDINGINQUIRY AABBCCDDEEFF" = true
  /\ parse_line "PENDINGPENDINGINQUIRY AABBCCDDEEFF" = Return []
  /\ parse_line "PENDINGINQUIRY AABBCCDDEEFF"
     = Return [mkDevice "AABBCCDDEEFF" "Unknown" None]
  /\ parse_line "INQUIRY AABBCCDDEEFF"
     = Return [mkDevice "AABBCCDDEEFF" "Unknown" None].
Proof. repeat split. Qed.

End PrefixFacts.

(** ** More on the command engine *)

Module EngineFacts.
Import PyStr Serial ATSBT Spec PyStrFacts ATSBTFacts A2DPFacts.

(** *** What a polling loop reads does not depend on what was written *)

Lemma read_stripped_line_written (o : bool) (buf w w' : list byte) :
  fst (read_stripped_line (mkPort o buf w))
  = fst (read_stripped_line (mkPort o buf w'))
  /\ in_buffer (snd (read_stripped_line (mkPort o buf w)))
     = in_buffer (snd (read_stripped_line (mkPort o buf w'))).
Proof.
  unfold read_stripped_line, readline. simpl.
  destruct (split_line buf); simpl. auto.
Qed.

Lemma arriving_lines_written (polls : list poll) (o o' : bool)
      (buf w w' : list byte) :
  arriving_lines polls (mkPort o buf w) = arriving_lines polls (mkPort o' buf w').
Proof.
  revert buf. induction polls as [|q polls IH]; intros buf; [reflexivity|].
  cbn [arriving_lines]. unfold deliver, in_waiting. cbn [in_buffer is_open written].
  destruct (0 <? List.length (buf ++ incoming q)); [|apply IH].
  destruct (read_fails q); [reflexivity|].
  unfold read_stripped_line, readline. cbn [in_buffer is_open written].
  destruct (split_line (buf ++ incoming q)) as [raw rest].
  f_equal. apply IH.
Qed.

(** X1: the response of [send_command] depends on the command and on
    what arrives after it was sent only: bytes still buffered from
    before, what was written earlier and the cached address play no
    part. *)
Theorem X1_response_ignores_stale_input
        (m m' : option string) (stale stale' w w' : list byte)
        (command : string) (polls : list poll) :
  fst (send_command (mkATSBT (Some (mkPort true stale w)) m) command polls)
  = fst (send_command (mkATSBT (Some (mkPort true stale' w')) m') command polls).
Proof.
  destruct (encode_ascii (with_CR command)) as [data|] eqn:He.
  - rewrite (send_command_run (mkATSBT (Some (mkPort true stale w)) m)
               (mkPort true stale w) command data polls
               eq_refl eq_refl He).
    rewrite (send_command_run (mkATSBT (Some (mkPort true stale' w')) m')
               (mkPort true stale' w') command data polls
               eq_refl eq_refl He).
    unfold write, reset_input_buffer. cbn [in_buffer is_open written].
    rewrite (arriving_lines_written polls true true [] (w ++ data) (w' ++ data)).
    reflexivity.
  - unfold send_command, is_connected. cbn [serial is_open negb].
    rewrite He. reflexivity.
Qed.

(** *** After [disconnect] *)

(** X2: once the session is disconnected every command is refused with
    [RuntimeError] and the session is left as it is; a second
    [disconnect] changes nothing and the cached address is kept. *)
Theorem X2_disconnected_session_refuses_commands
        (bt : ATSBT.t) (command : string) (polls : list poll) :
  is_connected (disconnect bt) = false
  /\ send_command (disconnect bt) command polls
     = (Raise RuntimeError, disconnect bt)
  /\ disconnect (disconnect bt) = disconnect bt
  /\ cached_mac (disconnect bt) = cached_mac bt.
Proof. repeat split. Qed.

(** *** The bytes of a command *)

Lemma to_bytes_app (a b : string) : to_bytes (a ++ b) = to_bytes a ++ to_bytes b.
Proof.
  unfold to_bytes. induction a as [|c a IH]; simpl; [reflexivity|].
  f_equal. exact IH.
Qed.

(** X3: on an open transport an ASCII command is written once,
    followed by one carriage return, unless it already ends with one,
    in which case it is written as it is. *)
Theorem X3_command_written_with_one_carriage_return
        (bt : ATSBT.t) (p : port) (command : string) (polls : list poll) :
  serial bt = Some p -> is_open p = true -> is_ascii command = true ->
  exists resp p',
    send_command bt command polls = (Return resp, with_serial bt p')
    /\ written p'
       = written p ++ to_bytes command
         ++ (if endswith command (String CR EmptyString) then [] else [x0d]).
Proof.
  intros Hs Ho Ha.
  destruct (send_command_ok bt p command polls Hs Ho Ha)
    as [resp [p' [Hsend [_ Hw]]]].
  exists resp, p'. split; [exact Hsend|].
  rewrite Hw. unfold with_CR.
  destruct (endswith command (String CR EmptyString)).
  - rewrite app_nil_r. reflexivity.
  - rewrite to_bytes_app. reflexivity.
Qed.

Lemma X3_witness_status_command :
  exists resp p',
    send_command bt0 "STATUS" [recv "OK"] = (Return resp, with_serial bt0 p')
    /\ written p' = to_bytes "STATUS" ++ [x0d].
Proof.
  exact (X3_command_written_with_one_carriage_return
           bt0 open_port "STATUS" [recv "OK"] eq_refl eq_refl eq_refl).
Defined.

(** *** The lines of a response *)

Lemma lstrip_fixed (s : string) : lstrip (lstrip s) = lstrip s.
Proof.
  induction s as [|c s IH]; simpl; [reflexivity|].
  destruct (isspace c) eqn:Hc; [exact IH|]. simpl. rewrite Hc. reflexivity.
Qed.

Lemma rstrip_cons (c : ascii) (s : string) :
  rstrip (String c s)
  = match rstrip s with
    | EmptyString => if isspace c then EmptyString else String c EmptyString
    | r => String c r
    end.
Proof. reflexivity. Qed.

Lemma rstrip_fixed (s : string) : rstrip (rstrip s) = rstrip s.
Proof.
  induction s as [|c s IH]; [reflexivity|].
  rewrite rstrip_cons. destruct (rstrip s) as [|b r] eqn:Hr.
  - destruct (isspace c) eqn:Hc; [reflexivity|].
    rewrite rstrip_cons. cbn [rstrip]. rewrite Hc. reflexivity.
  - rewrite rstrip_cons, IH. reflexivity.
Qed.

Lemma rstrip_tail (c : ascii) (s : string) :
  rstrip (String c s) = String c s -> rstrip s = s.
Proof.
  rewrite rstrip_cons. destruct (rstrip s) as [|b r] eqn:Hr.
  - destruct (isspace c); [discriminate|]. intros [= <-]. reflexivity.
  - intros [= <-]. reflexivity.
Qed.

Lemma rstrip_lstrip (s : string) :
  rstrip s = s -> rstrip (lstrip s) = lstrip s.
Proof.
  induction s as [|c s IH]; intros H; [reflexivity|].
  cbn [lstrip]. destruct (isspace c); [|exact H].
  apply IH, (rstrip_tail c), H.
Qed.

Lemma strip_fixed (s : string) : strip (strip s) = strip s.
Proof.
  unfold strip.
  rewrite (rstrip_lstrip (rstrip s) (rstrip_fixed s)).
  apply lstrip_fixed.
Qed.

Lemma code_ascii_of_byte (x : byte) : code (ascii_of_byte x) = Byte.to_nat x.
Proof.
  unfold code. rewrite ascii_of_byte_via_nat.
  apply nat_ascii_embedding.
  pose proof (Byte.to_nat_bounded x). lia.
Qed.

Lemma is_ascii_decode (raw : list byte) :
  is_ascii (decode_ascii_ignore raw) = true.
Proof.
  induction raw as [|x raw IH]; [reflexivity|].
  cbn [decode_ascii_ignore].
  destruct (Byte.to_nat x <? 128) eqn:Hx; [|exact IH].
  unfold is_ascii. cbn [forall_chars].
  rewrite code_ascii_of_byte, Hx. exact IH.
Qed.

Lemma read_stripped_line_clean (p : port) :
  strip (fst (read_stripped_line p)) = fst (read_stripped_line p)
  /\ is_ascii (fst (read_stripped_line p)) = true.
Proof.
  unfold read_stripped_line, readline.
  destruct (split_line (in_buffer p)) as [raw rest]. cbn [fst].
  split; [apply strip_fixed|].
  apply forall_chars_strip, is_ascii_decode.
Qed.

Lemma arriving_lines_clean (polls : list poll) (p : port) :
  Forall (fun l => strip l = l /\ is_ascii l = true) (arriving_lines polls p).
Proof.
  revert p. induction polls as [|q polls IH]; intros p; simpl; [constructor|].
  destruct (0 <? in_waiting (deliver q p)); [|apply IH].
  destruct (read_fails q); [constructor|].
  pose proof (read_stripped_line_clean (deliver q p)) as Hline.
  destruct (read_stripped_line (deliver q p)) as [line p'].
  constructor; [exact Hline | apply IH].
Qed.

(** The lines [send_command] has joined, read back from its response. *)
Lemma response_lines (bt bt' : ATSBT.t) (command resp : string)
      (polls : list poll) :
  send_command bt command polls = (Return resp, bt') ->
  resp = EmptyString
  \/ Forall (fun l => nonempty l = true /\ strip l = l /\ is_ascii l = true
                      /\ no_LF l = true)
            (split_on LF resp).
Proof.
  intros Hsend.
  destruct (send_command_returns _ _ _ _ _ Hsend) as [p [data [Hs [Ho He]]]].
  pose proof (send_command_run bt p command data polls Hs Ho He) as Hrun.
  rewrite Hsend in Hrun. cbn [fst] in Hrun. injection Hrun as Hresp.
  set (p0 := write data (reset_input_buffer p)) in *.
  assert (Hkept : Forall (fun l => nonempty l = true /\ strip l = l
                                   /\ is_ascii l = true /\ no_LF l = true)
                         (upto_terminal (filter nonempty (arriving_lines polls p0)))).
  { apply Forall_forall. intros l Hl.
    apply upto_terminal_incl, filter_In in Hl. destruct Hl as [Hin Hne].
    pose proof (arriving_lines_clean polls p0) as Hclean.
    pose proof (arriving_lines_no_LF polls p0) as Hno.
    rewrite Forall_forall in Hclean, Hno.
    destruct (Hclean l Hin). auto. }
  destruct (upto_terminal (filter nonempty (arriving_lines polls p0)))
    as [|k kept] eqn:Hk.
  - left. subst resp. reflexivity.
  - right. subst resp. rewrite split_on_join; [exact Hkept | discriminate |].
    eapply Forall_impl; [|exact Hkept]. intros l H. apply H.
Qed.

(** X4: in a response of [send_command] that is not empty, every line
    is non-empty, carries no white space at either end and holds ASCII
    characters only. *)
Theorem X4_response_lines_are_stripped_ascii
        (bt bt' : ATSBT.t) (command resp : string) (polls : list poll) :
  send_command bt command polls = (Return resp, bt') ->
  resp <> EmptyString ->
  Forall (fun l => nonempty l = true /\ strip l = l /\ is_ascii l = true)
         (split_on LF resp).
Proof.
  intros Hsend Hne.
  destruct (response_lines _ _ _ _ _ Hsend) as [Hempty|Hall]; [contradiction|].
  eapply Forall_impl; [|exact Hall].
  intros l [H1 [H2 [H3 _]]]. auto.
Qed.

Lemma X4_witness_padded_lines :
  Forall (fun l => nonempty l = true /\ strip l = l /\ is_ascii l = true)
         (split_on LF (join (String LF EmptyString) ["NAME=ATS"; "OK"])).
Proof.
  refine (X4_response_lines_are_stripped_ascii
            bt0 _ "GET NAME" _
            [mkPoll (to_bytes "  NAME=ATS " ++ [x0d; x0a]) false; quiet;
             mkPoll (x0a :: xe9 :: to_bytes "OK" ++ [x0a]) false; quiet]
            eq_refl _).
  discriminate.
Defined.

End EngineFacts.

(** ** Device information: [get_status], [get_name], [get_mac_address] *)

Module InfoFacts.
Import PyStr Serial ATSBT Spec PyStrFacts ATSBTFacts A2DPFacts ReFacts.
Import ScanFacts PrefixFacts EngineFacts.

Lemma rstrip_all_space (ws : string) :
  forall_chars isspace ws = true -> rstrip ws = EmptyString.
Proof.
  induction ws as [|c ws IH]; [reflexivity|].
  cbn [forall_chars]. intros H. apply andb_true_iff in H. destruct H as [Hc Hws].
  rewrite rstrip_cons, (IH Hws), Hc. reflexivity.
Qed.

Lemma rstrip_app_spaces (body ws : string) :
  forall_chars isspace ws = true -> rstrip (body ++ ws) = rstrip body.
Proof.
  intros Hws. induction body as [|c body IH].
  - apply rstrip_all_space, Hws.
  - change (String c body ++ ws)%string with (String c (body ++ ws)).
    rewrite !rstrip_cons, IH. reflexivity.
Qed.

Lemma chop2_ok (x : string) : chop2 (x ++ "OK") = x.
Proof.
  unfold chop2. change 2 with (length "OK"). apply take_consumed.
Qed.

Lemma endswith_self (s : string) : endswith s s = true.
Proof. destruct s; cbn [endswith]; rewrite String.eqb_refl; reflexivity. Qed.

Lemma endswith_app_ok (x : string) : endswith (x ++ "OK") "OK" = true.
Proof. apply endswith_app_r, endswith_self. Qed.

(** X5: [get_status] returns the response of STATUS as it is unless it
    ends with OK; then the OK and the white space before it, line
    feeds included, are taken off. *)
Theorem X5_get_status_drops_trailing_ok
        (bt b : ATSBT.t) (polls : list poll) (response : string) :
  send_command bt "STATUS" polls = (Return response, b) ->
  (endswith response "OK" = false ->
   get_status bt polls = (Return response, b))
  /\ (forall body ws,
         response = (body ++ ws ++ "OK")%string ->
         forall_chars isspace ws = true -> rstrip body = body ->
         get_status bt polls = (Return body, b)).
Proof.
  intros Hsend. unfold get_status. rewrite Hsend. split.
  - intros Hend. rewrite Hend. reflexivity.
  - intros body ws -> Hws Hbody.
    rewrite <- str_app_assoc, endswith_app_ok, chop2_ok.
    rewrite (rstrip_app_spaces body ws Hws), Hbody. reflexivity.
Qed.

Lemma X5_witness_state_then_ok :
  get_status bt0 [recv "STATE=CONNECTED"; recv "OK"]
  = (Return "STATE=CONNECTED",
     snd (send_command bt0 "STATUS" [recv "STATE=CONNECTED"; recv "OK"])).
Proof.
  exact (proj2 (X5_get_status_drops_trailing_ok
                  bt0 _ [recv "STATE=CONNECTED"; recv "OK"] _ eq_refl)
               "STATE=CONNECTED" (String LF EmptyString)
               eq_refl eq_refl eq_refl).
Defined.

(** *** Lines of the shape key=value *)

Lemma contains_app_mid (sub a b : string) :
  contains sub (a ++ sub ++ b) = true.
Proof.
  induction a as [|c a IH].
  - change (contains sub (sub ++ b) = true).
    apply contains_startswith, startswith_app.
  - change (contains sub (String c (a ++ sub ++ b)) = true).
    cbn [contains]. rewrite IH. apply orb_true_r.
Qed.

Lemma second_piece (key value rest : string) :
  no_eq key = true -> no_eq value = true -> ends_value rest ->
  nth 1 (split_on "=" (key_value_line key value rest)) EmptyString = value.
Proof.
  intros Hkey Hvalue Hrest. unfold key_value_line.
  change (key ++ "=" ++ value ++ rest)%string
    with (key ++ String "=" (value ++ rest))%string.
  rewrite (split_on_app_sep "=" key _ Hkey). cbn [nth].
  destruct Hrest as [-> | Hst].
  - rewrite str_app_empty_r, (split_on_no_sep "=" value Hvalue). reflexivity.
  - destruct rest as [|c rest]; [discriminate|].
    cbn [startswith] in Hst. apply andb_true_iff in Hst. destruct Hst as [Hc _].
    apply Ascii.eqb_eq in Hc. subst c.
    rewrite (split_on_app_sep "=" value _ Hvalue). reflexivity.
Qed.

Lemma forall_chars_take (p : ascii -> bool) (n : nat) (s : string) :
  forall_chars p s = true -> forall_chars p (take n s) = true.
Proof.
  revert s. induction n as [|n IH]; intros s H; [reflexivity|].
  destruct s as [|c s]; [reflexivity|]. cbn [take forall_chars] in *.
  apply andb_true_iff in H. destruct H as [Hc Hs].
  rewrite Hc. apply IH, Hs.
Qed.

Lemma forall_chars_chop_ok (p : ascii -> bool) (s : string) :
  forall_chars p s = true -> forall_chars p (chop_ok s) = true.
Proof.
  intros H. unfold chop_ok, chop2.
  destruct (endswith s "OK"); [apply forall_chars_take, H | exact H].
Qed.

Lemma name_of_lines_found (pre : list string) (key value rest : string)
      (post : list string) :
  Forall (fun l => contains "NAME" l && contains "=" l = false) pre ->
  contains "NAME" (key_value_line key value rest) = true ->
  no_eq key = true -> no_eq value = true -> ends_value rest ->
  name_of_lines (pre ++ key_value_line key value rest :: post)
  = Some (strip (chop_ok (strip value))).
Proof.
  intros Hpre Hname Hkey Hvalue Hrest.
  induction Hpre as [|l pre Hl _ IH].
  - cbn [app name_of_lines]. rewrite Hname.
    unfold key_value_line at 1. rewrite contains_app_mid. cbn [andb].
    rewrite (second_piece key value rest Hkey Hvalue Hrest). reflexivity.
  - cbn [app name_of_lines]. rewrite Hl. exact IH.
Qed.

(** X6: when the first line of the response that holds NAME and an
    equals sign reads key=value, [get_name] returns the value, cut at
    a further equals sign if there is one, without a trailing OK and
    without white space around it. *)
Theorem X6_get_name_returns_the_value
        (bt b : ATSBT.t) (polls : list poll) (response : string)
        (pre : list string) (key value rest : string) (post : list string) :
  send_command bt "GET NAME" polls = (Return response, b) ->
  split_on LF response = pre ++ key_value_line key value rest :: post ->
  Forall (fun l => contains "NAME" l && contains "=" l = false) pre ->
  contains "NAME" (key_value_line key value rest) = true ->
  no_eq key = true -> no_eq value = true -> ends_value rest ->
  let name := strip (chop_ok (strip value)) in
  get_name bt polls = (Return name, b)
  /\ no_eq name = true /\ strip name = name.
Proof.
  intros Hsend Hsplit Hpre Hname Hkey Hvalue Hrest name.
  split; [|split].
  - unfold get_name. rewrite Hsend, Hsplit.
    rewrite (name_of_lines_found pre key value rest post
               Hpre Hname Hkey Hvalue Hrest).
    reflexivity.
  - apply forall_chars_strip, forall_chars_chop_ok, forall_chars_strip, Hvalue.
  - apply strip_fixed.
Qed.

Lemma X6_witness_name_with_ok :
  get_name bt0 [recv "NAME=ATS-BT=v2 OK"]
  = (Return "ATS-BT",
     snd (send_command bt0 "GET NAME" [recv "NAME=ATS-BT=v2 OK"]))
  /\ no_eq "ATS-BT" = true /\ strip "ATS-BT" = "ATS-BT".
Proof.
  exact (X6_get_name_returns_the_value
           bt0 _ [recv "NAME=ATS-BT=v2 OK"] _ [] "NAME" "ATS-BT" "=v2 OK" []
           eq_refl eq_refl (Forall_nil _) eq_refl eq_refl eq_refl
           (or_intror eq_refl)).
Defined.

(** *** [get_mac_address] and its cache *)

Lemma mac_of_lines_found (pre : list string) (key value rest : string)
      (post : list string) :
  Forall (fun l => contains "LOCAL_ADDR" l = false) pre ->
  contains "LOCAL_ADDR" (key_value_line key value rest) = true ->
  no_eq key = true -> no_eq value = true -> ends_value rest ->
  mac_of_lines (pre ++ key_value_line key value rest :: post)
  = Some (strip (chop_ok (strip value))).
Proof.
  intros Hpre Hname Hkey Hvalue Hrest.
  induction Hpre as [|l pre Hl _ IH].
  - cbn [app mac_of_lines]. rewrite Hname.
    unfold key_value_line at 1. rewrite contains_app_mid. cbn [andb].
    rewrite (second_piece key value rest Hkey Hvalue Hrest). reflexivity.
  - cbn [app mac_of_lines]. rewrite Hl. cbn [andb]. exact IH.
Qed.

Lemma get_mac_address_asks (bt : ATSBT.t) (polls : list poll) :
  mac_not_cached bt ->
  get_mac_address bt polls
  = match send_command bt "GET LOCAL_ADDR" polls with
    | (Raise e, b) => (Raise e, b)
    | (Return response, b) =>
        match mac_of_lines (split_on LF response) with
        | Some value => (Return value, set_cached_mac b value)
        | None => (Return response, b)
        end
    end.
Proof.
  intros [H|H]; unfold get_mac_address; rewrite H; reflexivity.
Qed.

Lemma get_mac_address_cached (bt : ATSBT.t) (mac : string) (polls : list poll) :
  cached_mac bt = Some mac -> nonempty mac = true ->
  get_mac_address bt polls = (Return mac, bt).
Proof.
  intros Hc Hne. unfold get_mac_address. rewrite Hc, Hne. reflexivity.
Qed.

(** X7: with nothing cached, when the first line of the response that
    holds LOCAL_ADDR reads key=value, [get_mac_address] returns the
    value without trailing OK and surrounding white space and caches
    it; if it is not empty every later call returns it without asking
    the device, also after [disconnect]. *)
Theorem X7_get_mac_address_parses_and_caches
        (bt b : ATSBT.t) (polls : list poll) (response : string)
        (pre : list string) (key value rest : string) (post : list string) :
  mac_not_cached bt ->
  send_command bt "GET LOCAL_ADDR" polls = (Return response, b) ->
  split_on LF response = pre ++ key_value_line key value rest :: post ->
  Forall (fun l => contains "LOCAL_ADDR" l = false) pre ->
  contains "LOCAL_ADDR" (key_value_line key value rest) = true ->
  no_eq key = true -> no_eq value = true -> ends_value rest ->
  let mac := strip (chop_ok (strip value)) in
  get_mac_address bt polls = (Return mac, set_cached_mac b mac)
  /\ (nonempty mac = true ->
      forall polls',
        get_mac_address (set_cached_mac b mac) polls'
        = (Return mac, set_cached_mac b mac)
        /\ get_mac_address (disconnect (set_cached_mac b mac)) polls'
           = (Return mac, disconnect (set_cached_mac b mac))).
Proof.
  intros Hcache Hsend Hsplit Hpre Hname Hkey Hvalue Hrest mac.
  split.
  - rewrite (get_mac_address_asks bt polls Hcache), Hsend, Hsplit.
    rewrite (mac_of_lines_found pre key value rest post
               Hpre Hname Hkey Hvalue Hrest).
    reflexivity.
  - intros Hne polls'. split; apply get_mac_address_cached; auto.
Qed.

Lemma X7_witness_local_addr :
  get_mac_address bt0 [recv "LOCAL_ADDR=00:1A:2B:3C:4D:5E"; recv "OK"]
  = (Return "00:1A:2B:3C:4D:5E",
     set_cached_mac
       (snd (send_command bt0 "GET LOCAL_ADDR"
               [recv "LOCAL_ADDR=00:1A:2B:3C:4D:5E"; recv "OK"]))
       "00:1A:2B:3C:4D:5E").
Proof.
  exact (proj1 (X7_get_mac_address_parses_and_caches
                  bt0 _ [recv "LOCAL_ADDR=00:1A:2B:3C:4D:5E"; recv "OK"] _
                  [] "LOCAL_ADDR" "00:1A:2B:3C:4D:5E" EmptyString ["OK"]
                  (or_introl eq_refl) eq_refl eq_refl (Forall_nil _)
                  eq_refl eq_refl eq_refl (or_introl eq_refl))).
Defined.

Lemma mac_of_lines_absent (lines : list string) :
  Forall (fun l => contains "LOCAL_ADDR" l = false) lines ->
  mac_of_lines lines = None.
Proof.
  induction 1 as [|l lines Hl _ IH]; [reflexivity|].
  cbn [mac_of_lines]. rewrite Hl. exact IH.
Qed.

Lemma send_command_keeps_cache (bt b : ATSBT.t) (command : string)
      (polls : list poll) (r : outcome string) :
  send_command bt command polls = (r, b) -> cached_mac b = cached_mac bt.
Proof.
  unfold send_command.
  destruct (negb (is_connected bt)); [intros [= _ <-]; reflexivity|].
  destruct (serial bt) as [p|]; [|intros [= _ <-]; reflexivity].
  destruct (encode_ascii (with_CR command)); [|intros [= _ <-]; reflexivity].
  destruct (read_response polls _ []). intros [= _ <-]. reflexivity.
Qed.

(** X8: with nothing cached, when no line of the response holds
    LOCAL_ADDR (an error reply, or no reply at all before the
    deadline), [get_mac_address] returns the raw response, which may
    be empty, and caches nothing. *)
Theorem X8_get_mac_address_without_answer
        (bt b : ATSBT.t) (polls : list poll) (response : string) :
  mac_not_cached bt ->
  send_command bt "GET LOCAL_ADDR" polls = (Return response, b) ->
  Forall (fun l => contains "LOCAL_ADDR" l = false) (split_on LF response) ->
  get_mac_address bt polls = (Return response, b)
  /\ cached_mac b = cached_mac bt.
Proof.
  intros Hcache Hsend Hnone. split.
  - rewrite (get_mac_address_asks bt polls Hcache), Hsend.
    rewrite (mac_of_lines_absent _ Hnone). reflexivity.
  - exact (send_command_keeps_cache _ _ _ _ _ Hsend).
Qed.

Lemma X8_witness_silent_device :
  get_mac_address bt0 [quiet; quiet]
  = (Return EmptyString, snd (send_command bt0 "GET LOCAL_ADDR" [quiet; quiet]))
  /\ cached_mac (snd (send_command bt0 "GET LOCAL_ADDR" [quiet; quiet])) = None.
Proof.
  refine (X8_get_mac_address_without_answer
            bt0 _ [quiet; quiet] EmptyString (or_introl eq_refl) eq_refl _).
  repeat constructor.
Defined.

(** *** [is_paired] *)

Lemma upper_app (a b : string) : upper (a ++ b) = (upper a ++ upper b)%string.
Proof. induction a as [|c a IH]; simpl; [reflexivity | f_equal; exact IH]. Qed.

(** X9: [is_paired] answers true as soon as the status holds the
    letters of PAIRED, in any letter case and whatever stands around
    them, so also for a status that reads UNPAIRED or NOT PAIRED. *)
Theorem X9_is_paired_matches_any_occurrence
        (bt b : ATSBT.t) (polls : list poll) (status before word after : string) :
  get_status bt polls = (Return status, b) ->
  status = (before ++ word ++ after)%string ->
  upper word = "PAIRED" ->
  is_paired bt polls = (Return true, b).
Proof.
  intros Hstatus -> Hword. unfold is_paired. rewrite Hstatus.
  rewrite !upper_app, Hword, contains_app_mid, orb_true_r. reflexivity.
Qed.

Lemma X9_witness_unpaired :
  is_paired bt0 [recv "State: Unpaired OK"]
  = (Return true, snd (get_status bt0 [recv "State: Unpaired OK"])).
Proof.
  exact (X9_is_paired_matches_any_occurrence
           bt0 _ [recv "State: Unpaired OK"] _ "State: Un" "paired" EmptyString
           eq_refl eq_refl eq_refl).
Defined.

End InfoFacts.

(** ** More on the scan *)

Module ScanMoreFacts.
Import PyStr Serial Spec PyStrFacts ATSBTFacts A2DPFacts Re ReFacts.
Import ScanFacts PrefixFacts EngineFacts.
Import ATSBT A2DP.

(** *** What the structured pattern captures *)

Lemma inquiry_re_groups (start rest : string) (m : captures) :
  matches inquiry_re start [] rest m ->
  exists g1 g2 g3 sgn digs,
    m = [(4, (sgn ++ digs)%string); (3, g3); (2, g2); (1, g1)] /\
    length g1 = 12 /\ forall_chars ishex g1 = true /\
    1 <= length g2 /\ forall_chars notquote g2 = true /\
    forall_chars (Ascii.eqb "-") sgn = true /\ length sgn <= 1 /\
    forall_chars isdigit digs = true /\ 1 <= length digs /\
    length digs <= length start.
Proof.
  unfold inquiry_re, plus, exactly, opt. cbn [matches]. intros H.
  repeat match type of H with
         | exists _, _ => destruct H as [? H]
         | _ /\ _ => let H1 := fresh "Hm" in destruct H as [H1 H]
         end.
  repeat match goal with
         | Hx : exists _, _ |- _ => destruct Hx as [? Hx]
         | Hx : _ /\ _ |- _ => destruct Hx
         end.
  subst.
  match goal with
  | |- context [take (length (?sgn ++ ?digs ++ rest) - length rest) _] =>
      rewrite <- (str_app_assoc sgn digs rest)
  end.
  rewrite !take_consumed.
  do 5 eexists. split; [reflexivity|].
  cbn [fits] in *.
  repeat split; try solve [assumption | lia].
  rewrite !str_length_app. lia.
Qed.

Lemma parse_line_well_formed (line : string) (found : list device) :
  parse_line line = Return found ->
  List.length found <= 1 /\ Forall well_formed_device found.
Proof.
  unfold parse_line.
  destruct (is_candidate (normalize line)).
  2:{ intros [= <-]. split; [simpl; lia | constructor]. }
  destruct (search inquiry_re (normalize line)) as [m|] eqn:Hsearch.
  - destruct (search_sound _ _ _ Hsearch) as [start [rest Hm]].
    destruct (inquiry_re_groups _ _ _ Hm)
      as [g1 [g2 [g3 [sgn [digs [-> [Hlen [Hhex [Hname [Hq _]]]]]]]]]].
    cbn [group Nat.eqb].
    destruct (int_of_str (sgn ++ digs)) as [n|]; [|discriminate].
    intros [= <-]. split; [simpl; lia|].
    constructor; [|constructor].
    split; [split; assumption|]. right. cbn [name rssi].
    split; [destruct g2; [simpl in Hname; lia | reflexivity]|].
    split; [assumption | eauto].
  - rewrite fallback_parse_token_after.
    destruct (token_after "INQUIRY" (split_ws (normalize line))) as [a|].
    2:{ intros [= <-]. split; [simpl; lia | constructor]. }
    destruct (is_address a) eqn:Ha.
    2:{ intros [= <-]. split; [simpl; lia | constructor]. }
    intros [= <-]. split; [simpl; lia|].
    constructor; [|constructor].
    split; [apply is_address_hex12, Ha|]. left. split; reflexivity.
Qed.

(** *** Lines the parser cannot fail on *)

Lemma replace_fuel_shorter (fuel : nat) (old new s : string) :
  length new <= length old ->
  length (replace_fuel fuel old new s) <= length s.
Proof.
  intros Hle. revert s.
  induction fuel as [|fuel IH]; intros s; cbn [replace_fuel]; [lia|].
  destruct (startswith s old) eqn:Hst.
  - rewrite str_length_app.
    pose proof (IH (drop (length old) s)) as Hrec.
    pose proof (f_equal length (startswith_split s old Hst)) as Hs.
    rewrite str_length_app in Hs. lia.
  - destruct s as [|c s]; [simpl; lia|].
    cbn [length]. pose proof (IH s). lia.
Qed.

Lemma normalize_shorter (line : string) :
  length (normalize line) <= length line.
Proof.
  unfold normalize. destruct (contains "PENDINGINQUIRY" line); [|lia].
  unfold replace. apply replace_fuel_shorter. simpl. lia.
Qed.

Lemma int_of_str_signed_run (sgn digs : string) :
  forall_chars (Ascii.eqb "-") sgn = true -> length sgn <= 1 ->
  forall_chars isdigit digs = true -> 1 <= length digs ->
  length digs <= max_str_digits ->
  exists n, int_of_str (sgn ++ digs) = Some n.
Proof.
  intros Hsgn Hlen Hdigs Hne Hmax.
  assert (Hnonempty : nonempty digs = true).
  { destruct digs; [simpl in Hne; lia | reflexivity]. }
  apply Nat.leb_le in Hmax.
  destruct sgn as [|c [|c' sgn]]; [| |simpl in Hlen; lia].
  - exists (signed_value false digs).
    pose proof (int_of_str_signed false digs Hnonempty Hdigs) as H.
    rewrite Hmax in H. exact H.
  - cbn [forall_chars] in Hsgn. rewrite andb_true_r in Hsgn.
    apply Ascii.eqb_eq in Hsgn. subst c.
    exists (signed_value true digs).
    pose proof (int_of_str_signed true digs Hnonempty Hdigs) as H.
    rewrite Hmax in H. exact H.
Qed.

(** A line of at most [max_str_digits] characters is parsed or
    skipped: the conversion of its signal strength cannot fail. *)
Lemma parse_line_returns (line : string) :
  length line <= max_str_digits ->
  exists devices, parse_line line = Return devices.
Proof.
  intros Hshort. pose proof (normalize_shorter line) as Hnorm.
  unfold parse_line.
  destruct (is_candidate (normalize line)); [|eauto].
  destruct (search inquiry_re (normalize line)) as [m|] eqn:Hsearch; [|eauto].
  destruct (search_sound_within _ _ _ Hsearch) as [start [rest [Hm Hstart]]].
  destruct (inquiry_re_groups _ _ _ Hm)
    as [g1 [g2 [g3 [sgn [digs [-> [_ [_ [_ [_ [Hsgn [Hsl [Hd [Hdl Hin]]]]]]]]]]]]]].
  cbn [group Nat.eqb].
  destruct (int_of_str_signed_run sgn digs Hsgn Hsl Hd Hdl) as [n ->];
    [lia | eauto].
Qed.

Lemma parse_devices_steps (lines : list string) (acc : list device) :
  Forall (fun line => length line <= max_str_digits) lines ->
  exists found,
    Forall2 (fun line ds => parse_line line = Return ds) lines found
    /\ parse_devices lines acc = Return (acc ++ List.concat found).
Proof.
  intros Hshort. revert acc.
  induction Hshort as [|line lines Hline _ IH]; intros acc.
  - exists []. split; [constructor|]. simpl. rewrite app_nil_r. reflexivity.
  - destruct (parse_line_returns line Hline) as [ds Hds].
    destruct (IH (acc ++ ds)) as [found [Hall Hrun]].
    exists (ds :: found). split; [constructor; assumption|].
    cbn [parse_devices List.concat]. rewrite Hds, Hrun, <- app_assoc. reflexivity.
Qed.

(** X10: when no collected line is longer than the [max_str_digits]
    characters [int] converts, the devices of a scan are those of its
    lines, put one after the other in the order of the lines; every
    line gives one device or none, no line makes the parser fail, and
    nothing is merged: a line seen twice gives its device twice. *)
Theorem X10_devices_are_collected_line_by_line (lines : list string) :
  Forall (fun line => length line <= max_str_digits) lines ->
  exists found,
    Forall2 (fun line ds => parse_line line = Return ds
                            /\ List.length ds <= 1) lines found
    /\ parse_devices lines [] = Return (List.concat found).
Proof.
  intros Hshort.
  destruct (parse_devices_steps lines [] Hshort) as [found [Hall Hrun]].
  exists found. split; [|exact Hrun].
  clear Hrun Hshort. induction Hall as [|line ds lines found Hds _ IH];
    constructor; [|exact IH].
  split; [exact Hds | apply (parse_line_well_formed line ds Hds)].
Qed.

(** A structured line, then an unquoted line seen twice. *)
Lemma X10_witness_line_seen_twice :
  exists found,
    Forall2 (fun line ds => parse_line line = Return ds
                            /\ List.length ds <= 1)
            [inquiry_line "F84E1776FDB1" "LinkBuds S" "240404" true "61" "dBm";
             "INQUIRY AABBCCDDEEFF"; "INQUIRY AABBCCDDEEFF"] found
    /\ parse_devices
         [inquiry_line "F84E1776FDB1" "LinkBuds S" "240404" true "61" "dBm";
          "INQUIRY AABBCCDDEEFF"; "INQUIRY AABBCCDDEEFF"] []
       = Return (List.concat found).
Proof.
  apply X10_devices_are_collected_line_by_line.
  repeat constructor; apply Nat.leb_le; reflexivity.
Defined.

Lemma parse_devices_well_formed (lines : list string) (acc out : list device) :
  parse_devices lines acc = Return out ->
  Forall well_formed_device acc -> Forall well_formed_device out.
Proof.
  revert acc. induction lines as [|line lines IH]; intros acc; cbn [parse_devices].
  - intros [= <-] H. exact H.
  - destruct (parse_line line) as [ds|e] eqn:Hds; [|discriminate].
    intros Hrun Hacc. apply (IH _ Hrun).
    apply Forall_app. split; [exact Hacc|].
    apply (parse_line_well_formed line ds Hds).
Qed.

(** X11: every device [scan_for_devices] returns has an address of
    exactly twelve hexadecimal characters, and either the name Unknown
    with no signal strength or a non-empty name without double quote
    together with a signal strength. *)
Theorem X11_scanned_devices_are_well_formed
        (c c' : A2DP.t) (duration : Z) (polls : list poll)
        (devices : list device) :
  scan_for_devices c duration polls = (Return devices, c') ->
  Forall well_formed_device devices.
Proof.
  unfold scan_for_devices.
  destruct (raw_port c) as [p|e]; [|discriminate].
  destruct (encode_ascii _) as [data|]; [|discriminate].
  destruct (scan_collect polls _ []) as [[lines|e] p']; [|discriminate].
  intros [= Hrun _].
  apply (parse_devices_well_formed lines [] devices Hrun). constructor.
Qed.

Lemma X11_witness_scan :
  Forall well_formed_device
         [mkDevice "F84E1776FDB1" "LinkBuds S" (Some (-61)%Z);
          mkDevice "AABBCCDDEEFF" "Unknown" None].
Proof.
  exact (X11_scanned_devices_are_well_formed
           conn0 _ 5
           [recv "INQU_OK"; quiet;
            recv (inquiry_line "F84E1776FDB1" "LinkBuds S" "240404" true "61" "dBm");
            recv "PENDINGINQUIRY AABBCCDDEEFF"; quiet;
            recv "INQUIRY_COMPLETE"]
           _ eq_refl).
Defined.

(** *** A scan starts from an empty input buffer *)

Lemma scan_collect_written (polls : list poll) (buf w w' : list byte)
      (acc : list string) :
  fst (scan_collect polls (mkPort true buf w) acc)
  = fst (scan_collect polls (mkPort true buf w') acc).
Proof.
  revert buf acc. induction polls as [|q polls IH]; intros buf acc; [reflexivity|].
  cbn [scan_collect]. unfold deliver, in_waiting. cbn [in_buffer is_open written].
  destruct (0 <? List.length (buf ++ incoming q)); [|apply IH].
  destruct (read_fails q); [reflexivity|].
  unfold read_stripped_line, readline. cbn [in_buffer is_open written].
  destruct (split_line (buf ++ incoming q)) as [raw rest].
  destruct (nonempty (strip (decode_ascii_ignore raw))); apply IH.
Qed.

(** X12: what [scan_for_devices] returns on an open transport depends
    on the duration and on what arrives after the scan command only:
    bytes still buffered from before the scan give no device, and
    earlier traffic, the paired address and the tracked links play no
    part. *)
Theorem X12_scan_ignores_stale_input
        (m m' pa pa' a a' v v' : option string) (stale stale' w w' : list byte)
        (duration : Z) (polls : list poll) :
  fst (scan_for_devices
         (mkConn (mkATSBT (Some (mkPort true stale w)) m) pa a v) duration polls)
  = fst (scan_for_devices
           (mkConn (mkATSBT (Some (mkPort true stale' w')) m') pa' a' v')
           duration polls).
Proof.
  unfold scan_for_devices, raw_port. cbn [bt serial is_open].
  destruct (encode_ascii _) as [data|]; [|reflexivity].
  unfold write, reset_input_buffer. cbn [in_buffer is_open written].
  pose proof (scan_collect_written polls [] (w ++ data) (w' ++ data) []) as H.
  destruct (scan_collect polls (mkPort true [] (w ++ data)) []) as [[l1|e1] p1];
    destruct (scan_collect polls (mkPort true [] (w' ++ data)) []) as [[l2|e2] p2];
    cbn [fst] in H; try discriminate; injection H as ->; reflexivity.
Qed.

(** *** A session that was disconnected *)

(** X13: after [ATSBT.disconnect] the raw accesses of
    [scan_for_devices] and of the profile opening meet a missing port
    and raise [AttributeError], while [pair_device] is refused with
    [RuntimeError]; none of them changes the connection. *)
Theorem X13_workflow_on_disconnected_session
        (c : A2DP.t) (duration : Z) (addr : string)
        (polls : list poll) (grace : poll) :
  let c' := with_bt c (ATSBT.disconnect (bt c)) in
  scan_for_devices c' duration polls = (Raise AttributeError, c')
  /\ (nonempty addr = true ->
      open_a2dp c' (Some addr) polls grace = (Raise AttributeError, c')
      /\ open_avrcp c' (Some addr) polls grace = (Raise AttributeError, c'))
  /\ pair_device c' addr polls = (Raise RuntimeError, c').
Proof.
  destruct c as [b pa a v]. cbn zeta. split; [reflexivity|]. split.
  - intros Hne. unfold open_a2dp, open_avrcp, or_else, truthy.
    rewrite Hne. cbn [nonempty]. rewrite Hne. split; reflexivity.
  - reflexivity.
Qed.

Lemma X13_witness_after_disconnect :
  open_a2dp (with_bt conn0 (ATSBT.disconnect (bt conn0)))
            (Some "F84E1776FDB1") [recv "OPEN_OK 10"] quiet
  = (Raise AttributeError, with_bt conn0 (ATSBT.disconnect (bt conn0))).
Proof.
  exact (proj1 (proj1 (proj2 (X13_workflow_on_disconnected_session
                         conn0 5 "F84E1776FDB1" [recv "OPEN_OK 10"] quiet))
                 eq_refl)).
Defined.

End ScanMoreFacts.

(** ** More on the profile opening *)

Module OpenFacts.
Import PyStr Serial Spec PyStrFacts ATSBTFacts A2DPFacts Re ReFacts.
Import ScanFacts PrefixFacts EngineFacts InfoFacts.
Import ATSBT A2DP.

(** *** The link id of a success line *)

Lemma open_ok_re_matches (skipped digits rest : string) :
  forall_chars notdigit skipped = true ->
  nonempty digits = true -> forall_chars isdigit digits = true ->
  head_not isdigit rest ->
  match_here open_ok_re ("OPEN_OK" ++ skipped ++ digits ++ rest)
  = Some [(1, digits)].
Proof.
  intros Hskip Hne Hdig Hrest. unfold match_here, open_ok_re.
  rewrite rmatch_cat. apply rmatch_lit. cbv beta.
  rewrite rmatch_cat. unfold star.
  apply rmatch_rep;
    [exact Hskip
    | apply (head_not_app notdigit isdigit); auto;
      intros c Hc; unfold notdigit; rewrite Hc; reflexivity
    | lia | exact I | cbv beta].
  unfold plus.
  apply rmatch_group_rep;
    [exact Hdig | exact Hrest | apply nonempty_length, Hne | exact I
    | reflexivity].
Qed.

Lemma startswith_long (a b w : string) :
  length w <= length a -> startswith (a ++ b) w = startswith a w.
Proof.
  revert a. induction w as [|x w IH]; intros a Hlen.
  - destruct a, b; reflexivity.
  - destruct a as [|y a]; [simpl in Hlen; lia|].
    cbn [append startswith]. rewrite IH; [reflexivity | simpl in Hlen; lia].
Qed.

Lemma match_here_needs_marker (s : string) :
  startswith s "OPEN_OK" = false -> match_here open_ok_re s = None.
Proof.
  intros H. unfold match_here, open_ok_re. rewrite rmatch_cat.
  cbn [rmatch]. rewrite H. reflexivity.
Qed.

(** The search goes past a text in which no OPEN_OK starts. *)
Lemma search_skips (before tail : string) :
  contains "OPEN_OK" (before ++ "OPEN_O") = false ->
  search open_ok_re (before ++ "OPEN_OK" ++ tail)
  = search open_ok_re ("OPEN_OK" ++ tail).
Proof.
  induction before as [|c before IH]; intros H; [reflexivity|].
  change (String c before ++ "OPEN_O")%string
    with (String c (before ++ "OPEN_O")) in H.
  cbn [contains] in H. apply orb_false_iff in H. destruct H as [Hst Hrest].
  change (String c before ++ "OPEN_OK" ++ tail)%string
    with (String c (before ++ "OPEN_OK" ++ tail)).
  cbn [search]. rewrite match_here_needs_marker; [apply IH, Hrest|].
  replace (String c (before ++ "OPEN_OK" ++ tail))
    with (String c (before ++ "OPEN_O") ++ String "K" tail)%string.
  - rewrite startswith_long; [exact Hst|].
    cbn [length]. rewrite str_length_app. simpl. lia.
  - cbn [append]. f_equal. rewrite str_app_assoc. reflexivity.
Qed.

Lemma link_id_of_success (before skipped digits rest default : string) :
  contains "OPEN_OK" (before ++ "OPEN_O") = false ->
  forall_chars notdigit skipped = true ->
  nonempty digits = true -> forall_chars isdigit digits = true ->
  head_not isdigit rest ->
  link_id_of (before ++ "OPEN_OK" ++ skipped ++ digits ++ rest) default
  = digits.
Proof.
  intros Hbefore Hskip Hne Hdig Hrest. unfold link_id_of.
  rewrite (search_skips before _ Hbefore).
  rewrite (search_here _ _ _
             (open_ok_re_matches skipped digits rest Hskip Hne Hdig Hrest)).
  reflexivity.
Qed.

Lemma open_profile_success (c : A2DP.t) (addr profile default digits : string)
      (polls : list poll) (grace : poll) :
  opened_with c addr profile polls digits ->
  exists c', _open_profile c addr profile default polls grace
             = (Return (true, Some digits), c').
Proof.
  intros [p [data [lines [p1 [before [skipped [rest
           [Hp [He [Hc [Hresp [Hbefore [Hskip [Hne [Hdig Hrest]]]]]]]]]]]]]]].
  unfold _open_profile. rewrite Hp.
  change ("OPEN " ++ addr ++ " " ++ profile ++ String CR EmptyString)%string
    with (open_command addr profile).
  rewrite He, Hc. cbv zeta. rewrite Hresp, contains_app_mid.
  rewrite (link_id_of_success before skipped digits rest default
             Hbefore Hskip Hne Hdig Hrest).
  eexists. reflexivity.
Qed.

(** X14: when the collected response holds a success marker, the link
    id is the first run of digits that follows the first OPEN_OK,
    wherever it stands, also inside a word and on a later line; the
    opening succeeds and tracks that id. *)
Theorem X14_link_id_is_first_digits_after_open_ok
        (c : A2DP.t) (address : option string) (addr digits : string)
        (polls : list poll) (grace : poll) :
  or_else address (paired_address c) = Some addr -> nonempty addr = true ->
  (opened_with c addr "A2DP" polls digits ->
   fst (open_a2dp c address polls grace) = Return true /\
   a2dp_link_id (snd (open_a2dp c address polls grace)) = Some digits)
  /\ (opened_with c addr "AVRCP" polls digits ->
      fst (open_avrcp c address polls grace) = Return true /\
      avrcp_link_id (snd (open_avrcp c address polls grace)) = Some digits).
Proof.
  intros Haddr Hne. split; intros Hopen.
  - unfold open_a2dp. rewrite Haddr, Hne.
    destruct (open_profile_success c addr "A2DP" "10" digits polls grace Hopen)
      as [c' Hrun].
    rewrite Hrun. split; reflexivity.
  - unfold open_avrcp. rewrite Haddr, Hne.
    destruct (open_profile_success c addr "AVRCP" "11" digits polls grace Hopen)
      as [c' Hrun].
    rewrite Hrun. split; reflexivity.
Qed.

(** A success line without link id: the digit of the profile name is
    taken for it. *)
Lemma X14_witness_digit_of_profile_name :
  fst (open_a2dp conn0 (Some "F84E1776FDB1")
         [recv "PENDING"; recv "OPEN_OK A2DP"] quiet) = Return true /\
  a2dp_link_id (snd (open_a2dp conn0 (Some "F84E1776FDB1")
         [recv "PENDING"; recv "OPEN_OK A2DP"] quiet)) = Some "2".
Proof.
  refine (proj1 (X14_link_id_is_first_digits_after_open_ok
                   conn0 (Some "F84E1776FDB1") "F84E1776FDB1" "2"
                   [recv "PENDING"; recv "OPEN_OK A2DP"] quiet
                   eq_refl eq_refl) _).
  exists open_port, (to_bytes (open_command "F84E1776FDB1" "A2DP")).
  exists ["PENDING"; "OPEN_OK A2DP"]. eexists.
  exists (String.append "PENDING" (String LF EmptyString)), " A", "DP".
  repeat split.
Defined.

(** *** Tracked link ids are digits *)

Lemma open_ok_re_capture (start rest : string) (m : captures) :
  matches open_ok_re start [] rest m ->
  exists g, m = [(1, g)] /\ 1 <= length g /\ forall_chars isdigit g = true.
Proof.
  unfold open_ok_re, star, plus. cbn [matches]. intros H.
  repeat match type of H with
         | exists _, _ => destruct H as [? H]
         | _ /\ _ => let H1 := fresh "Hm" in destruct H as [H1 H]
         end.
  repeat match goal with
         | Hx : exists _, _ |- _ => destruct Hx as [? Hx]
         | Hx : _ /\ _ |- _ => destruct Hx
         end.
  subst. rewrite take_consumed. eexists. split; [reflexivity|]. auto.
Qed.

Lemma link_id_of_digits (text default : string) :
  digit_link (Some default) -> digit_link (Some (link_id_of text default)).
Proof.
  intros Hd. unfold link_id_of.
  destruct (search open_ok_re text) as [m|] eqn:Hsearch; [|exact Hd].
  destruct (search_sound _ _ _ Hsearch) as [start [rest Hm]].
  destruct (open_ok_re_capture _ _ _ Hm) as [g [-> [Hlen Hdig]]].
  cbn [group Nat.eqb]. split; [|exact Hdig].
  destruct g; [simpl in Hlen; lia | reflexivity].
Qed.

Lemma drain_link (fuel : nat) (fails : bool) (p p' : port)
      (default : string) (ok : bool) (link : option string) :
  drain fuel fails p default = Some (Return (ok, link), p') ->
  digit_link (Some default) -> digit_link link.
Proof.
  revert p. induction fuel as [|fuel IH]; intros p; cbn [drain].
  - destruct (0 <? in_waiting p); [discriminate|]. intros [= _ <- _] H. exact H.
  - destruct (0 <? in_waiting p).
    2:{ intros [= _ <- _] H. exact H. }
    destruct fails; [discriminate|].
    destruct (read_stripped_line p) as [line p1].
    destruct (contains "OPEN_OK" line).
    + intros [= _ <- _] H. apply link_id_of_digits, H.
    + apply IH.
Qed.

(** [_open_profile] touches the port only, and the link id of a
    success is the default or digits of the response. *)
Lemma open_profile_frame (c : A2DP.t) (addr profile default : string)
      (polls : list poll) (grace : poll) :
  digit_link (Some default) ->
  let r := _open_profile c addr profile default polls grace in
  paired_address (snd r) = paired_address c
  /\ a2dp_link_id (snd r) = a2dp_link_id c
  /\ avrcp_link_id (snd r) = avrcp_link_id c
  /\ (forall ok link, fst r = Return (ok, link) -> digit_link link).
Proof.
  intros Hd. unfold _open_profile.
  destruct (raw_port c) as [p|e]; [|simpl; repeat split; discriminate].
  destruct (encode_ascii _) as [data|]; [|simpl; repeat split; discriminate].
  destruct (open_collect polls _ []) as [[lines|e] p1];
    [|simpl; repeat split; discriminate].
  cbv zeta.
  destruct (contains "OPEN_OK" (join (String LF EmptyString) lines)).
  { simpl. repeat split. intros ok link [= _ <-]. apply link_id_of_digits, Hd. }
  destruct (contains "ERROR" (join (String LF EmptyString) lines)).
  { simpl. repeat split. intros ok link [= _ <-]. exact I. }
  destruct (contains "PENDING" (join (String LF EmptyString) lines)).
  2:{ simpl. repeat split. intros ok link [= _ <-]. exact I. }
  destruct (drain _ (read_fails grace) (deliver grace p1) default)
    as [[r p2]|] eqn:Hdrain; [|simpl; repeat split; discriminate].
  simpl. repeat split. intros ok link ->.
  exact (drain_link _ _ _ _ _ _ _ Hdrain Hd).
Qed.

Lemma send_frame (c : A2DP.t) (b : ATSBT.t) :
  paired_address (with_bt c b) = paired_address c
  /\ a2dp_link_id (with_bt c b) = a2dp_link_id c
  /\ avrcp_link_id (with_bt c b) = avrcp_link_id c.
Proof. repeat split. Qed.

(** X15: a connection starts without tracked link, and whatever the
    device sends, every operation of the class leaves each tracked
    link id absent or a non-empty text of decimal digits. *)
Theorem X15_link_ids_stay_digits
        (c : A2DP.t) (address : option string) (addr action : string)
        (level duration : Z) (polls polls' : list poll) (grace : poll) :
  links_ok c ->
  links_ok (snd (open_a2dp c address polls grace))
  /\ links_ok (snd (open_avrcp c address polls grace))
  /\ links_ok (snd (pair_device c addr polls))
  /\ links_ok (snd (scan_for_devices c duration polls))
  /\ links_ok (snd (set_volume c level polls))
  /\ links_ok (snd (music c action polls))
  /\ links_ok (snd (disconnect c polls polls')).
Proof.
  intros [Ha Hv]. unfold links_ok.
  split; [|split; [|split; [|split; [|split; [|split]]]]].
  - unfold open_a2dp.
    destruct (or_else address (paired_address c)) as [a|]; [|auto].
    destruct (nonempty a); [|auto].
    destruct (open_profile_frame c a "A2DP" "10" polls grace)
      as [_ [Ha' [Hv' Hlink]]]; [split; reflexivity|].
    destruct (_open_profile c a "A2DP" "10" polls grace) as [[[ok link]|e] c'];
      cbn [fst snd] in *; [|rewrite Ha', Hv'; auto].
    destruct ok; cbn [snd set_a2dp a2dp_link_id avrcp_link_id];
      rewrite ?Ha', ?Hv'; eauto.
  - unfold open_avrcp.
    destruct (or_else address (paired_address c)) as [a|]; [|auto].
    destruct (nonempty a); [|auto].
    destruct (open_profile_frame c a "AVRCP" "11" polls grace)
      as [_ [Ha' [Hv' Hlink]]]; [split; reflexivity|].
    destruct (_open_profile c a "AVRCP" "11" polls grace) as [[[ok link]|e] c'];
      cbn [fst snd] in *; [|rewrite Ha', Hv'; auto].
    destruct ok; cbn [snd set_avrcp a2dp_link_id avrcp_link_id];
      rewrite ?Ha', ?Hv'; eauto.
  - unfold pair_device.
    destruct (send_command (bt c) _ polls) as [[r|e] b]; [|auto].
    destruct (contains "OK" r || contains "PAIR_OK" r); [auto|].
    destruct (contains "ERROR" r); auto.
  - unfold scan_for_devices.
    destruct (raw_port c); [|auto].
    destruct (encode_ascii _); [|auto].
    destruct (scan_collect polls _ []) as [[lines|e] p']; auto.
  - unfold set_volume.
    destruct (send_command (bt c) _ polls) as [r b]. auto.
  - unfold music.
    destruct (if truthy (avrcp_link_id c) then _ else _) as [r b]. auto.
  - destruct c as [b0 pa a v]. cbn [a2dp_link_id avrcp_link_id] in Ha, Hv.
    unfold disconnect. cbn [a2dp_link_id avrcp_link_id bt].
    destruct a as [la|]; [destruct (nonempty la)|];
      try (destruct (send_command b0 _ polls) as [[r|e] b1]);
      cbn [set_a2dp with_bt a2dp_link_id avrcp_link_id bt paired_address snd];
      try (split; assumption);
      (destruct v as [lv|]; [destruct (nonempty lv)|]);
      try match goal with
          | |- context [send_command ?x ?y ?z] =>
              destruct (send_command x y z) as [[r'|e'] b2]
          end;
      cbn [set_avrcp with_bt a2dp_link_id avrcp_link_id bt paired_address snd];
      split; solve [assumption | exact I].
Qed.

Lemma X15_witness_fresh_connection :
  links_ok (snd (open_a2dp (init bt0) (Some "F84E1776FDB1")
                   [recv "OPEN_OK link=7 A2DP"] quiet)).
Proof.
  refine (proj1 (X15_link_ids_stay_digits
                   (init bt0) (Some "F84E1776FDB1") "F84E1776FDB1" "PLAY" 0 0
                   [recv "OPEN_OK link=7 A2DP"] [] quiet _)).
  split; exact I.
Defined.

(** *** Teardown of a connection whose links are digits *)

Lemma isdigit_ascii (c : ascii) : isdigit c = true -> (code c <? 128) = true.
Proof. destruct c as [[] [] [] [] [] [] [] []]; vm_compute; congruence. Qed.

Lemma digit_link_ascii (l : string) :
  digit_link (Some l) -> nonempty l = true /\ is_ascii l = true.
Proof.
  intros [Hne Hd]. split; [exact Hne|].
  exact (forall_chars_impl _ _ l isdigit_ascii Hd).
Qed.

Lemma close_ok (b : ATSBT.t) (p : port) (l : string) (polls : list poll) :
  serial b = Some p -> is_open p = true -> is_ascii l = true ->
  exists resp p',
    send_command b ("CLOSE " ++ l) polls = (Return resp, with_serial b p')
    /\ is_open p' = true.
Proof.
  intros Hs Ho Ha.
  destruct (send_command_ok b p _ polls Hs Ho (is_ascii_close l Ha))
    as [resp [p' [Hsend [Ho' _]]]].
  eauto.
Qed.

(** X16: on an open transport, a connection whose tracked link ids are
    digits is torn down without error whatever the device answers: no
    link is tracked afterwards, and a second [disconnect] sends
    nothing and changes nothing. *)
Theorem X16_disconnect_twice_is_harmless
        (c : A2DP.t) (p : port) (polls_a2dp polls_avrcp : list poll) :
  serial (bt c) = Some p -> is_open p = true -> links_ok c ->
  let c1 := snd (disconnect c polls_a2dp polls_avrcp) in
  fst (disconnect c polls_a2dp polls_avrcp) = Return tt
  /\ a2dp_link_id c1 = None /\ avrcp_link_id c1 = None
  /\ forall polls polls', disconnect c1 polls polls' = (Return tt, c1).
Proof.
  intros Hs Ho [Ha Hv].
  destruct c as [b pa a v]. cbn [a2dp_link_id avrcp_link_id bt] in *.
  unfold disconnect. cbn [a2dp_link_id avrcp_link_id bt].
  destruct a as [la|].
  - destruct (digit_link_ascii la Ha) as [Hla Hascii]. rewrite Hla.
    destruct (close_ok b p la polls_a2dp Hs Ho Hascii)
      as [r1 [p1 [Hsend1 Ho1]]].
    rewrite Hsend1.
    cbn [set_a2dp with_bt a2dp_link_id avrcp_link_id bt paired_address].
    destruct v as [lv|].
    + destruct (digit_link_ascii lv Hv) as [Hlv Hascii']. rewrite Hlv.
      destruct (close_ok (with_serial b p1) p1 lv polls_avrcp eq_refl Ho1 Hascii')
        as [r2 [p2 [Hsend2 Ho2]]].
      rewrite Hsend2. repeat split.
    + repeat split.
  - cbn [a2dp_link_id avrcp_link_id bt].
    destruct v as [lv|].
    + destruct (digit_link_ascii lv Hv) as [Hlv Hascii']. rewrite Hlv.
      destruct (close_ok b p lv polls_avrcp Hs Ho Hascii')
        as [r2 [p2 [Hsend2 Ho2]]].
      rewrite Hsend2. repeat split.
    + repeat split.
Qed.

Lemma X16_witness_two_links :
  let c := mkConn bt0 (Some "F84E1776FDB1") (Some "10") (Some "11") in
  let c1 := snd (disconnect c [recv "OK"] [recv "ERROR"]) in
  fst (disconnect c [recv "OK"] [recv "ERROR"]) = Return tt
  /\ a2dp_link_id c1 = None /\ avrcp_link_id c1 = None
  /\ forall polls polls', disconnect c1 polls polls' = (Return tt, c1).
Proof.
  intros c.
  refine (X16_disconnect_twice_is_harmless
            c open_port [recv "OK"] [recv "ERROR"] eq_refl eq_refl _).
  split; split; reflexivity.
Defined.

(** *** Which address is opened *)

(** X17: without an address of its own and without a paired address
    [open_a2dp] and [open_avrcp] return False and send nothing; after
    a pairing that returned true, opening without address is opening
    the paired address. *)
Theorem X17_open_falls_back_to_paired_address
        (c : A2DP.t) (address : option string) (addr : string)
        (pair_polls polls : list poll) (grace : poll) :
  (truthy address = false -> truthy (paired_address c) = false ->
   open_a2dp c address polls grace = (Return false, c)
   /\ open_avrcp c address polls grace = (Return false, c))
  /\ (fst (pair_device c addr pair_polls) = Return true ->
      let c1 := snd (pair_device c addr pair_polls) in
      open_a2dp c1 None polls grace = open_a2dp c1 (Some addr) polls grace
      /\ open_avrcp c1 None polls grace = open_avrcp c1 (Some addr) polls grace).
Proof.
  split.
  - intros Ha Hp. unfold open_a2dp, open_avrcp, or_else. rewrite Ha.
    destruct (paired_address c) as [l|]; [|split; reflexivity].
    cbn [truthy] in Hp. rewrite Hp. split; reflexivity.
  - unfold pair_device.
    destruct (send_command (bt c) _ pair_polls) as [[r|e] b];
      [|discriminate].
    assert (H : forall c1, paired_address c1 = Some addr ->
              open_a2dp c1 None polls grace = open_a2dp c1 (Some addr) polls grace
              /\ open_avrcp c1 None polls grace
                 = open_avrcp c1 (Some addr) polls grace).
    { intros c1 Hc1. unfold open_a2dp, open_avrcp, or_else, truthy.
      rewrite Hc1. destruct (nonempty addr) eqn:Hn; rewrite ?Hn;
        split; reflexivity. }
    destruct (contains "OK" r || contains "PAIR_OK" r).
    + intros _. apply H. reflexivity.
    + destruct (contains "ERROR" r); [discriminate|].
      intros _. apply H. reflexivity.
Qed.

(** *** An opening that is refused *)

Lemma open_profile_refused (c : A2DP.t) (addr profile default : string)
      (polls : list poll) (grace : poll) :
  open_refused c addr profile polls ->
  exists c', _open_profile c addr profile default polls grace
             = (Return (false, None), c')
             /\ paired_address c' = paired_address c
             /\ a2dp_link_id c' = a2dp_link_id c
             /\ avrcp_link_id c' = avrcp_link_id c.
Proof.
  intros [p [data [lines [p1 [Hp [He [Hc [Hok Hwhy]]]]]]]].
  unfold _open_profile. rewrite Hp.
  change ("OPEN " ++ addr ++ " " ++ profile ++ String CR EmptyString)%string
    with (open_command addr profile).
  rewrite He, Hc. cbv zeta. rewrite Hok.
  destruct Hwhy as [Herr|Hpend].
  - rewrite Herr. eexists. repeat split.
  - destruct (contains "ERROR" (join (String LF EmptyString) lines));
      [|rewrite Hpend]; eexists; repeat split.
Qed.

(** X18: when the collected response holds no success marker and
    either an error marker or no pending marker (also when nothing
    arrives at all), the opening returns False and the tracked link
    ids and the paired address stay as they were. *)
Theorem X18_refused_open_keeps_tracked_links
        (c : A2DP.t) (address : option string) (addr : string)
        (polls : list poll) (grace : poll) :
  or_else address (paired_address c) = Some addr -> nonempty addr = true ->
  (open_refused c addr "A2DP" polls ->
   let r := open_a2dp c address polls grace in
   fst r = Return false
   /\ a2dp_link_id (snd r) = a2dp_link_id c
   /\ avrcp_link_id (snd r) = avrcp_link_id c
   /\ paired_address (snd r) = paired_address c)
  /\ (open_refused c addr "AVRCP" polls ->
      let r := open_avrcp c address polls grace in
      fst r = Return false
      /\ a2dp_link_id (snd r) = a2dp_link_id c
      /\ avrcp_link_id (snd r) = avrcp_link_id c
      /\ paired_address (snd r) = paired_address c).
Proof.
  intros Haddr Hne. split; intros Hrefused.
  - unfold open_a2dp. rewrite Haddr, Hne.
    destruct (open_profile_refused c addr "A2DP" "10" polls grace Hrefused)
      as [c' [Hrun [H1 [H2 H3]]]].
    rewrite Hrun. cbn [fst snd]. auto.
  - unfold open_avrcp. rewrite Haddr, Hne.
    destruct (open_profile_refused c addr "AVRCP" "11" polls grace Hrefused)
      as [c' [Hrun [H1 [H2 H3]]]].
    rewrite Hrun. cbn [fst snd]. auto.
Qed.

Lemma X18_witness_silent_device :
  let c := mkConn bt0 (Some "F84E1776FDB1") (Some "7") None in
  let r := open_a2dp c None [quiet; quiet] quiet in
  fst r = Return false
  /\ a2dp_link_id (snd r) = Some "7"
  /\ avrcp_link_id (snd r) = None
  /\ paired_address (snd r) = Some "F84E1776FDB1".
Proof.
  intros c.
  refine (proj1 (X18_refused_open_keeps_tracked_links
                   c None "F84E1776FDB1" [quiet; quiet] quiet eq_refl eq_refl) _).
  exists open_port, (to_bytes (open_command "F84E1776FDB1" "A2DP")).
  exists []. eexists. repeat split. right. reflexivity.
Defined.

End OpenFacts.

(** ** Media control and the device table *)

Module MediaFacts.
Import PyStr Serial Spec PyStrFacts ATSBTFacts A2DPFacts.
Import EngineFacts InfoFacts OpenFacts.
Import ATSBT A2DP.

Lemma music_bytes (c : A2DP.t) (p : port) (action : string)
      (polls : list poll) :
  serial (bt c) = Some p -> is_open p = true ->
  is_ascii (music_command c action) = true ->
  written (port_of (snd (music c action polls)))
  = written p ++ to_bytes (with_CR (music_command c action)).
Proof.
  intros Hs Ho Ha. unfold music, music_command, truthy in *.
  destruct (avrcp_link_id c) as [l|]; [destruct (nonempty l)|];
    destruct (send_command_ok (bt c) p _ polls Hs Ho Ha)
      as [resp [p' [Hsend [_ Hw]]]];
    rewrite Hsend; exact Hw.
Qed.

(** X19: on an open transport [music_play], [music_pause] and
    [music_stop] write one command each: MUSIC, the tracked AVRCP link
    id and the action when a link is tracked, otherwise AVRCP and the
    action. *)
Theorem X19_media_commands_address_the_tracked_link
        (c : A2DP.t) (p : port) (polls : list poll) :
  serial (bt c) = Some p -> is_open p = true ->
  (forall l, avrcp_link_id c = Some l -> is_ascii l = true) ->
  written (port_of (snd (music_play c polls)))
  = written p ++ to_bytes (with_CR (music_command c "PLAY"))
  /\ written (port_of (snd (music_pause c polls)))
     = written p ++ to_bytes (with_CR (music_command c "PAUSE"))
  /\ written (port_of (snd (music_stop c polls)))
     = written p ++ to_bytes (with_CR (music_command c "STOP")).
Proof.
  intros Hs Ho Hl.
  assert (Ha : forall action, is_ascii action = true ->
                              is_ascii (music_command c action) = true).
  { intros action Hact. unfold music_command.
    destruct (avrcp_link_id c) as [l|] eqn:Hc;
      [destruct (nonempty l)|];
      rewrite ?is_ascii_app, ?(Hl l eq_refl), ?Hact; reflexivity. }
  repeat split; apply music_bytes; auto.
Qed.

Lemma X19_witness_tracked_and_untracked :
  written (port_of (snd (music_play (mkConn bt0 None None (Some "11"))
                           [recv "OK"])))
  = to_bytes (String.append "MUSIC 11 PLAY" (String CR EmptyString))
  /\ written (port_of (snd (music_pause conn0 [recv "OK"])))
     = to_bytes (String.append "AVRCP PAUSE" (String CR EmptyString)).
Proof.
  split.
  - refine (proj1 (X19_media_commands_address_the_tracked_link
                     (mkConn bt0 None None (Some "11")) open_port [recv "OK"]
                     eq_refl eq_refl _)).
    intros l [= <-]. reflexivity.
  - refine (proj1 (proj2 (X19_media_commands_address_the_tracked_link
                            conn0 open_port [recv "OK"] eq_refl eq_refl _))).
    intros l [=].
Defined.

(** *** The volume of the media menu *)

Lemma menu_step_range (c c' : A2DP.t) (volume volume' : Z) (i : menu_input) :
  (0 <= volume <= 127)%Z ->
  menu_step c volume i = Some (Return volume', c') ->
  (0 <= volume' <= 127)%Z.
Proof.
  intros Hv. unfold menu_step. destruct i as [text polls|]; [|discriminate].
  destruct (String.eqb (lower (strip text)) "q"); [discriminate|].
  destruct (String.eqb (lower (strip text)) "p").
  { destruct (music_play c polls) as [[r|e] c1]; intros [= <- _]; exact Hv. }
  destruct (String.eqb (lower (strip text)) "s").
  { destruct (music_pause c polls) as [[r|e] c1]; intros [= <- _]; exact Hv. }
  destruct (String.eqb (lower (strip text)) "v+").
  { destruct (set_volume c _ polls) as [[r|e] c1]; intros [= <- _]; lia. }
  destruct (String.eqb (lower (strip text)) "v-").
  { destruct (set_volume c _ polls) as [[r|e] c1]; intros [= <- _]; lia. }
  intros [= <- _]. exact Hv.
Qed.

Lemma menu_loop_range (c c' : A2DP.t) (volume final : Z)
      (inputs : list menu_input) :
  (0 <= volume <= 127)%Z ->
  menu_loop c volume inputs = (Return final, c') ->
  (0 <= final <= 127)%Z.
Proof.
  revert c volume. induction inputs as [|i inputs IH]; intros c volume Hv;
    cbn [menu_loop]; [discriminate|].
  destruct (menu_step c volume i) as [[[v1|e] c1]|] eqn:Hstep.
  - apply IH. exact (menu_step_range _ _ _ _ _ Hv Hstep).
  - discriminate.
  - intros [= <- _]. exact Hv.
Qed.

(** X20: whatever the user types and whatever the device answers, the
    volume of the media menu stays between 0 and 127: when the menu is
    left normally its volume is in that range. *)
Theorem X20_menu_volume_stays_in_range
        (c c' : A2DP.t) (inputs : list menu_input) (final : Z) :
  media_control_menu c inputs = (Return final, c') ->
  (0 <= final <= 127)%Z.
Proof.
  unfold media_control_menu. apply menu_loop_range. lia.
Qed.

Lemma X20_witness_down_to_zero :
  (0 <= 0 <= 127)%Z.
Proof.
  exact (X20_menu_volume_stays_in_range
           conn0 _
           [Typed "v-" [recv "OK"]; Typed "v-" []; Typed "v-" []; Typed "v-" [];
            Typed "v-" []; Typed "v-" []; Typed "V- " []; Typed "v-" [];
            Typed "hello" []; Typed "Q" []]
           0 eq_refl).
Defined.

Lemma set_volume_ready (c : A2DP.t) (level : Z) (polls : list poll) :
  volume_ready c ->
  exists r c',
    set_volume c level polls = (Return r, c') /\ volume_ready c'.
Proof.
  intros [p [Hs [Ho Ha]]]. unfold set_volume. rewrite volume_link_or_else.
  assert (Hcmd : is_ascii ("VOLUME " ++ volume_link c ++ " "
                           ++ str_of_int (clamp_volume level)) = true).
  { rewrite !is_ascii_app, Ha, is_ascii_str_of_int. reflexivity. }
  destruct (send_command_ok (bt c) p _ polls Hs Ho Hcmd)
    as [resp [p' [Hsend [Ho' _]]]].
  rewrite Hsend. exists resp, (with_bt c (with_serial (bt c) p')).
  split; [reflexivity|]. exists p'. split; [reflexivity|].
  split; [exact Ho' | exact Ha].
Qed.

Lemma menu_step_quit (c : A2DP.t) (volume : Z) (polls : list poll) :
  menu_step c volume (Typed "q" polls) = None.
Proof.
  unfold menu_step.
  replace (lower (strip "q")) with "q" by (vm_compute; reflexivity).
  reflexivity.
Qed.

Lemma menu_louder (inputs : list menu_input) :
  Forall asks_louder inputs ->
  forall (c : A2DP.t) (volume : Z) (last_polls : list poll),
    volume_ready c -> (volume <= 127)%Z ->
    exists c',
      menu_loop c volume (inputs ++ [Typed "q" last_polls])
      = (Return (Z.min 127 (volume + 10 * Z.of_nat (List.length inputs))), c').
Proof.
  induction 1 as [|i inputs Hi _ IH]; intros c volume last_polls Hready Hv.
  - exists c. cbn [app menu_loop List.length].
    rewrite menu_step_quit. f_equal. f_equal.
    change (Z.of_nat 0) with 0%Z. lia.
  - destruct i as [text polls|]; [|contradiction]. cbn [asks_louder] in Hi.
    cbn [app menu_loop]. unfold menu_step. rewrite Hi. cbn [String.eqb Ascii.eqb Bool.eqb].
    destruct (set_volume_ready c (Z.min 127 (volume + 10)) polls Hready)
      as [r [c1 [Hset Hready1]]].
    rewrite Hset.
    destruct (IH c1 (Z.min 127 (volume + 10)) last_polls Hready1) as [c' Hrun];
      [lia|].
    exists c'. rewrite Hrun. f_equal. f_equal.
    cbn [List.length]. lia.
Qed.

(** X21: on a connection where [set_volume] goes through, asking the
    media menu for more volume n times and then leaving it gives the
    volume 64 + 10 n, held at 127 from the seventh request on. *)
Theorem X21_menu_volume_saturates
        (c : A2DP.t) (inputs : list menu_input) (last_polls : list poll) :
  volume_ready c -> Forall asks_louder inputs ->
  fst (media_control_menu c (inputs ++ [Typed "q" last_polls]))
  = Return (Z.min 127 (64 + 10 * Z.of_nat (List.length inputs))).
Proof.
  intros Hready Hall. unfold media_control_menu.
  destruct (menu_louder inputs Hall c 64 last_polls Hready) as [c' Hrun]; [lia|].
  rewrite Hrun. reflexivity.
Qed.

Lemma X21_witness_seven_requests :
  fst (media_control_menu conn0
         ([Typed "v+" [recv "OK"]; Typed " V+" []; Typed "v+" []; Typed "v+" [];
           Typed "v+" []; Typed "v+" []; Typed "v+" [recv "ERROR"]]
          ++ [Typed "q" []]))
  = Return 127%Z.
Proof.
  refine (X21_menu_volume_saturates conn0 _ [] _ _).
  - exists open_port. repeat split.
  - repeat constructor.
Defined.

(** *** The table of [print_devices] *)

Lemma times_length (c : ascii) (n : nat) : length (times c n) = n.
Proof. induction n as [|n IH]; simpl; [reflexivity | f_equal; exact IH]. Qed.

Lemma ljust_length (width : nat) (s : string) :
  length s <= width -> length (ljust width s) = width.
Proof.
  intros H. unfold ljust. rewrite str_length_app, times_length. lia.
Qed.

Lemma device_rows_nth (devices : list device) (i k : nat) (d : device) :
  nth_error devices k = Some d ->
  nth_error (device_rows i devices) k = Some (device_row (i + k) d).
Proof.
  revert i k. induction devices as [|d0 devices IH]; intros i k H.
  - destruct k; discriminate.
  - destruct k as [|k]; cbn [device_rows nth_error] in *.
    + injection H as ->. rewrite Nat.add_0_r. reflexivity.
    + rewrite (IH (S i) k H). f_equal. f_equal. lia.
Qed.

Lemma device_rows_length (devices : list device) (i : nat) :
  List.length (device_rows i devices) = List.length devices.
Proof.
  revert i. induction devices as [|d devices IH]; intros i; simpl;
    [reflexivity | f_equal; apply IH].
Qed.

(** X22: for a list that is not empty [print_devices] prints four
    heading lines, one row per device in the order of the list,
    numbered from 1, and a closing rule.  In a row whose number,
    address and signal text fit their columns the name starts at
    column 27; the signal text reads N/A when the signal strength is
    absent and also when it is 0. *)
Theorem X22_device_table_rows
        (devices : list device) (k : nat) (d : device) :
  nth_error devices k = Some d ->
  List.length (print_devices devices) = 5 + List.length devices
  /\ nth_error (print_devices devices) (4 + k) = Some (device_row (S k) d)
  /\ (length (str_of_int (Z.of_nat (S k))) <= 4 ->
      length (address d) <= 14 -> length (rssi_str d) <= 6 ->
      exists columns,
        length columns = 27
        /\ device_row (S k) d = (columns ++ name d)%string)
  /\ (rssi d = None \/ rssi d = Some 0%Z -> rssi_str d = "N/A").
Proof.
  intros Hk.
  assert (Hne : devices <> []) by (destruct devices, k; discriminate).
  destruct devices as [|d0 devices]; [contradiction|].
  split; [|split; [|split]].
  - unfold print_devices.
    rewrite !length_app, device_rows_length. simpl. lia.
  - unfold print_devices.
    change (4 + k) with (S (S (S (S k)))). cbn [app nth_error].
    rewrite nth_error_app1.
    + apply (device_rows_nth (d0 :: devices) 1 k d Hk).
    + rewrite device_rows_length. apply nth_error_Some. congruence.
  - intros Hi Ha Hr. unfold device_row.
    exists (ljust 4 (str_of_int (Z.of_nat (S k))) ++ " "
            ++ ljust 14 (address d) ++ " " ++ ljust 6 (rssi_str d) ++ " ")%string.
    split.
    + rewrite !str_length_app, !ljust_length by assumption. reflexivity.
    + rewrite !str_app_assoc. reflexivity.
  - unfold rssi_str. intros [-> | ->]; reflexivity.
Qed.

Lemma X22_witness_second_row :
  List.length (print_devices
                 [mkDevice "F84E1776FDB1" "LinkBuds S" (Some (-61)%Z);
                  mkDevice "AABBCCDDEEFF" "Unknown" None]) = 5 + 2
  /\ nth_error (print_devices
                  [mkDevice "F84E1776FDB1" "LinkBuds S" (Some (-61)%Z);
                   mkDevice "AABBCCDDEEFF" "Unknown" None]) (4 + 1)
     = Some "2    AABBCCDDEEFF   N/A    Unknown".
Proof.
  pose proof (X22_device_table_rows
                [mkDevice "F84E1776FDB1" "LinkBuds S" (Some (-61)%Z);
                 mkDevice "AABBCCDDEEFF" "Unknown" None]
                1 (mkDevice "AABBCCDDEEFF" "Unknown" None) eq_refl) as H.
  exact (conj (proj1 H) (proj1 (proj2 H))).
Defined.

End MediaFacts.
